(** * mathisthomsen.de: render engine, i18n layer and export server

    A shallow embedding of the parts of [js/cv.js], [js/portfolio.js],
    [js/animations.js] and [server/export.js] that decide the behaviour of
    language resolution, localisation of bilingual fields, date formatting,
    case-study block rendering, the overview page, the section renderers of
    the CV with their bars, the language switch, the reveal and bar
    controllers and the two HTTP handlers.

    Conventions.
    - A JavaScript string is a [string]; [toLowerCase], [toUpperCase] act on
      the ASCII letters (language tags, the only strings they are applied to,
      are ASCII).
    - JSON data is a [value].  A property read gives what the data holds
      under the key.  The data holds no functions, so a member that an
      object only inherits from [Object.prototype] has no value here; what
      is stated about a read is stated for the keys the object holds
      itself and for the keys that name no inherited member ([inherited]),
      which covers every language code.
    - Module-level variables ([activeLang], [cvData], ...) and the browser
      objects the code touches are threaded explicitly.
    - Text assigned through [innerHTML] is kept as it is ([Markup]), not
      parsed.  What is stated about rendered data therefore follows the
      elements the code itself creates and appends: children are selected
      by class along the path from the mount ([children_with]), which does
      not depend on what a parser makes of a text from the data.
    - A number is an integer; where one is printed ([to_string]), the
      statements take it from the range JavaScript holds exactly
      ([safe_integer]). *)

From stdpp Require Import base option strings list gmap pretty.
From Stdlib Require Import ZArith Ascii String Lia.

#[local] Set Warnings "-register-all".
#[local] Open Scope string_scope.
#[local] Open Scope list_scope.

(** ** JavaScript values and strings *)

Module JS.

Inductive value :=
| VUndefined
| VNull
| VBool (b : bool)
| VNum (n : Z)
| VStr (s : string)
| VArr (l : list value)
| VObj (m : gmap string value).

(** ToBoolean. *)
Definition truthy (v : value) : bool :=
  match v with
  | VUndefined | VNull => false
  | VBool b => b
  | VNum n => negb (n =? 0)%Z
  | VStr s => negb (String.eqb s "")
  | VArr _ | VObj _ => true
  end.

(** [typeof v === 'string'] *)
Definition is_string (v : value) : bool :=
  match v with VStr _ => true | _ => false end.

Fixpoint join (sep : string) (l : list string) : string :=
  match l with
  | [] => ""
  | [x] => x
  | x :: r => x +:+ sep +:+ join sep r
  end.

(** ToString.  A number is printed by its decimal digits, which is what
    [String] gives for the integers of [safe_integer] below. *)
Fixpoint to_string (v : value) : string :=
  match v with
  | VUndefined => "undefined"
  | VNull => "null"
  | VBool true => "true"
  | VBool false => "false"
  | VNum n => pretty n
  | VStr s => s
  | VArr l =>
      join "," (List.map (fun x => match x with
                                   | VUndefined | VNull => ""
                                   | _ => to_string x
                                   end) l)
  | VObj _ => "[object Object]"
  end.

(** The integers a JavaScript number holds exactly
    ([Number.MIN_SAFE_INTEGER] to [Number.MAX_SAFE_INTEGER]); on these
    [String] prints the decimal digits, as [to_string] does. *)
Definition safe_integer (n : Z) : bool := (Z.abs n <=? 9007199254740991)%Z.

(** The string-keyed members that every object inherits from
    [Object.prototype], each with the text [String] gives for it (as V8
    prints a built-in function). *)
Definition OBJECT_PROTOTYPE : list (string * string) :=
  [("constructor", "function Object() { [native code] }");
   ("__defineGetter__", "function __defineGetter__() { [native code] }");
   ("__defineSetter__", "function __defineSetter__() { [native code] }");
   ("hasOwnProperty", "function hasOwnProperty() { [native code] }");
   ("__lookupGetter__", "function __lookupGetter__() { [native code] }");
   ("__lookupSetter__", "function __lookupSetter__() { [native code] }");
   ("isPrototypeOf", "function isPrototypeOf() { [native code] }");
   ("propertyIsEnumerable", "function propertyIsEnumerable() { [native code] }");
   ("toString", "function toString() { [native code] }");
   ("valueOf", "function valueOf() { [native code] }");
   ("__proto__", "[object Object]");
   ("toLocaleString", "function toLocaleString() { [native code] }")].

(** [k] names a member inherited from [Object.prototype]. *)
Definition inherited (k : string) : bool :=
  existsb (fun kv => String.eqb k (fst kv)) OBJECT_PROTOTYPE.

(** Index of an array element named by a property key, if any. *)
Fixpoint array_index (k : string) (i : nat) (l : list value) : option value :=
  match l with
  | [] => None
  | x :: r => if String.eqb k (pretty i) then Some x else array_index k (S i) r
  end.

(** [v[k]] for a key [k] of the data: [None] is the TypeError raised on
    [undefined] and [null].  The data holds no functions, so a member that
    [v] would only inherit from a built-in prototype (see [inherited]) has
    no value here: the read is modelled for the keys that name no such
    member, and for the keys [v] holds itself.  (No string reaches a
    property read in the code modelled here.) *)
Definition get_prop (v : value) (k : string) : option value :=
  match v with
  | VUndefined | VNull => None
  | VObj m => Some (default VUndefined (m !! k))
  | VArr l =>
      if String.eqb k "length" then Some (VNum (Z.of_nat (List.length l)))
      else Some (default VUndefined (array_index k 0 l))
  | VStr _ | VBool _ | VNum _ => Some VUndefined
  end.

(** [a || b] on already evaluated operands. *)
Definition or_else (a b : value) : value := if truthy a then a else b.

Definition lower_ascii (c : ascii) : ascii :=
  let n := nat_of_ascii c in
  if (65 <=? n)%nat && (n <=? 90)%nat then ascii_of_nat (n + 32) else c.

Definition upper_ascii (c : ascii) : ascii :=
  let n := nat_of_ascii c in
  if (97 <=? n)%nat && (n <=? 122)%nat then ascii_of_nat (n - 32) else c.

Fixpoint map_chars (f : ascii -> ascii) (s : string) : string :=
  match s with
  | EmptyString => EmptyString
  | String c r => String (f c) (map_chars f r)
  end.

Definition toLowerCase : string -> string := map_chars lower_ascii.
Definition toUpperCase : string -> string := map_chars upper_ascii.

(** [s.slice(0, n)] *)
Definition slice0 (n : nat) (s : string) : string := String.substring 0 n s.

(** [s.split(sep)] for a one-character separator; never empty. *)
Fixpoint split (sep : ascii) (s : string) : list string :=
  match s with
  | EmptyString => [EmptyString]
  | String c r =>
      if Ascii.eqb c sep then EmptyString :: split sep r
      else match split sep r with
           | h :: tl => String c h :: tl
           | [] => [String c EmptyString]
           end
  end.

(** ASCII whitespace: tab, line feed, form feed, carriage return, space. *)
Definition is_ascii_whitespace (c : ascii) : bool :=
  existsb (Ascii.eqb c) ["009"; "010"; "012"; "013"; " "]%char.

(** The pieces of [s] between the characters that satisfy [p]; never
    empty. *)
Fixpoint split_by (p : ascii -> bool) (s : string) : list string :=
  match s with
  | EmptyString => [EmptyString]
  | String c r =>
      if p c then EmptyString :: split_by p r
      else match split_by p r with
           | h :: tl => String c h :: tl
           | [] => [String c EmptyString]
           end
  end.

(** The tokens of a whitespace-separated attribute value, as a
    [DOMTokenList] and a class selector see them: the pieces between ASCII
    whitespace, empty ones left out. *)
Definition tokens (s : string) : list string :=
  List.filter (fun t => negb (String.eqb t "")) (split_by is_ascii_whitespace s).

Definition startsWith (s p : string) : bool := String.prefix p s.

Fixpoint endsWith_char (s : string) (c : ascii) : bool :=
  match s with
  | EmptyString => false
  | String a EmptyString => Ascii.eqb a c
  | String _ r => endsWith_char r c
  end.

Definition is_digit (c : ascii) : bool :=
  let n := nat_of_ascii c in (48 <=? n)%nat && (n <=? 57)%nat.

(** [/^\d+$/.test(s)] *)
Definition all_digits (s : string) : bool :=
  negb (String.eqb s "") && forallb is_digit (list_ascii_of_string s).

(** The double-quote character. *)
Definition dquote : ascii := "034"%char.

(** [arr.includes(x)] on an array of strings. *)
Definition includes (l : list string) (x : value) : bool :=
  match x with
  | VStr s => existsb (String.eqb s) l
  | _ => false
  end.

(** A string or [null]/[undefined] coming back from a browser API. *)
Definition of_option (o : option string) : value :=
  match o with Some s => VStr s | None => VNull end.

End JS.
Import JS.

(** ** Localisation helpers shared by [cv.js] and [portfolio.js] *)

Module I18n.

Definition SUPPORTED_LANGS : list string := ["de"; "en"].
Definition STORAGE_KEY : string := "cv-lang".

(** The three ambient inputs of [resolveInitialLang]:
    the parsed query string ([URLSearchParams], name/value pairs in order),
    [localStorage], and [navigator.language]. *)
Record browser := {
  search : list (string * string);
  localStorage : gmap string string;
  navigator_language : option string
}.

(** [params.get(name)]: the first value under [name], or [null]. *)
Fixpoint params_get (params : list (string * string)) (name : string) : option string :=
  match params with
  | [] => None
  | (k, v) :: r => if String.eqb k name then Some v else params_get r name
  end.

Definition getItem (ls : gmap string string) (k : string) : option string := ls !! k.

Definition resolveInitialLang (w : browser) : string :=
  let from_browser :=
    let browser :=
      slice0 2 (toLowerCase
                  (to_string (or_else (of_option (navigator_language w)) (VStr "")))) in
    if includes SUPPORTED_LANGS (VStr browser) then browser else "de" in
  let from_storage :=
    match getItem (localStorage w) STORAGE_KEY with
    | Some stored =>
        if truthy (VStr stored) && includes SUPPORTED_LANGS (VStr stored)
        then stored else from_browser
    | None => from_browser
    end in
  match params_get (search w) "lang" with
  | Some qLang =>
      if truthy (VStr qLang) && includes SUPPORTED_LANGS (VStr qLang)
      then qLang else from_storage
  | None => from_storage
  end.

(** [t(field, lang)], evaluated statement by statement; a property read on
    [undefined] or [null] would raise ([None]). *)
Definition t_run (field : value) (lang : string) : option value :=
  if negb (truthy field) then Some (VStr "")
  else if is_string field then Some field
  else
    a ← get_prop field lang;
    if truthy a then Some a
    else
      b ← get_prop field "de";
      Some (or_else b (VStr "")).

(** The value [t] returns (see [t_run_returns]). *)
Definition t (field : value) (lang : string) : value :=
  default (VStr "") (t_run field lang).

(** [formatDate] hands a "YYYY-MM" value to the platform's
    [Date.prototype.toLocaleDateString]; that function is taken as given,
    as a function of the year and month texts and the locale tag. *)
Section Dates.
Variable toLocaleDateString : string -> string -> string -> string.

Definition formatDate (str : option string) (lang : string) : string :=
  if negb (truthy (of_option str))
  then (if String.eqb lang "de" then "heute" else "present")
  else
    match split "-" (default "" str) with
    | year :: rest =>
        match rest with
        | month :: _ =>
            if negb (truthy (VStr month)) then year
            else toLocaleDateString year month
                   (if String.eqb lang "de" then "de-DE" else "en-GB")
        | [] => year
        end
    | [] => "undefined"
    end.

Definition formatPeriod (start end_ : option string) (lang : string) : string :=
  formatDate start lang +:+ " – " +:+ formatDate end_ lang.
End Dates.

End I18n.

(** ** DOM fragments built by the renderers *)

Module Dom.

Inductive node :=
| Element (tag className : string) (attrs : list (string * string)) (children : list node)
| Text (data : string)
| Markup (html : string)      (* text assigned through [innerHTML], left unparsed *)
| Svg (id : string)           (* an inline SVG literal of the source, by its name *)
| Fragment (children : list node).

Definition set_innerHTML (n : node) (html : value) : node :=
  let s := match html with VNull => "" | _ => to_string html end in
  match n with
  | Element tag cls attrs _ =>
      Element tag cls attrs (if String.eqb s "" then [] else [Markup s])
  | _ => n
  end.

Definition set_textContent (n : node) (s : string) : node :=
  match n with
  | Element tag cls attrs _ =>
      Element tag cls attrs (if String.eqb s "" then [] else [Text s])
  | _ => n
  end.

(** [el(tag, className, html)]; an omitted argument is [undefined]
    ([className] omitted or [null]: the empty string). *)
Definition el (tag className : string) (html : value) : node :=
  let node := Element tag "" [] [] in
  let node :=
    if truthy (VStr className) then
      match node with
      | Element tag _ attrs ch => Element tag className attrs ch
      | _ => node
      end
    else node in
  match html with
  | VUndefined => node
  | _ => set_innerHTML node html
  end.

(** Appending a fragment moves its children. *)
Definition appendChild (parent child : node) : node :=
  let moved := match child with Fragment ch => ch | _ => [child] end in
  match parent with
  | Element tag cls attrs ch => Element tag cls attrs (ch ++ moved)
  | Fragment ch => Fragment (ch ++ moved)
  | _ => parent
  end.

Fixpoint set_assoc (k v : string) (l : list (string * string)) : list (string * string) :=
  match l with
  | [] => [(k, v)]
  | (k', v') :: r => if String.eqb k' k then (k, v) :: r else (k', v') :: set_assoc k v r
  end.

Definition setAttribute (n : node) (name val : string) : node :=
  match n with
  | Element tag cls attrs ch => Element tag cls (set_assoc name val attrs) ch
  | _ => n
  end.

Definition getAttribute (n : node) (name : string) : option string :=
  match n with
  | Element _ _ attrs _ => snd <$> List.find (fun kv => String.eqb (fst kv) name) attrs
  | _ => None
  end.

Definition childNodes (n : node) : list node :=
  match n with
  | Element _ _ _ ch | Fragment ch => ch
  | _ => []
  end.

(** [node.textContent] of what the renderers build: the text below a node. *)
Fixpoint textContent (n : node) : string :=
  match n with
  | Element _ _ _ ch | Fragment ch =>
      (fix go (l : list node) : string :=
         match l with
         | [] => ""
         | c :: r => textContent c +:+ go r
         end) ch
  | Text s => s
  | Markup s => s
  | Svg _ => ""
  end.

(** [classList.contains(c)] *)
Definition has_class (c : string) (n : node) : bool :=
  match n with
  | Element _ cls _ _ => existsb (String.eqb c) (tokens cls)
  | _ => false
  end.

(** Apply [f] to every element below (and including) [n] that satisfies [p]:
    the effect of [querySelectorAll(sel).forEach(f)] inside one subtree,
    when [f] changes attributes only. *)
Fixpoint update_where (p : node -> bool) (f : node -> node) (n : node) : node :=
  match n with
  | Element tag cls attrs ch =>
      let n' := Element tag cls attrs (List.map (update_where p f) ch) in
      if p n then f n' else n'
  | Fragment ch => Fragment (List.map (update_where p f) ch)
  | _ => n
  end.

Fixpoint exists_node (p : node -> bool) (n : node) : bool :=
  p n || match n with
         | Element _ _ _ ch | Fragment ch => existsb (exists_node p) ch
         | _ => false
         end.

(** The part of [document] the code works on.  [elements] are the
    subtrees the page addresses by id; they do not overlap. *)
Record document := {
  title : string;
  lang : string;
  elements : gmap string node
}.

Definition getElementById (d : document) (id : string) : option node :=
  elements d !! id.

(** A dispatched [CustomEvent]: its type, the target, and [detail.lang]. *)
Record event := {
  ev_type : string;
  ev_target : string;
  ev_detail : option string
}.

End Dom.
Import Dom.

(** ** [portfolio.js]: case-study records and block renderers *)

Module Portfolio.
Import I18n.

(** Payload records, as parsed from [portfolio.json].  A field holding a
    bilingual or plain text is a [value]; an absent list is [None]. *)
Record stat := { stat_value : value; stat_label : value }.
Record phase := {
  phase_wip : value;
  phase_phase : value;
  phase_title : value;
  phase_description : value
}.
Record method := { method_icon : value; method_title : value; method_description : value }.
Record slot := { slot_caption : value }.
Record takeaway := { takeaway_title : value; takeaway_description : value }.

Record block := {
  type : value;
  stats : option (list stat);
  content : value;
  phases : option (list phase);
  methods : option (list method);
  slots : option (list slot);
  takeaways : option (list takeaway);
  challenge : value;
  approach : value;
  outcome : value
}.

Record project := {
  slug : string;
  project_title : value;
  teaser : value;
  year : value;
  duration : value;
  client : value;
  role : value;
  tags : option (list string);
  confidential : value;
  wip : value;
  url : value;
  sections : option (list block)
}.

Record data := { projects : option (list project) }.

(** The keys of the [ICONS] table; the markup itself is [Svg key].  Under
    any other key the table, an object literal, gives what it inherits
    from [Object.prototype], and [innerHTML] takes the text of that. *)
Definition ICON_IDS : list string :=
  ["cards"; "layers"; "tree"; "network"; "ai"; "database"; "code"; "research";
   "chart"; "eye"; "split"; "shield"; "balance"; "cart"; "refresh"; "users"; "grid"].

Definition ICONS (key : value) : option node :=
  let k := to_string key in
  if existsb (String.eqb k) ICON_IDS then Some (Svg k)
  else Markup <$> (snd <$> List.find (fun kv => String.eqb k (fst kv)) OBJECT_PROTOTYPE).

(** An object literal [{ de: ..., en: ... }]. *)
Definition de_en (de en : string) : value :=
  VObj (<["de" := VStr de]> (<["en" := VStr en]> ∅)).

(** [obj[key]] on a value known not to be [null]. *)
Definition index (obj : value) (key : string) : value :=
  default VUndefined (get_prop obj key).

(** [list.forEach(x => parent.appendChild(f(x)))] *)
Definition append_each {A} (f : A -> node) (l : list A) (parent : node) : node :=
  fold_left (fun parent x => appendChild parent (f x)) l parent.

Section Renderers.
(** The module-level [activeLang]. *)
Variable activeLang : string.

Definition renderStatBar (b : block) : node :=
  let wrap := el "div" "cs-stat-bar" VUndefined in
  append_each (fun stat =>
    let item := el "div" "cs-stat" VUndefined in
    let item := appendChild item (el "span" "cs-stat__value" (t (stat_value stat) activeLang)) in
    let item := appendChild item (el "span" "cs-stat__label" (t (stat_label stat) activeLang)) in
    item) (default [] (stats b)) wrap.

Definition renderText (b : block) : node :=
  el "p" "cs-text" (t (content b) activeLang).

(** The body of the [forEach] over [block.phases]. *)
Definition renderPhase (phase : phase) : node :=
  let isWip := match phase_wip phase with VBool true => true | _ => false end in
  let entry := el "div" (if isWip
                         then "cs-timeline__phase-entry cs-timeline__phase-entry--wip"
                         else "cs-timeline__phase-entry") VUndefined in
  let rawLabel := t (phase_phase phase) activeLang in
  let num := el "p" "cs-timeline__phase-num" VUndefined in
  let num := set_textContent num
               (if all_digits (to_string rawLabel)
                then "Phase " +:+ to_string rawLabel
                else to_string rawLabel) in
  let entry := appendChild entry num in
  let entry :=
    if isWip then
      appendChild entry
        (el "span" "cs-timeline__phase-wip-badge"
            (VStr (if String.eqb activeLang "de" then "In Arbeit" else "In Progress")))
    else entry in
  let entry := appendChild entry
                 (el "h3" "cs-timeline__phase-title" (t (phase_title phase) activeLang)) in
  let entry := appendChild entry
                 (el "p" "cs-timeline__phase-desc" (t (phase_description phase) activeLang)) in
  entry.

Definition renderTimeline (b : block) : node :=
  let wrap := Fragment [] in
  let label := el "p" "cs-section-label" VUndefined in
  let label := set_textContent label
                 (if String.eqb activeLang "de" then "Prozess" else "Process") in
  let wrap := appendChild wrap label in
  let timeline := el "div" "cs-timeline" VUndefined in
  let timeline := append_each renderPhase (default [] (phases b)) timeline in
  let wrap := appendChild wrap timeline in
  let container := el "div" "" VUndefined in
  appendChild container wrap.

Definition renderMethodGrid (b : block) : node :=
  let wrap := Fragment [] in
  let label := el "p" "cs-section-label" VUndefined in
  let label := set_textContent label
                 (if String.eqb activeLang "de" then "Methoden" else "Methods") in
  let wrap := appendChild wrap label in
  let grid := el "div" "cs-method-grid" VUndefined in
  let grid := append_each (fun method =>
    let card := el "div" "cs-method" VUndefined in
    let iconWrap := el "div" "cs-method__icon" VUndefined in
    let iconWrap := match ICONS (method_icon method) with
                    | Some svg => appendChild iconWrap svg
                    | None => set_innerHTML iconWrap (VStr "")
                    end in
    let card := appendChild card iconWrap in
    let card := appendChild card
                  (el "h3" "cs-method__title" (t (method_title method) activeLang)) in
    let card := appendChild card
                  (el "p" "cs-method__desc" (t (method_description method) activeLang)) in
    card) (default [] (methods b)) grid in
  let wrap := appendChild wrap grid in
  let container := el "div" "" VUndefined in
  appendChild container wrap.

Definition renderInsight (b : block) : node :=
  let wrap := el "aside" "cs-insight" VUndefined in
  appendChild wrap (el "p" "cs-insight__text" (t (content b) activeLang)).

Definition LABELS : list (string * value) :=
  [("challenge", de_en "Challenge" "Challenge");
   ("approach", de_en "Vorgehen" "Approach");
   ("outcome", de_en "Ergebnis" "Outcome")].

Definition renderChallengeApproachOutcome (b : block) : node :=
  let wrap := el "div" "cs-outcome" VUndefined in
  fold_left (fun wrap '(key, field) =>
    if negb (truthy (field b)) then wrap
    else
      let item := el "div" "cs-outcome__item" VUndefined in
      let label := default VUndefined (snd <$> List.find (fun kv => String.eqb (fst kv) key) LABELS) in
      let item := appendChild item (el "p" "cs-outcome__label" (index label activeLang)) in
      let item := appendChild item (el "p" "cs-outcome__text" (t (field b) activeLang)) in
      appendChild wrap item)
    [("challenge", challenge); ("approach", approach); ("outcome", outcome)] wrap.

Definition renderDisclaimer : node :=
  let wrap := el "aside" "cs-disclaimer" VUndefined in
  let wrap := appendChild wrap
    (el "p" "cs-disclaimer__label"
        (VStr (if String.eqb activeLang "de" then "Vertraulich" else "Confidential"))) in
  let text :=
    if String.eqb activeLang "de"
    then "Aus Vertraulichkeitsgründen sind Details und Dokumentation dieses Projekts nicht öffentlich verfügbar. Ich teile sie gerne im persönlichen Gespräch."
    else "Due to confidentiality, detailed documentation of this project is not publicly available. I'm happy to walk you through it in a personal conversation." in
  appendChild wrap (el "p" "cs-disclaimer__text" (VStr text)).

Definition renderVisualSlots (b : block) : node :=
  let wrap := Fragment [] in
  let label := el "p" "cs-section-label" VUndefined in
  let label := set_textContent label
                 (if String.eqb activeLang "de" then "Visuals" else "Visuals") in
  let wrap := appendChild wrap label in
  let grid := el "div" "cs-visual-slots" VUndefined in
  let grid := append_each (fun slot =>
    let item := el "div" "cs-visual-slot" VUndefined in
    let area := el "div" "cs-visual-slot__area" VUndefined in
    let area := appendChild area (Svg "cs-visual-slot__icon") in
    let item := appendChild item area in
    appendChild item (el "p" "cs-visual-slot__caption" (t (slot_caption slot) activeLang)))
    (default [] (slots b)) grid in
  let wrap := appendChild wrap grid in
  let container := el "div" "" VUndefined in
  appendChild container wrap.

Definition renderKeyTakeaways (b : block) : node :=
  let wrap := Fragment [] in
  let label := el "p" "cs-section-label" VUndefined in
  let label := set_textContent label
                 (if String.eqb activeLang "de" then "Key Takeaways" else "Key Takeaways") in
  let wrap := appendChild wrap label in
  let grid := el "div" "cs-key-takeaways" VUndefined in
  let grid := append_each (fun item =>
    let card := el "div" "cs-key-takeaway" VUndefined in
    let card := appendChild card
                  (el "h3" "cs-key-takeaway__title" (t (takeaway_title item) activeLang)) in
    appendChild card
      (el "p" "cs-key-takeaway__desc" (t (takeaway_description item) activeLang)))
    (default [] (takeaways b)) grid in
  let wrap := appendChild wrap grid in
  let container := el "div" "" VUndefined in
  appendChild container wrap.

(** [switch (block.type)]: strict equality with the eight literals;
    [None] is the [null] of the default branch. *)
Definition renderBlock (b : block) : option node :=
  match type b with
  | VStr ty =>
      if String.eqb ty "stat_bar" then Some (renderStatBar b)
      else if String.eqb ty "text" then Some (renderText b)
      else if String.eqb ty "timeline" then Some (renderTimeline b)
      else if String.eqb ty "method_grid" then Some (renderMethodGrid b)
      else if String.eqb ty "insight" then Some (renderInsight b)
      else if String.eqb ty "challenge_approach_outcome"
           then Some (renderChallengeApproachOutcome b)
      else if String.eqb ty "visual_slots" then Some (renderVisualSlots b)
      else if String.eqb ty "key_takeaways" then Some (renderKeyTakeaways b)
      else None
  | _ => None
  end.

End Renderers.

(** The page state [portfolio.js] keeps and touches: its two module-level
    variables, [localStorage], the document, and the events dispatched so
    far (oldest first). *)
Record state := {
  activeLang : string;
  portfolioData : option data;
  storage : gmap string string;
  doc : document;
  dispatched : list event
}.

(** [a === b] for a string read from the data and a possibly missing one. *)
Definition strict_eq_str (a : string) (b : value) : bool :=
  match b with VStr s => String.eqb a s | _ => false end.

(** [node.dataset.name] *)
Definition dataset (n : node) (name : string) : value :=
  match getAttribute n ("data-" +:+ name) with
  | Some s => VStr s
  | None => VUndefined
  end.

(** Page chrome ([buildDetailTopbar], [buildCaseStudyHeader],
    [buildFooter]) and the overview renderer are left abstract: each is a
    function of the active language and of its arguments. *)
Section Page.
Variable buildDetailTopbar : string -> node.
Variable buildCaseStudyHeader : string -> project -> node.
Variable buildFooter : node.
Variable renderOverview : string -> data -> document -> document.

Definition renderDetail (activeLang : string) (data : data) (slug_ : value)
    (d : document) : document :=
  let project := List.find (fun p => strict_eq_str (slug p) slug_)
                           (default [] (projects data)) in
  let container := getElementById d "portfolio-detail" in
  match project, container with
  | Some project, Some container =>
      let title' := to_string (t (project_title project) activeLang)
                    +:+ " — Mathis Thomsen" in
      let container := set_innerHTML container (VStr "") in
      let container := appendChild container (buildDetailTopbar activeLang) in
      let main := el "main" "case-study-main" VUndefined in
      let main := setAttribute main "id" "main" in
      let main := appendChild main (buildCaseStudyHeader activeLang project) in
      let body := el "div" "case-study-body" VUndefined in
      let bodyInner := el "div" "container" VUndefined in
      let bodyInner :=
        fold_left (fun bodyInner block =>
          match renderBlock activeLang block with
          | None => bodyInner
          | Some rendered =>
              let wrapper := el "div" "case-study__block" VUndefined in
              let wrapper := setAttribute wrapper "data-reveal" "" in
              let wrapper := appendChild wrapper rendered in
              appendChild bodyInner wrapper
          end) (default [] (sections project)) bodyInner in
      let bodyInner :=
        if truthy (confidential project) then
          let wrapper := el "div" "case-study__block" VUndefined in
          let wrapper := setAttribute wrapper "data-reveal" "" in
          let wrapper := appendChild wrapper (renderDisclaimer activeLang) in
          appendChild bodyInner wrapper
        else bodyInner in
      let body := appendChild body bodyInner in
      let main := appendChild main body in
      let container := appendChild container main in
      let container := appendChild container buildFooter in
      {| title := title';
         lang := lang d;
         elements := <["portfolio-detail" := container]> (elements d) |}
  | _, _ => d
  end.

Definition setLang (lang_ : value) (st : state) : state :=
  if negb (includes SUPPORTED_LANGS lang_) then st
  else
    let l := to_string lang_ in
    let d := doc st in
    let d := {| title := title d; lang := l;
                elements :=
                  update_where (has_class "portfolio-topbar__lang-btn")
                    (fun btn => setAttribute btn "aria-pressed"
                       (if strict_eq_str l (dataset btn "lang") then "true" else "false"))
                  <$> elements d |} in
    match portfolioData st with
    | Some pdata =>
        let overview := getElementById d "portfolio-overview" in
        let detail := getElementById d "portfolio-detail" in
        let d := match overview with
                 | Some _ => renderOverview l pdata d
                 | None => d
                 end in
        let d := match detail with
                 | Some detail => renderDetail l pdata (dataset detail "slug") d
                 | None => d
                 end in
        {| activeLang := l; portfolioData := portfolioData st;
           storage := <[STORAGE_KEY := l]> (storage st);
           doc := d;
           dispatched := dispatched st ++
             [{| ev_type := "portfolio-rendered"; ev_target := "document";
                 ev_detail := None |}] |}
    | None =>
        {| activeLang := l; portfolioData := None;
           storage := <[STORAGE_KEY := l]> (storage st);
           doc := d;
           dispatched := dispatched st |}
    end.
End Page.

End Portfolio.

(** ** [cv.js]: the language switch *)

Module CV.
Import I18n.

Section Page.
(** The CV record and [renderAll] (eight section renderers and the
    headings) are left abstract. *)
Variable cv_data : Type.
Variable renderAll : cv_data -> string -> document -> document.

Record state := {
  activeLang : string;
  cvData : option cv_data;
  storage : gmap string string;
  doc : document;
  dispatched : list event
}.

Definition update_toggle_button (l : string) (btn : node) : node :=
  let pressed := Portfolio.strict_eq_str l (Portfolio.dataset btn "lang") in
  let btn := setAttribute btn "aria-pressed" (if pressed then "true" else "false") in
  if Portfolio.strict_eq_str "de" (Portfolio.dataset btn "lang")
  then setAttribute btn "aria-label"
         (if String.eqb l "de" then "Deutsch aktiv" else "Auf Deutsch wechseln")
  else setAttribute btn "aria-label"
         (if String.eqb l "en" then "English active" else "Switch to English").

Definition setLang (lang_ : value) (st : state) : state :=
  if negb (includes SUPPORTED_LANGS lang_) then st
  else
    let l := to_string lang_ in
    let d := doc st in
    let d := {| title := title d; lang := l;
                elements :=
                  update_where (has_class "cv-lang-toggle__btn") (update_toggle_button l)
                  <$> elements d |} in
    let '(d, log) :=
      match cvData st with
      | Some cv =>
          (renderAll cv l d,
           dispatched st ++ [{| ev_type := "cv-rendered"; ev_target := "document";
                                ev_detail := None |}])
      | None => (d, dispatched st)
      end in
    let toggle :=
      existsb (exists_node (has_class "cv-lang-toggle"))
              (snd <$> map_to_list (elements d)) in
    {| activeLang := l; cvData := cvData st;
       storage := <[STORAGE_KEY := l]> (storage st);
       doc := d;
       dispatched :=
         if toggle
         then log ++ [{| ev_type := "lang-changed"; ev_target := ".cv-lang-toggle";
                         ev_detail := Some l |}]
         else log |}.
End Page.

End CV.

(** ** [server/export.js]: static files and the PDF export endpoint *)

Module Server.

Definition SUPPORTED_LANGS : list string := ["de"; "en"].

(** *** Node's [path] module on POSIX

    [path.join] glues its non-empty arguments with a slash and
    normalises the result: empty and [.] segments disappear, [..] removes
    the segment before it (at the top of an absolute path it disappears,
    at the top of a relative one it stays), a trailing slash is kept. *)
Definition normalize_segments (allowAboveRoot : bool) (segs : list string) : list string :=
  fold_left (fun res seg =>
    if String.eqb seg "" || String.eqb seg "." then res
    else if String.eqb seg ".." then
      match List.rev res with
      | last :: before =>
          if String.eqb last ".." then (if allowAboveRoot then res ++ [".."] else res)
          else List.rev before
      | [] => if allowAboveRoot then [".."] else []
      end
    else res ++ [seg]) segs [].

Definition normalize (path : string) : string :=
  if String.eqb path "" then "."
  else
    let isAbsolute := startsWith path "/" in
    let trailingSeparator := endsWith_char path "/" in
    let path := join "/" (normalize_segments (negb isAbsolute) (split "/" path)) in
    if String.eqb path "" then
      (if isAbsolute then "/" else if trailingSeparator then "./" else ".")
    else
      let path := if trailingSeparator then path +:+ "/" else path in
      if isAbsolute then "/" +:+ path else path.

Definition path_join (a b : string) : string :=
  match List.filter (fun s => negb (String.eqb s "")) [a; b] with
  | [] => "."
  | parts => normalize (join "/" parts)
  end.

(** Splits a file name at its last dot: the text before it and the
    extension with its dot. *)
Fixpoint split_ext (s : string) : option (string * string) :=
  match s with
  | EmptyString => None
  | String c r =>
      match split_ext r with
      | Some (pre, ext) => Some (String c pre, ext)
      | None => if Ascii.eqb c "." then Some (EmptyString, s) else None
      end
  end.

(** [path.extname]: the extension of the last portion of the path; empty
    when that portion has no dot beyond a leading one. *)
Definition extname (path : string) : string :=
  match List.rev (List.filter (fun s => negb (String.eqb s "")) (split "/" path)) with
  | base :: _ =>
      match split_ext base with
      | Some (pre, ext) =>
          if String.eqb pre "" || String.eqb base ".." then "" else ext
      | None => ""
      end
  | [] => ""
  end.

Definition MIME_TYPES : gmap string string :=
  list_to_map
    [(".html", "text/html; charset=utf-8");
     (".css", "text/css; charset=utf-8");
     (".js", "application/javascript; charset=utf-8");
     (".json", "application/json; charset=utf-8");
     (".woff2", "font/woff2");
     (".svg", "image/svg+xml");
     (".png", "image/png");
     (".jpg", "image/jpeg");
     (".jpeg", "image/jpeg");
     (".ico", "image/x-icon")].

(** *** Requests, responses, the file system *)

(** An incoming request; [searchParams] is the platform's parse of the
    query part of [url] ([new URL(req.url, base).searchParams]). *)
Record request := {
  method : string;
  url : string;
  searchParams : list (string * string)
}.

Record response := {
  status : nat;
  headers : list (string * string);
  body : string
}.

(** What [fs.readFile] calls back with: the bytes, or an error code. *)
Inductive read_result :=
| Data (bytes : string)
| Error (code : string).

(** The outcome of handling a request: the files read, and the reply. *)
Record handled := {
  reads : list string;
  reply : response
}.

Definition serveStatic (ROOT : string) (readFile : string -> read_result)
    (req : request) : handled :=
  let urlPath := hd "" (split "?" (url req)) in
  let urlPath := if endsWith_char urlPath "/" then urlPath +:+ "index.html" else urlPath in
  let filePath := path_join ROOT urlPath in
  if negb (startsWith filePath ROOT) then
    {| reads := [];
       reply := {| status := 403; headers := []; body := "Forbidden" |} |}
  else
    {| reads := [filePath];
       reply :=
         match readFile filePath with
         | Error code =>
             if String.eqb code "ENOENT" then
               {| status := 404; headers := [("Content-Type", "text/plain")];
                  body := "Not found" |}
             else
               {| status := 500; headers := [("Content-Type", "text/plain")];
                  body := "Internal server error" |}
         | Data data =>
             let ext := toLowerCase (extname filePath) in
             let contentType := default "application/octet-stream" (MIME_TYPES !! ext) in
             {| status := 200; headers := [("Content-Type", contentType)]; body := data |}
         end |}.

(** How the headless-browser part of an export ends: the dependency is
    missing, a step throws, or [page.pdf] delivers the bytes. *)
Inductive capture :=
| PuppeteerMissing
| Failed (message : string)
| Captured (pdfBuffer : string).

(** The [lang] constant of [handlePdfExport]. *)
Definition exportLang (req : request) : string :=
  let param := I18n.params_get (searchParams req) "lang" in
  if includes SUPPORTED_LANGS (of_option param) then default "" param else "de".

(** [puppeteer lang] stands for loading the dependency and driving the
    browser with the export language (storage pre-seed, navigation). *)
Definition handlePdfExport (puppeteer : string -> capture) (req : request) : response :=
  let lang := exportLang req in
  match puppeteer lang with
  | PuppeteerMissing =>
      {| status := 503; headers := [("Content-Type", "text/plain")];
         body := "Puppeteer not installed. Run: npm install" |}
  | Captured pdfBuffer =>
      let filename := "CV_Mathis_Thomsen_" +:+ toUpperCase lang +:+ ".pdf" in
      {| status := 200;
         headers := [("Content-Type", "application/pdf");
                     ("Content-Disposition", "attachment; filename=" +:+ String dquote filename +:+ String dquote "");
                     ("Content-Length", pretty (String.length pdfBuffer))];
         body := pdfBuffer |}
  | Failed message =>
      {| status := 500; headers := [("Content-Type", "text/plain")];
         body := "PDF generation failed: " +:+ message |}
  end.

(** The request router. *)
Definition route (ROOT : string) (readFile : string -> read_result)
    (puppeteer : string -> capture) (req : request) : handled :=
  let urlPath := hd "" (split "?" (url req)) in
  if String.eqb (method req) "GET" && String.eqb urlPath "/export/cv.pdf" then
    {| reads := []; reply := handlePdfExport puppeteer req |}
  else if String.eqb (method req) "GET" then serveStatic ROOT readFile req
  else
    {| reads := [];
       reply := {| status := 405; headers := [("Content-Type", "text/plain")];
                   body := "Method not allowed" |} |}.

(** *** Locations *)

Definition segments (path : string) : list string :=
  List.filter (fun s => negb (String.eqb s "")) (split "/" path).

Fixpoint is_prefix (l1 l2 : list string) : bool :=
  match l1, l2 with
  | [], _ => true
  | x :: r1, y :: r2 => String.eqb x y && is_prefix r1 r2
  | _ :: _, [] => false
  end.

(** [path] names the directory [root] or something below it (both
    absolute and normalised). *)
Definition inside (root path : string) : bool :=
  is_prefix (segments root) (segments path).

End Server.

(** ** Vocabulary of the specification *)

Module Spec.
Import I18n.

(** A supported language code. *)
Definition supported (code : string) : Prop := code = "de" \/ code = "en".

(** What a bilingual mapping holds under a language key: a text, or a
    sequence of texts (bullet lists). *)
Definition is_content (v : value) : bool :=
  match v with VStr _ | VArr _ => true | _ => false end.

(** The value of a mapping at a key, when present and usable. *)
Definition usable (m : gmap string value) (k : string) : option value :=
  match m !! k with
  | Some v => if truthy v then Some v else None
  | None => None
  end.

(** Resolution order of the initial language, in the words of the
    specification: query parameter, persisted preference, primary subtag
    of the browser language, and [de]. *)
Definition pick (candidate : option string) (otherwise : string) : string :=
  match candidate with
  | Some code => if bool_decide (code ∈ SUPPORTED_LANGS) then code else otherwise
  | None => otherwise
  end.

Definition language_by_priority (query persisted browser : option string) : string :=
  pick query
    (pick persisted
       (pick (slice0 2 <$> (toLowerCase <$> browser)) "de")).

(** The present token of a language. *)
Definition present_token (lang : string) : string :=
  if String.eqb lang "de" then "heute" else "present".

(** A date text without a month part. *)
Definition year_only (s : string) : bool :=
  negb (String.eqb s "") && forallb (fun c => negb (Ascii.eqb c "-")) (list_ascii_of_string s).

(** [s] ends in [suffix]. *)
Definition ends_in (s suffix : string) : Prop := exists pre, s = pre +:+ suffix.

(** [s] contains [piece]. *)
Definition contains (s piece : string) : Prop := exists pre post, s = pre +:+ piece +:+ post.

(** The localised text of the in-progress badge. *)
Definition in_progress_text (lang : string) : option string :=
  if String.eqb lang "de" then Some "In Arbeit"
  else if String.eqb lang "en" then Some "In Progress"
  else None.

Definition is_fragment (n : node) : bool :=
  match n with Fragment _ => true | _ => false end.

(** An element with the given tag and class. *)
Definition rooted (tag cls : string) (n : node) : Prop :=
  exists attrs ch, n = Element tag cls attrs ch.

(** The block types of the content model. *)
Definition known_types : list string :=
  ["stat_bar"; "text"; "insight"; "timeline"; "method_grid"; "visual_slots";
   "key_takeaways"; "challenge_approach_outcome"].

Definition known_type (b : Portfolio.block) : bool :=
  match Portfolio.type b with
  | VStr ty => bool_decide (ty ∈ known_types)
  | _ => false
  end.

(** A rendered content block, tagged for scroll reveal. *)
Definition content_block (rendered : node) : node :=
  Element "div" "case-study__block" [("data-reveal", "")] [rendered].

Definition is_disclaimer_block (n : node) : bool :=
  has_class "case-study__block" n && existsb (has_class "cs-disclaimer") (childNodes n).

(** The detail page around a given list of content blocks. *)
Definition detail_page (topbar header footer container : node) (blocks : list node) : node :=
  let body := Element "div" "case-study-body" [] [Element "div" "container" [] blocks] in
  let main := appendChild
                (appendChild (Element "main" "case-study-main" [("id", "main")] []) header)
                body in
  appendChild (appendChild (appendChild (set_innerHTML container (VStr "")) topbar) main)
              footer.

(** A response header. *)
Definition header (name : string) (r : Server.response) : option string :=
  I18n.params_get (Server.headers r) name.

(** A header value in double quotes. *)
Definition quoted (s : string) : string := String dquote (s +:+ String dquote "").

(** The file name of an export in the language [LANG] (upper case). *)
Definition export_filename (LANG : string) : string :=
  "CV_Mathis_Thomsen_" +:+ LANG +:+ ".pdf".

End Spec.
Import Spec.

(** ** Sample data *)

Module Sample.
Import Portfolio.

Definition text_block (de en : string) : block :=
  {| type := VStr "text"; stats := None; content := de_en de en; phases := None;
     methods := None; slots := None; takeaways := None;
     challenge := VUndefined; approach := VUndefined; outcome := VUndefined |}.

(** A block of a type the renderer does not know. *)
Definition gallery_block : block :=
  {| type := VStr "gallery"; stats := None; content := VUndefined; phases := None;
     methods := None; slots := None; takeaways := None;
     challenge := VUndefined; approach := VUndefined; outcome := VUndefined |}.

Definition case_study (confidential : value) (sections : list block) : project :=
  {| slug := "evidoxa"; project_title := de_en "Evidoxa" "Evidoxa";
     teaser := VUndefined; year := VStr "2025"; duration := VUndefined;
     client := VUndefined; role := VUndefined; tags := None;
     confidential := confidential; wip := VUndefined; url := VUndefined;
     sections := Some sections |}.

Definition mount : node :=
  Element "div" "" [("id", "portfolio-detail"); ("data-slug", "evidoxa")] [].

Definition page : document :=
  {| title := "Portfolio"; lang := "de";
     elements := <["portfolio-detail" := mount]> ∅ |}.

Definition topbar (lang : string) : node := Element "nav" "portfolio-topbar" [] [].
Definition header (lang : string) (p : project) : node :=
  Element "header" "case-study-header" [] [].
Definition footer : node := Element "footer" "site-footer" [] [].

(** A file system with one file next to the server root. *)
Definition ROOT : string := "/home/mathis/mathisthomsen.de".
Definition neighbour : string := "/home/mathis/mathisthomsen.de-private/notes.txt".
Definition readFile (path : string) : Server.read_result :=
  if String.eqb path neighbour then Server.Data "private notes" else Server.Error "ENOENT".

End Sample.

(** ** The page an export opens *)

Module ExportSession.

(** The browser state in which the CV page starts during an export.
    [handlePdfExport] registers, through [evaluateOnNewDocument], a script
    that writes the export language under the storage key before any page
    script runs, and opens [/cv/?lang=<lang>]; for the codes [de] and [en]
    that query parses to the single pair below.  [profile] is whatever the
    storage held before, [nav] the language the browser reports. *)
Definition cv_page (lang : string) (profile : gmap string string)
    (nav : option string) : I18n.browser :=
  {| I18n.search := [("lang", lang)];
     I18n.localStorage := <["cv-lang" := lang]> profile;
     I18n.navigator_language := nav |}.

End ExportSession.

(** ** More of the DOM: class lists, inline style, sets of strings *)

Module DomMore.

(** [new Set(list)] spread back into an array: first occurrences, in
    order of insertion. *)
Definition set_add (acc : list string) (x : string) : list string :=
  if existsb (String.eqb x) acc then acc else acc ++ [x].

Definition unique (l : list string) : list string := fold_left set_add l [].

(** The tokens of a [class] attribute. *)
Definition class_tokens (cls : string) : list string := unique (tokens cls).

(** [node.classList.add(c)]: the attribute becomes the serialised token
    set. *)
Definition classList_add (n : node) (c : string) : node :=
  match n with
  | Element tag cls attrs ch =>
      Element tag (join " " (set_add (class_tokens cls) c)) attrs ch
  | _ => n
  end.

Fixpoint remove_assoc (k : string) (l : list (string * string)) : list (string * string) :=
  match l with
  | [] => []
  | (k', v) :: r => if String.eqb k' k then remove_assoc k r else (k', v) :: remove_assoc k r
  end.

(** Inline style: a declaration [p: v] of an element is kept among its
    attributes under the name ["style:" ++ p].
    [style.setProperty(p, v)] with an empty [v] removes the declaration. *)
Definition setProperty (n : node) (p v : string) : node :=
  match n with
  | Element tag cls attrs ch =>
      Element tag cls
        (if String.eqb v "" then remove_assoc ("style:" +:+ p) attrs
         else set_assoc ("style:" +:+ p) v attrs) ch
  | _ => n
  end.

(** A no-break space, U+00A0. *)
Definition nbsp : string := String "194" (String "160" "").

(** [root.querySelectorAll(sel)] with [root] itself included: the
    elements of the subtree that satisfy [p], in document order. *)
Fixpoint select (p : node -> bool) (n : node) : list node :=
  (if p n then [n] else [])
  ++ match n with
     | Element _ _ _ ch | Fragment ch => flat_map (select p) ch
     | _ => []
     end.

(** [[name]]: the element carries the attribute. *)
Definition has_attribute (name : string) (n : node) : bool :=
  match getAttribute n name with Some _ => true | None => false end.

(** [c] can be a class token: not empty, without ASCII whitespace. *)
Definition is_token (c : string) : Prop :=
  c <> "" /\ forallb (fun a => negb (is_ascii_whitespace a)) (list_ascii_of_string c) = true.

(** [parents > .c]: the children with class [c] of the given nodes, in
    document order. *)
Definition children_with (c : string) (parents : list node) : list node :=
  flat_map (fun parent => List.filter (has_class c) (childNodes parent)) parents.

(** The fill element of a bar: its class, the level it stands for, and
    the value of [--bar-fill] it shows. *)
Definition bar_fill (cls : string) (level : Z) (shown : string) : node :=
  Element "div" cls [("data-level", pretty level); ("style:--bar-fill", shown)] [].

(** [mount > .cv-skills__group > .cv-skill > .cv-skill__bar-track >
    .cv-skill__bar-fill]: the fill elements of the skills section, by the
    path on which [renderSkills] puts them. *)
Definition skill_bars (mount : node) : list node :=
  children_with "cv-skill__bar-fill"
    (children_with "cv-skill__bar-track"
       (children_with "cv-skill" (children_with "cv-skills__group" [mount]))).

(** [mount > .cv-language > .cv-lang__bar-track > .cv-lang__bar-fill] *)
Definition language_bars (mount : node) : list node :=
  children_with "cv-lang__bar-fill"
    (children_with "cv-lang__bar-track" (children_with "cv-language" [mount])).

(** [s] does not contain the character [sep]. *)
Definition free_of (sep : ascii) (s : string) : Prop :=
  forallb (fun c => negb (Ascii.eqb c sep)) (list_ascii_of_string s) = true.

End DomMore.
Import DomMore.

(** ** [portfolio.js]: overview page and page chrome *)

Module PortfolioPage.
Import I18n Portfolio.

Section Builders.
(** The module-level [activeLang]. *)
Variable activeLang : string.

Definition buildProjectCard (project : project) : node :=
  let href := "/portfolio/" +:+ slug project +:+ "/" in
  let card := el "a" "portfolio-card" VUndefined in
  let card := setAttribute card "href" href in
  let card := if truthy (confidential project)
              then classList_add card "portfolio-card--confidential" else card in
  let card := if truthy (wip project)
              then classList_add card "portfolio-card--wip" else card in
  let card := setAttribute card "data-reveal" "" in
  let meta := el "div" "portfolio-card__meta" VUndefined in
  let meta := appendChild meta (el "span" "portfolio-card__year" (year project)) in
  let meta :=
    if truthy (wip project) then
      appendChild meta
        (el "span" "portfolio-card__type portfolio-card__type--wip"
            (VStr (if String.eqb activeLang "de" then "In Arbeit" else "In Progress")))
    else if truthy (confidential project) then
      appendChild meta
        (el "span" "portfolio-card__type"
            (VStr (if String.eqb activeLang "de" then "Vertraulich" else "Confidential")))
    else meta in
  let card := appendChild card meta in
  let card := appendChild card
                (el "h2" "portfolio-card__title" (t (project_title project) activeLang)) in
  let card := appendChild card
                (el "p" "portfolio-card__teaser" (t (teaser project) activeLang)) in
  let card :=
    match tags project with
    | Some (tag :: more) =>
        let ul := el "ul" "portfolio-card__tags" VUndefined in
        let ul := append_each (fun tag => el "li" "portfolio-card__tag" (VStr tag))
                              (tag :: more) ul in
        appendChild card ul
    | _ => card
    end in
  let cta := el "span" "portfolio-card__cta" VUndefined in
  let ctaLabel := el "span" ""
                    (VStr (if String.eqb activeLang "de" then "Zum Projekt" else "View project")) in
  let ctaArrow := el "span" "portfolio-card__cta-arrow" (VStr "→") in
  let cta := appendChild cta ctaLabel in
  let cta := appendChild cta ctaArrow in
  appendChild card cta.

(** The click listener [buildFilterBar] adds to each of its buttons. *)
Definition filterButton_click (btn : node) : node :=
  setAttribute btn "aria-pressed"
    (if bool_decide (getAttribute btn "aria-pressed" = Some "true") then "false" else "true").

Definition buildFilterBar (projects : list project) : node :=
  let allTags := unique (flat_map (fun p => default [] (tags p)) projects) in
  let bar := el "div" "portfolio-filter portfolio-filter--visible" VUndefined in
  let bar := setAttribute bar "role" "group" in
  let bar := setAttribute bar "aria-label"
               (if String.eqb activeLang "de" then "Nach Thema filtern" else "Filter by topic") in
  append_each (fun tag =>
      let btn := el "button" "portfolio-filter__btn" (VStr tag) in
      setAttribute btn "aria-pressed" "false") allTags bar.

Definition renderOverview (data : data) (d : document) : document :=
  match getElementById d "portfolio-overview" with
  | None => d
  | Some container =>
      let container := set_innerHTML container (VStr "") in
      let elems := <["portfolio-overview" := container]> (elements d) in
      let elems :=
        match elems !! "portfolio-header-sub" with
        | Some sub =>
            <["portfolio-header-sub" :=
                set_textContent sub
                  (if String.eqb activeLang "de"
                   then "Ausgewählte Projekte aus UX Research, Information Architecture und Interaction Design."
                   else "Selected projects in UX research, information architecture and interaction design.")]>
              elems
        | None => elems
        end in
      let projects := default [] (projects data) in
      let container :=
        if (4 <? List.length projects)%nat
        then appendChild container (buildFilterBar projects) else container in
      let grid := el "div" "portfolio-grid" VUndefined in
      let inner := el "div" "portfolio-grid__list" VUndefined in
      let inner := append_each buildProjectCard projects inner in
      let grid := appendChild grid inner in
      let container := appendChild container grid in
      {| title := title d; lang := lang d;
         elements := <["portfolio-overview" := container]> elems |}
  end.

(** The click listener [buildLangToggle] adds to the button of [lang] is
    [() => setLang(lang)]. *)
Definition buildLangToggle : node :=
  let wrap := el "div" "portfolio-topbar__lang" VUndefined in
  let wrap := setAttribute wrap "role" "group" in
  let wrap := setAttribute wrap "aria-label"
                (if String.eqb activeLang "de" then "Sprache wählen" else "Select language") in
  fst (fold_left (fun '(wrap, i) lang =>
      let wrap :=
        if (0 <? i)%nat then
          appendChild wrap
            (setAttribute (el "span" "portfolio-topbar__lang-sep" (VStr "|"))
                          "aria-hidden" "true")
        else wrap in
      let btn := el "button" "portfolio-topbar__lang-btn" VUndefined in
      let btn := setAttribute btn "data-lang" lang in
      let btn := set_textContent btn (toUpperCase lang) in
      let btn := setAttribute btn "aria-pressed"
                   (if String.eqb lang activeLang then "true" else "false") in
      let btn := setAttribute btn "aria-label"
                   (if String.eqb lang "de" then "Auf Deutsch wechseln" else "Switch to English") in
      (appendChild wrap btn, S i)) SUPPORTED_LANGS (wrap, 0%nat)).

Definition back_arrow : string :=
  "<span aria-hidden=" +:+ quoted "true" +:+ ">←</span>".

Definition buildOverviewTopbar : node :=
  let nav := el "nav" "portfolio-topbar" VUndefined in
  let nav := setAttribute nav "role" "navigation" in
  let nav := setAttribute nav "aria-label"
               (if String.eqb activeLang "de" then "Seiten-Navigation" else "Page navigation") in
  let back := el "a" "portfolio-topbar__back" VUndefined in
  let back := setAttribute back "href" "/" in
  let back := set_innerHTML back (VStr back_arrow) in
  let back := appendChild back (Text (nbsp +:+ "Mathis Thomsen")) in
  let nav := appendChild nav back in
  appendChild nav buildLangToggle.

Definition buildDetailTopbar : node :=
  let nav := el "nav" "portfolio-topbar case-study-topbar" VUndefined in
  let nav := setAttribute nav "role" "navigation" in
  let nav := setAttribute nav "aria-label"
               (if String.eqb activeLang "de" then "Seiten-Navigation" else "Page navigation") in
  let back := el "a" "portfolio-topbar__back" VUndefined in
  let back := setAttribute back "href" "/portfolio/" in
  let back := set_innerHTML back (VStr back_arrow) in
  let back := appendChild back
                (Text (nbsp +:+ (if String.eqb activeLang "de" then "Portfolio" else "Portfolio"))) in
  let nav := appendChild nav back in
  appendChild nav buildLangToggle.

End Builders.

End PortfolioPage.

(** ** [cv.js]: the CV record and its section renderers *)

Module CVRender.
Import I18n.

(** The CV record, as parsed from [cv.json].  Texts that may be bilingual
    are [value]s; dates are "YYYY-MM", "YYYY" or absent; levels are
    integers. *)
Record role := {
  role_title : value;
  role_start : option string;
  role_end : option string;
  role_description : value
}.

Record job := {
  company : string;
  companyUrl : value;
  job_start : option string;
  job_end : option string;
  job_description : value;
  roles : list role;
  job_tags : option (list string)
}.

Record education := {
  edu_start : option string;
  edu_end : option string;
  degree : value;
  institution : string;
  grade : value;
  focus : value
}.

Record skill := { skill_name : value; skill_level : Z; skill_max : Z }.

Record skills := {
  specialized : list skill;
  tools : list skill;
  misc : value
}.

Record language := {
  language_name : value;
  language_label : value;
  language_level : Z;
  language_max : Z
}.

Record certification := { cert_title : value; issuer : value }.

Record link := { link_label : value; link_url : value }.

Record side_project := {
  sp_title : value;
  sp_start : value;
  sp_end : value;
  sp_description : value;
  links : option (list link)
}.

Record meta := { email : string; website : string }.

Record cv := {
  cv_meta : meta;
  summary : value;
  experience : list job;
  cv_education : list education;
  cv_skills : skills;
  languages : list language;
  certifications : list certification;
  cv_projects : list side_project
}.

(** The text a [textContent] assignment leaves: nothing for [null] and
    [undefined]. *)
Definition text_of (v : value) : string :=
  match v with
  | VUndefined | VNull => ""
  | _ => to_string v
  end.

(** [Array.isArray(v) && v.length] *)
Definition nonempty_array (v : value) : option (list value) :=
  match v with
  | VArr (x :: l) => Some (x :: l)
  | _ => None
  end.

Section Renderers.
(** The module-level [activeLang] (read by [buildBar]) and the function
    behind [formatDate]. *)
Variable activeLang : string.
Variable toLocaleDateString : string -> string -> string -> string.

Definition buildBar (level max : Z) (label : value) (trackClass fillClass : string) : node :=
  let track := el "div" trackClass VUndefined in
  let track := setAttribute track "role" "meter" in
  let track := setAttribute track "aria-valuenow" (pretty level) in
  let track := setAttribute track "aria-valuemin" "0" in
  let track := setAttribute track "aria-valuemax" (pretty max) in
  let track := setAttribute track "aria-label"
                 (to_string label +:+ ": " +:+ pretty level +:+ " "
                  +:+ (if String.eqb activeLang "de" then "von" else "of")
                  +:+ " " +:+ pretty max) in
  let fill := el "div" fillClass VUndefined in
  let fill := setAttribute fill "data-level" (pretty level) in
  let fill := setProperty fill "--bar-fill" "0" in
  appendChild track fill.

(** A section renderer works on its mount node: it returns without a
    change when the node is missing, and empties it otherwise. *)
Definition on_mount (id : string) (d : document) (build : node -> node) : document :=
  match getElementById d id with
  | None => d
  | Some container =>
      {| title := title d; lang := lang d;
         elements := <[id := build (set_innerHTML container (VStr ""))]> (elements d) |}
  end.

(** The bullet list of a description, when there is one. *)
Definition description_list (description : value) (lang : string) : option node :=
  if truthy description then
    match nonempty_array (t description lang) with
    | Some descItems =>
        let ul := el "ul" "cv-timeline__desc" VUndefined in
        Some (Portfolio.append_each (fun item =>
                set_textContent (Element "li" "" [] []) (text_of item)) descItems ul)
    | None => None
    end
  else None.

Definition append_optional (parent : node) (child : option node) : node :=
  match child with
  | Some c => appendChild parent c
  | None => parent
  end.

Definition renderRole (lang : string) (role : role) : node :=
  let roleDiv := el "div" "cv-timeline__role" VUndefined in
  let roleHeader := el "div" "cv-timeline__role-header" VUndefined in
  let titleEl := el "span" "cv-timeline__role-title" VUndefined in
  let titleEl := set_textContent titleEl (text_of (t (role_title role) lang)) in
  let rPeriod := el "span" "cv-timeline__role-period" VUndefined in
  let rPeriod := set_textContent rPeriod
                   (formatPeriod toLocaleDateString (role_start role) (role_end role) lang) in
  let roleHeader := appendChild roleHeader titleEl in
  let roleHeader := appendChild roleHeader rPeriod in
  let roleDiv := appendChild roleDiv roleHeader in
  append_optional roleDiv (description_list (role_description role) lang).

Definition renderJob (lang : string) (job : job) : node :=
  let entry := Element "article" "cv-timeline__entry" [] [] in
  let companyDiv := el "div" "cv-timeline__company" VUndefined in
  let nameEl := el "span" "cv-timeline__company-name" VUndefined in
  let nameEl :=
    if truthy (companyUrl job) then
      set_innerHTML nameEl
        (VStr ("<a href=" +:+ quoted (to_string (companyUrl job))
               +:+ " target=" +:+ quoted "_blank"
               +:+ " rel=" +:+ quoted "noopener noreferrer" +:+ ">"
               +:+ company job +:+ "</a>"))
    else set_textContent nameEl (company job) in
  let periodEl := el "span" "cv-timeline__period" VUndefined in
  let periodEl := set_textContent periodEl
                    (formatPeriod toLocaleDateString (job_start job) (job_end job) lang) in
  let companyDiv := appendChild companyDiv nameEl in
  let companyDiv := appendChild companyDiv periodEl in
  let entry := appendChild entry companyDiv in
  let entry := append_optional entry (description_list (job_description job) lang) in
  let rolesDiv := el "div" "cv-timeline__roles" VUndefined in
  let rolesDiv := Portfolio.append_each (renderRole lang) (roles job) rolesDiv in
  let entry := appendChild entry rolesDiv in
  match job_tags job with
  | Some (tag :: more) =>
      let tagsDiv := el "div" "cv-timeline__tags" VUndefined in
      let tagsDiv := Portfolio.append_each
                       (fun tag => el "span" "cv-timeline__tag" (VStr tag))
                       (tag :: more) tagsDiv in
      appendChild entry tagsDiv
  | _ => entry
  end.

Definition renderExperience (data : cv) (lang : string) (d : document) : document :=
  on_mount "cv-experience" d
    (Portfolio.append_each (renderJob lang) (experience data)).

Definition renderSkill (name : value) (label : value) (skill : skill) : node :=
  let skillDiv := el "div" "cv-skill" VUndefined in
  let nameEl := el "span" "cv-skill__name" name in
  let bar := buildBar (skill_level skill) (skill_max skill) label
                      "cv-skill__bar-track" "cv-skill__bar-fill" in
  let skillDiv := appendChild skillDiv nameEl in
  appendChild skillDiv bar.

Definition renderSkills (data : cv) (lang : string) (d : document) : document :=
  on_mount "cv-skills" d (fun container =>
    let specGroup := el "div" "cv-skills__group" VUndefined in
    let specTitle := el "p" "cv-skills__group-title"
                        (t (Portfolio.de_en "Spezialisierung" "Specialization") lang) in
    let specGroup := appendChild specGroup specTitle in
    let specGroup :=
      Portfolio.append_each
        (fun skill => renderSkill (t (skill_name skill) lang) (t (skill_name skill) lang) skill)
        (specialized (cv_skills data)) specGroup in
    let container := appendChild container specGroup in
    let toolGroup := el "div" "cv-skills__group" VUndefined in
    let toolTitle := el "p" "cv-skills__group-title"
                        (t (Portfolio.de_en "Tools & Technologie" "Tools & Technology") lang) in
    let toolGroup := appendChild toolGroup toolTitle in
    let toolGroup :=
      Portfolio.append_each
        (fun skill => renderSkill (skill_name skill) (skill_name skill) skill)
        (tools (cv_skills data)) toolGroup in
    let container := appendChild container toolGroup in
    let miscGroup := el "div" "cv-skills__group" VUndefined in
    let miscTitle := el "p" "cv-skills__group-title"
                        (t (Portfolio.de_en "Weitere Kenntnisse" "Miscellaneous") lang) in
    let miscGroup := appendChild miscGroup miscTitle in
    let miscTags := el "div" "cv-skills__misc" VUndefined in
    let miscTags :=
      match t (misc (cv_skills data)) lang with
      | VArr miscItems =>
          Portfolio.append_each (fun item => el "span" "cv-skills__misc-tag" item)
                                miscItems miscTags
      | _ => miscTags
      end in
    let miscGroup := appendChild miscGroup miscTags in
    appendChild container miscGroup).

Definition renderLanguage (lang : string) (language : language) : node :=
  let langDiv := el "div" "cv-language" VUndefined in
  let header := el "div" "cv-language__header" VUndefined in
  let header := appendChild header
                  (el "span" "cv-language__name" (t (language_name language) lang)) in
  let header := appendChild header
                  (el "span" "cv-language__label" (t (language_label language) lang)) in
  let bar := buildBar (language_level language) (language_max language)
                      (t (language_name language) lang)
                      "cv-lang__bar-track" "cv-lang__bar-fill" in
  let langDiv := appendChild langDiv header in
  appendChild langDiv bar.

Definition renderLanguages (data : cv) (lang : string) (d : document) : document :=
  on_mount "cv-languages" d
    (Portfolio.append_each (renderLanguage lang) (languages data)).

Definition renderCertifications (data : cv) (lang : string) (d : document) : document :=
  on_mount "cv-certs" d
    (Portfolio.append_each (fun cert =>
       let li := el "li" "cv-cert" VUndefined in
       let titleEl := el "p" "cv-cert__title" (t (cert_title cert) lang) in
       let issuerEl := el "p" "cv-cert__issuer" (issuer cert) in
       let li := appendChild li titleEl in
       appendChild li issuerEl) (certifications data)).

Definition renderEducation (data : cv) (lang : string) (d : document) : document :=
  on_mount "cv-education" d
    (Portfolio.append_each (fun edu =>
       let entry := Element "article" "cv-timeline__entry" [] [] in
       let periodEl := el "span" "cv-timeline__period" VUndefined in
       let periodEl := set_textContent periodEl
                         (formatPeriod toLocaleDateString (edu_start edu) (edu_end edu) lang) in
       let degreeEl := el "p" "cv-timeline__degree" VUndefined in
       let degreeEl := set_textContent degreeEl (text_of (t (degree edu) lang)) in
       let instEl := el "p" "cv-timeline__institution" VUndefined in
       let instEl := set_textContent instEl (institution edu) in
       let gradeEl := el "p" "cv-timeline__grade" VUndefined in
       let gradeEl := set_textContent gradeEl
                        (if String.eqb lang "de"
                         then "Note: " +:+ to_string (grade edu)
                         else "Grade: " +:+ to_string (grade edu)) in
       let focusEl := el "p" "cv-timeline__focus" VUndefined in
       let focusEl := set_textContent focusEl (text_of (t (focus edu) lang)) in
       let entry := appendChild entry periodEl in
       let entry := appendChild entry degreeEl in
       let entry := appendChild entry instEl in
       let entry := appendChild entry gradeEl in
       appendChild entry focusEl) (cv_education data)).

Definition renderProject (lang : string) (project : side_project) : node :=
  let div := el "div" "cv-project" VUndefined in
  let titleEl := el "h3" "cv-project__title" (t (sp_title project) lang) in
  let div := appendChild div titleEl in
  let div :=
    if truthy (sp_start project) then
      let periodEl := el "p" "cv-project__period" VUndefined in
      let periodEl := set_textContent periodEl
        (if truthy (sp_end project)
         then to_string (sp_start project) +:+ " – " +:+ to_string (sp_end project)
         else (if String.eqb lang "de" then "seit" else "since")
              +:+ " " +:+ to_string (sp_start project)) in
      appendChild div periodEl
    else div in
  let descEl := el "p" "cv-project__desc" (t (sp_description project) lang) in
  let div := appendChild div descEl in
  match links project with
  | Some (l :: more) =>
      let linksDiv := el "div" "cv-project__links" VUndefined in
      let linksDiv :=
        Portfolio.append_each (fun link =>
          let a := el "a" "cv-project__link" (link_label link) in
          let a := setAttribute a "href" (to_string (link_url link)) in
          let a := setAttribute a "target" "_blank" in
          setAttribute a "rel" "noopener noreferrer") (l :: more) linksDiv in
      appendChild div linksDiv
  | _ => div
  end.

Definition renderProjects (data : cv) (lang : string) (d : document) : document :=
  on_mount "cv-projects" d
    (Portfolio.append_each (renderProject lang) (cv_projects data)).

Definition renderSummary (data : cv) (lang : string) (d : document) : document :=
  match getElementById d "cv-summary" with
  | Some el_ =>
      {| title := title d; Dom.lang := Dom.lang d;
         elements := <["cv-summary" := set_textContent el_ (text_of (t (summary data) lang))]>
                       (elements d) |}
  | None => d
  end.

End Renderers.

End CVRender.

(** ** [animations.js] and the capture step of the export: revealing and
    filling *)

Module Animations.

(** [root.querySelectorAll(sel).forEach(f)]: as [update_where], on the
    proper descendants of [root] only. *)
Definition update_below (p : node -> bool) (f : node -> node) (root : node) : node :=
  match root with
  | Element tag cls attrs ch => Element tag cls attrs (List.map (update_where p f) ch)
  | Fragment ch => Fragment (List.map (update_where p f) ch)
  | _ => root
  end.

(** [.cv-skill__bar-fill, .cv-lang__bar-fill] *)
Definition BAR_SELECTOR (n : node) : bool :=
  has_class "cv-skill__bar-fill" n || has_class "cv-lang__bar-fill" n.

(** [bar.style.setProperty('--bar-fill', bar.dataset.level)] *)
Definition fill_bar (bar : node) : node :=
  setProperty bar "--bar-fill" (to_string (Portfolio.dataset bar "level")).

(** [el.classList.add('is-visible')] *)
Definition reveal (n : node) : node := classList_add n "is-visible".

(** What the controller keeps between calls: the flag [_barsAnimated] and
    the containers its bar observer watches (by id). *)
Record state := {
  barsAnimated : bool;
  observed : list string
}.

(** [initSkillBars], run on every [cv-rendered] event.  [prefersMotion] is
    [prefersMotion.matches].  In the branch that arms the observer nothing
    in the document changes at the time of the call. *)
Definition initSkillBars (prefersMotion : bool) (st : state) (d : document)
    : state * document :=
  let targets := List.filter (fun id => bool_decide (is_Some (getElementById d id)))
                             ["cv-skills"; "cv-languages"] in
  match targets with
  | [] => (st, d)
  | _ =>
      if negb prefersMotion || barsAnimated st then
        (st,
         {| title := title d; lang := lang d;
            elements :=
              fold_left (fun elems id =>
                  match elems !! id with
                  | Some target => <[id := update_below BAR_SELECTOR fill_bar target]> elems
                  | None => elems
                  end) targets (elements d) |})
      else
        ({| barsAnimated := true; observed := observed st ++ targets |}, d)
  end.

(** [initScrollReveal], run at start and on every [portfolio-rendered]
    event: without motion every element tagged [data-reveal] is shown at
    once; with motion the elements are handed to an observer and the
    document is left as it is. *)
Definition initScrollReveal (prefersMotion : bool) (d : document) : document :=
  if prefersMotion then d
  else
    {| title := title d; lang := lang d;
       elements := update_where (has_attribute "data-reveal") reveal <$> elements d |}.

(** The script [handlePdfExport] evaluates in the page before the
    capture: all bars are filled, then all tagged elements are shown. *)
Definition force_final_state (d : document) : document :=
  {| title := title d; lang := lang d;
     elements :=
       (fun root => update_where (has_attribute "data-reveal") reveal
                      (update_where BAR_SELECTOR fill_bar root)) <$> elements d |}.

(** The passes over a rendered section (none, the filling of the bars,
    the script of the export), by what they have in common: an element
    built by [el] that is not a bar fill keeps its classes whatever it
    holds, an element that is neither a bar fill nor tagged [data-reveal]
    is kept and the pass goes on to its children, and the fill of an empty
    bar comes to show [shown level]. *)
Definition bar_pass (P : node -> node) (shown : Z -> string) : Prop :=
  (forall tag cls html c,
      BAR_SELECTOR (Element tag cls [] []) = false ->
      has_class c (P (el tag cls html)) = has_class c (Element tag cls [] []))
  /\ (forall tag cls attrs ch,
        BAR_SELECTOR (Element tag cls attrs []) = false ->
        has_attribute "data-reveal" (Element tag cls attrs []) = false ->
        P (Element tag cls attrs ch) = Element tag cls attrs (List.map P ch))
  /\ (forall cls level,
        cls = "cv-skill__bar-fill" \/ cls = "cv-lang__bar-fill" ->
        P (bar_fill cls level "0") = bar_fill cls level (shown level)).

End Animations.

(** ** Plain paths *)

Module Paths.

(** A path segment that is a name: not empty, not [.] or [..], without a
    slash or a question mark. *)
Definition plain (seg : string) : bool :=
  negb (String.eqb seg "") && negb (String.eqb seg ".") && negb (String.eqb seg "..")
  && forallb (fun c => negb (Ascii.eqb c "/") && negb (Ascii.eqb c "?"))
             (list_ascii_of_string seg).

(** The absolute path with the given segments. *)
Definition absolute (segs : list string) : string := "/" +:+ join "/" segs.

End Paths.

(** ** Sample pages and data for the overview and the CV *)

Module SampleSite.
Import Portfolio.

Definition card (slug_ : string) (tags_ : list string) (confidential_ wip_ : value)
    : project :=
  {| slug := slug_; project_title := de_en "Projekt" "Project";
     teaser := de_en "Kurz gesagt" "In short"; year := VStr "2024";
     duration := VUndefined; client := VUndefined; role := VUndefined;
     tags := Some tags_; confidential := confidential_; wip := wip_;
     url := VUndefined; sections := None |}.

Definition portfolio : data :=
  {| projects :=
       Some [card "evidoxa" ["UX Research"; "IA"] (VBool true) (VBool true);
             card "atlas" ["IA"; "Design Systems"] VUndefined VUndefined] |}.

(** The overview page with a topbar built in German. *)
Definition overview : document :=
  {| title := "Portfolio"; lang := "de";
     elements :=
       <["portfolio-overview" := Element "main" "portfolio-main" [("id", "portfolio-overview")] []]>
       (<["portfolio-topbar" := PortfolioPage.buildOverviewTopbar "de"]> ∅) |}.

Definition overview_state : state :=
  {| activeLang := "de"; portfolioData := Some portfolio; storage := ∅;
     doc := overview; dispatched := [] |}.

(** A section that waits for the reveal. *)
Definition hidden_section : node :=
  Element "section" "cv-section" [("data-reveal", "")]
    [Element "h2" "cv-section__title" [("data-reveal", "")] [Text "Profil"]].

Definition cv_data : CVRender.cv :=
  {| CVRender.cv_meta := {| CVRender.email := "mail@mathisthomsen.de";
                            CVRender.website := "mathisthomsen.de" |};
     CVRender.summary := de_en "UX-Designer" "UX designer";
     CVRender.experience := [];
     CVRender.cv_education := [];
     CVRender.cv_skills :=
       {| CVRender.specialized :=
            [{| CVRender.skill_name := de_en "Nutzerforschung" "User research";
                CVRender.skill_level := 5; CVRender.skill_max := 5 |}];
          CVRender.tools :=
            [{| CVRender.skill_name := VStr "Figma";
                CVRender.skill_level := 4; CVRender.skill_max := 5 |}];
          CVRender.misc := de_en "Moderation" "Facilitation" |};
     CVRender.languages :=
       [{| CVRender.language_name := de_en "Englisch" "English";
           CVRender.language_label := de_en "Verhandlungssicher" "Fluent";
           CVRender.language_level := 4; CVRender.language_max := 5 |}];
     CVRender.certifications := [];
     CVRender.cv_projects :=
       [{| CVRender.sp_title := VStr "Evidoxa"; CVRender.sp_start := VStr "2021";
           CVRender.sp_end := VUndefined;
           CVRender.sp_description := de_en "Werkzeug" "Tool";
           CVRender.links := None |}] |}.

(** The CV page before the first rendering. *)
Definition cv_page : document :=
  {| title := "Lebenslauf"; lang := "de";
     elements :=
       <["cv-skills" := Element "div" "cv-skills" [("id", "cv-skills")] []]>
       (<["cv-languages" := Element "div" "cv-languages" [("id", "cv-languages")] []]>
        (<["cv-profile" := hidden_section]> ∅)) |}.

(** The language toggle of the CV page, German pressed. *)
Definition cv_toggle : node :=
  Element "div" "cv-lang-toggle" [("role", "group")]
    [Element "button" "cv-lang-toggle__btn"
       [("data-lang", "de"); ("aria-pressed", "true"); ("aria-label", "Deutsch aktiv")]
       [Text "DE"];
     Element "button" "cv-lang-toggle__btn"
       [("data-lang", "en"); ("aria-pressed", "false"); ("aria-label", "Switch to English")]
       [Text "EN"]].

Definition cv_toggle_page : document :=
  {| title := "Lebenslauf"; lang := "de";
     elements := <["cv-toggle" := cv_toggle]> (elements cv_page) |}.

End SampleSite.

(** * Properties *)

(** ** Helper lemmas *)

Lemma append_assoc (a b c : string) : (a +:+ b) +:+ c = a +:+ b +:+ c.
Proof.
  induction a as [|x a IH]; [reflexivity|].
  change (String x ((a +:+ b) +:+ c) = String x (a +:+ b +:+ c)).
  by rewrite IH.
Qed.

Lemma append_empty_r (a : string) : a +:+ "" = a.
Proof.
  induction a as [|x a IH]; [reflexivity|].
  change (String x (a +:+ "") = String x a). by rewrite IH.
Qed.

Lemma includes_supported (code : string) :
  includes I18n.SUPPORTED_LANGS (VStr code) = bool_decide (code ∈ I18n.SUPPORTED_LANGS).
Proof.
  unfold includes, I18n.SUPPORTED_LANGS. simpl.
  destruct (String.eqb_spec code "de") as [->|Hde]; [done|].
  destruct (String.eqb_spec code "en") as [->|Hen]; [done|].
  simpl. symmetry. apply bool_decide_eq_false.
  rewrite !elem_of_cons, elem_of_nil. tauto.
Qed.

Lemma supported_elem_of (code : string) :
  code ∈ I18n.SUPPORTED_LANGS <-> supported code.
Proof.
  unfold I18n.SUPPORTED_LANGS, supported.
  rewrite !elem_of_cons, elem_of_nil. tauto.
Qed.

Lemma supported_truthy (code : string) :
  code ∈ I18n.SUPPORTED_LANGS -> truthy (VStr code) = true.
Proof. intros [-> | ->]%supported_elem_of; reflexivity. Qed.

Lemma t_run_returns (field : value) (lang : string) :
  I18n.t_run field lang = Some (I18n.t field lang).
Proof.
  unfold I18n.t, I18n.t_run.
  destruct field as [| |b|n|s|l|m]; simpl; try reflexivity.
  - destruct b; reflexivity.
  - destruct (n =? 0)%Z; reflexivity.
  - destruct (String.eqb s ""); reflexivity.
  - destruct (String.eqb lang "length"); simpl.
    + destruct (negb (Z.of_nat (List.length l) =? 0)%Z); reflexivity.
    + destruct (truthy (default VUndefined (array_index lang 0 l))); reflexivity.
  - destruct (truthy (default VUndefined (m !! lang))); reflexivity.
Qed.

Lemma t_mapping (m : gmap string value) (lang : string) :
  I18n.t (VObj m) lang =
  or_else (default VUndefined (m !! lang))
          (or_else (default VUndefined (m !! "de")) (VStr "")).
Proof.
  unfold I18n.t, I18n.t_run, or_else. simpl.
  destruct (truthy (default VUndefined (m !! lang))); reflexivity.
Qed.

Lemma or_else_not_undefined (a b : value) :
  b <> VUndefined -> or_else a b <> VUndefined.
Proof.
  intros Hb. unfold or_else.
  destruct (truthy a) eqn:Ha; [|exact Hb].
  intros ->. discriminate Ha.
Qed.

Lemma truthy_not_undefined (v : value) : truthy v = true -> v <> VUndefined.
Proof. intros Hv ->. discriminate Hv. Qed.

Lemma t_not_undefined (field : value) (lang : string) :
  I18n.t field lang <> VUndefined.
Proof.
  unfold I18n.t, I18n.t_run.
  destruct (negb (truthy field)); [done|].
  destruct (is_string field) eqn:Hs; [by destruct field|].
  destruct (get_prop field lang) as [a|]; simpl; [|done].
  destruct (truthy a) eqn:Ha; simpl; [by apply truthy_not_undefined|].
  destruct (get_prop field "de") as [b|]; simpl; [|done].
  by apply or_else_not_undefined.
Qed.

Lemma browser_language_text (nav : option string) :
  to_string (or_else (of_option nav) (VStr "")) = default "" nav.
Proof.
  destruct nav as [s|]; [|reflexivity].
  unfold or_else. simpl. destruct (String.eqb_spec s ""); simpl; congruence.
Qed.

(** ** The localisation resolver *)

(** C1, as stated, fails: with [F = { de: "Hallo", en: "" }] the mapping
    contains the key [en], yet [t(F, "en")] is ["Hallo"], not [F["en"]]. *)
Lemma t_at_lang_counterexample :
  let F : gmap string value := <["de" := VStr "Hallo"]> (<["en" := VStr ""]> ∅) in
  supported "en" /\
  F !! "en" = Some (VStr "") /\
  I18n.t (VObj F) "en" = VStr "Hallo" /\
  I18n.t (VObj F) "en" <> VStr "".
Proof.
  cbv zeta. split; [by right|]. split; [reflexivity|].
  split; [reflexivity|]. vm_compute. discriminate.
Qed.

(** C1 (amended): for a supported language code [L] and a mapping [F]
    containing the key [L], [t(F, L)] is exactly [F[L]] when that value is
    truthy (a non-empty text); when it is not, [t(F, L)] is the usable value
    at [de], or the empty string when there is none. *)
Theorem t_returns_value_at_lang (L : string) (F : gmap string value) (v : value) :
  supported L ->
  F !! L = Some v ->
  (truthy v = true -> I18n.t (VObj F) L = v) /\
  (truthy v = false -> I18n.t (VObj F) L = default (VStr "") (usable F "de")).
Proof.
  intros _ HL. rewrite t_mapping, HL. unfold or_else, usable. simpl.
  split; intros ->; [reflexivity|].
  destruct (F !! "de") as [d|]; simpl; [|reflexivity].
  destruct (truthy d); reflexivity.
Qed.

Lemma t_returns_value_at_lang_witness :
  I18n.t (VObj (<["de" := VStr "Über mich"]> (<["en" := VStr "About"]> ∅))) "en"
  = VStr "About".
Proof.
  apply (t_returns_value_at_lang "en" _ (VStr "About")).
  - by right.
  - reflexivity.
  - reflexivity.
Defined.

(** C2: [resolveInitialLang] follows the priority order query parameter,
    persisted value, browser language (lowercased, first two letters),
    [de]; whatever the inputs, it returns a supported code. *)
Theorem resolveInitialLang_priority (w : I18n.browser) :
  I18n.resolveInitialLang w =
    language_by_priority (I18n.params_get (I18n.search w) "lang")
                         (I18n.getItem (I18n.localStorage w) I18n.STORAGE_KEY)
                         (I18n.navigator_language w)
  /\ supported (I18n.resolveInitialLang w).
Proof.
  assert (Hpick : forall c o, supported o -> supported (pick c o)).
  { intros [c|] o Ho; simpl; [|done].
    case_bool_decide as Hc; [by apply supported_elem_of|done]. }
  assert (Heq : I18n.resolveInitialLang w =
    language_by_priority (I18n.params_get (I18n.search w) "lang")
                         (I18n.getItem (I18n.localStorage w) I18n.STORAGE_KEY)
                         (I18n.navigator_language w)).
  { unfold I18n.resolveInitialLang, language_by_priority.
    rewrite browser_language_text, !includes_supported.
    assert (Hb : (if bool_decide (slice0 2 (toLowerCase (default "" (I18n.navigator_language w)))
                                   ∈ I18n.SUPPORTED_LANGS)
                  then slice0 2 (toLowerCase (default "" (I18n.navigator_language w)))
                  else "de")
                 = pick (slice0 2 <$> (toLowerCase <$> I18n.navigator_language w)) "de").
    { destruct (I18n.navigator_language w) as [b|]; reflexivity. }
    rewrite Hb. clear Hb.
    set (fromBrowser := pick _ "de").
    assert (Hs : match I18n.getItem (I18n.localStorage w) I18n.STORAGE_KEY with
                 | Some stored =>
                     if truthy (VStr stored) && includes I18n.SUPPORTED_LANGS (VStr stored)
                     then stored else fromBrowser
                 | None => fromBrowser
                 end
                 = pick (I18n.getItem (I18n.localStorage w) I18n.STORAGE_KEY) fromBrowser).
    { destruct (I18n.getItem _ _) as [s|]; [|reflexivity]. simpl pick.
      rewrite includes_supported. case_bool_decide as Hc.
      - by rewrite (supported_truthy _ Hc).
      - by rewrite andb_false_r. }
    rewrite Hs. clear Hs.
    destruct (I18n.params_get _ _) as [q|]; [|reflexivity]. simpl pick.
    rewrite includes_supported. case_bool_decide as Hc.
    - by rewrite (supported_truthy _ Hc).
    - by rewrite andb_false_r. }
  split; [exact Heq|].
  rewrite Heq. unfold language_by_priority.
  do 3 apply Hpick. by left.
Qed.

(** The three resolutions the specification lists. *)
Example resolveInitialLang_query_wins ls nav :
  I18n.resolveInitialLang
    {| I18n.search := [("lang", "en")]; I18n.localStorage := ls;
       I18n.navigator_language := nav |} = "en".
Proof. reflexivity. Qed.

Example resolveInitialLang_persisted_beats_browser :
  I18n.resolveInitialLang
    {| I18n.search := []; I18n.localStorage := <["cv-lang" := "de"]> ∅;
       I18n.navigator_language := Some "en-US" |} = "de".
Proof. reflexivity. Qed.

Example resolveInitialLang_default :
  I18n.resolveInitialLang
    {| I18n.search := []; I18n.localStorage := ∅;
       I18n.navigator_language := Some "fr-FR" |} = "de".
Proof. reflexivity. Qed.

(** C3: [t] is total.  It raises on no input and never returns
    [undefined]; an absent field gives the empty string, a plain string is
    returned verbatim.  For a language key that the mapping holds itself, or
    that names no member inherited from [Object.prototype] (every language
    code is such a key), a mapping gives its usable value at [lang], else
    at [de], else the empty string; and without the key [lang] and with a
    content value at [de] it gives exactly that value.  (Under a name such
    as [constructor] that the mapping does not hold, [field[lang]] is the
    inherited member, which is what [t] then returns.) *)
Theorem t_total (field : value) (lang : string) :
  I18n.t_run field lang = Some (I18n.t field lang)
  /\ I18n.t field lang <> VUndefined
  /\ (field = VUndefined \/ field = VNull -> I18n.t field lang = VStr "")
  /\ (forall s, field = VStr s -> I18n.t field lang = VStr s)
  /\ (forall m, field = VObj m ->
        is_Some (m !! lang) \/ inherited lang = false ->
        I18n.t field lang
        = default (default (VStr "") (usable m "de")) (usable m lang))
  /\ (forall m v, field = VObj m -> inherited lang = false ->
        m !! lang = None -> m !! "de" = Some v ->
        is_content v = true -> I18n.t field lang = v).
Proof.
  split; [apply t_run_returns|].
  split; [apply t_not_undefined|].
  split; [intros [-> | ->]; reflexivity|].
  split.
  { intros s ->. unfold I18n.t, I18n.t_run. simpl.
    destruct (String.eqb_spec s ""); simpl; congruence. }
  split.
  - intros m -> _. rewrite t_mapping. unfold or_else, usable.
    destruct (m !! lang) as [a|]; simpl.
    + destruct (truthy a); simpl; [reflexivity|].
      destruct (m !! "de") as [d|]; simpl; [|reflexivity].
      destruct (truthy d); reflexivity.
    + destruct (m !! "de") as [d|]; simpl; [|reflexivity].
      destruct (truthy d); reflexivity.
  - intros m v -> _ HL Hde Hv. rewrite t_mapping, HL, Hde. unfold or_else. simpl.
    destruct v as [| |b|n|s|l|m']; try discriminate Hv; simpl; [|reflexivity].
    destruct (String.eqb_spec s ""); simpl; congruence.
Qed.

Lemma t_total_witness :
  I18n.t (VObj (<["de" := VStr "Berufserfahrung"]> ∅)) "en" = VStr "Berufserfahrung".
Proof.
  refine (proj2 (proj2 (proj2 (proj2 (proj2
            (t_total (VObj (<["de" := VStr "Berufserfahrung"]> ∅)) "en")))))
            _ (VStr "Berufserfahrung") _ _ _ _ _); reflexivity.
Defined.


(** ** Dates *)

Lemma split_without_separator (sep : ascii) (s : string) :
  forallb (fun c => negb (Ascii.eqb c sep)) (list_ascii_of_string s) = true ->
  split sep s = [s].
Proof.
  induction s as [|c r IH]; simpl; [reflexivity|].
  intros [Hc Hr]%andb_prop.
  apply negb_true_iff in Hc. rewrite Hc, (IH Hr). reflexivity.
Qed.

Lemma formatDate_absent fmt (lang : string) :
  I18n.formatDate fmt None lang = present_token lang
  /\ I18n.formatDate fmt (Some "") lang = present_token lang.
Proof. split; reflexivity. Qed.

Lemma formatDate_year_only fmt (y lang : string) :
  year_only y = true -> I18n.formatDate fmt (Some y) lang = y.
Proof.
  unfold year_only. intros [Hne Hdash]%andb_prop.
  unfold I18n.formatDate. simpl. rewrite Hne. simpl.
  by rewrite (split_without_separator _ _ Hdash).
Qed.

(** C9: [formatDate] gives the present token of the language (["heute"]
    for [de], ["present"] otherwise) for an absent or empty value and
    returns a value without month part unchanged; [formatPeriod] is the two
    formatted dates around an en dash, so an open period ends in the
    present token. *)
Theorem formatDate_formatPeriod fmt (lang : string) :
  (forall str, str = None \/ str = Some "" ->
     (lang = "de" -> I18n.formatDate fmt str lang = "heute") /\
     (lang <> "de" -> I18n.formatDate fmt str lang = "present"))
  /\ (forall y, year_only y = true -> I18n.formatDate fmt (Some y) lang = y)
  /\ (forall start end_,
        I18n.formatPeriod fmt start end_ lang
        = I18n.formatDate fmt start lang +:+ " – " +:+ I18n.formatDate fmt end_ lang)
  /\ ends_in (I18n.formatPeriod fmt (Some "2020-03") None "en") "present"
  /\ ends_in (I18n.formatPeriod fmt (Some "2020-03") None "de") "heute".
Proof.
  split.
  { intros str Hstr.
    assert (Htok : I18n.formatDate fmt str lang = present_token lang)
      by (destruct Hstr as [-> | ->]; apply formatDate_absent).
    rewrite Htok. unfold present_token.
    split; intros Hl.
    - by rewrite Hl.
    - by destruct (String.eqb_spec lang "de"). }
  split; [intros y; apply formatDate_year_only|].
  split; [reflexivity|].
  split.
  - exists (fmt "2020" "03" "en-GB" +:+ " – "). unfold I18n.formatPeriod. simpl.
    by rewrite append_assoc.
  - exists (fmt "2020" "03" "de-DE" +:+ " – "). unfold I18n.formatPeriod. simpl.
    by rewrite append_assoc.
Qed.

Lemma formatDate_formatPeriod_witness :
  I18n.formatDate (fun y m _ => m +:+ "/" +:+ y) None "en" = "present"
  /\ I18n.formatDate (fun y m _ => m +:+ "/" +:+ y) (Some "") "de" = "heute"
  /\ I18n.formatDate (fun y m _ => m +:+ "/" +:+ y) (Some "2019") "de" = "2019".
Proof.
  pose proof (formatDate_formatPeriod (fun y m _ => m +:+ "/" +:+ y) "en") as Hen.
  pose proof (formatDate_formatPeriod (fun y m _ => m +:+ "/" +:+ y) "de") as Hde.
  split; [|split].
  - apply (proj1 Hen None); [by left | discriminate].
  - apply (proj1 Hde (Some "")); [by right | reflexivity].
  - apply (proj1 (proj2 Hde) "2019"). reflexivity.
Defined.


(** ** Content blocks *)

Lemma textContent_set_textContent (tag cls : string) attrs ch (s : string) :
  textContent (set_textContent (Element tag cls attrs ch) s) = s.
Proof.
  simpl. destruct (String.eqb_spec s "") as [->|Hs]; [reflexivity|].
  apply append_empty_r.
Qed.

Lemma append_each_element {A} (f : A -> node) (l : list A) tag cls attrs ch :
  (forall x, is_fragment (f x) = false) ->
  Portfolio.append_each f l (Element tag cls attrs ch)
  = Element tag cls attrs (ch ++ List.map f l).
Proof.
  intros Hf. unfold Portfolio.append_each.
  revert ch. induction l as [|x l IH]; intros ch; simpl.
  - by rewrite app_nil_r.
  - specialize (Hf x) as Hx.
    destruct (f x); try discriminate Hx; simpl; by rewrite IH, <- app_assoc.
Qed.

Lemma renderPhase_element (lang : string) (ph : Portfolio.phase) :
  is_fragment (Portfolio.renderPhase lang ph) = false.
Proof.
  unfold Portfolio.renderPhase.
  destruct (Portfolio.phase_wip ph) as [| |[|]| | | |]; reflexivity.
Qed.

Lemma el_shape (tag cls : string) (html : value) :
  el tag cls html = Element tag cls [] (childNodes (el tag cls html)).
Proof.
  unfold el. simpl.
  destruct (String.eqb_spec cls "") as [->|Hc]; destruct html; reflexivity.
Qed.

Lemma el_not_fragment (tag cls : string) (html : value) :
  is_fragment (el tag cls html) = false.
Proof. by rewrite el_shape. Qed.

Lemma has_class_el (c tag cls : string) (html : value) :
  has_class c (el tag cls html) = existsb (String.eqb c) (tokens cls).
Proof. by rewrite el_shape. Qed.

Lemma appendChild_single tag cls attrs ch (child : node) :
  is_fragment child = false ->
  appendChild (Element tag cls attrs ch) child = Element tag cls attrs (ch ++ [child]).
Proof. by destruct child. Qed.

#[local] Arguments appendChild : simpl never.
#[local] Arguments el _ _ !html /.

(** Normalises a tree built by [el], [appendChild] and the setters. *)
Ltac dom_norm :=
  repeat (cbn;
          rewrite ?appendChild_single by (first [apply el_not_fragment | reflexivity])).

(** C10: in a timeline block every phase is rendered, in order; a phase
    label made of decimal digits only is shown behind the prefix
    ["Phase "], any other label verbatim; a phase with [wip] true carries,
    right after its label, the in-progress badge in the active language,
    and a phase without it carries no badge. *)
Theorem renderTimeline_phases (lang : string) (b : Portfolio.block) :
  (exists label,
     Portfolio.renderTimeline lang b
     = Element "div" "" []
         [label;
          Element "div" "cs-timeline" []
            (List.map (Portfolio.renderPhase lang) (default [] (Portfolio.phases b)))])
  /\ forall ph,
       let raw := to_string (I18n.t (Portfolio.phase_phase ph) lang) in
       exists num rest,
         childNodes (Portfolio.renderPhase lang ph) = num :: rest
         /\ has_class "cs-timeline__phase-num" num = true
         /\ (all_digits raw = true -> textContent num = "Phase " +:+ raw)
         /\ (all_digits raw = false -> textContent num = raw)
         /\ (Portfolio.phase_wip ph = VBool true ->
               exists badge rest',
                 rest = badge :: rest'
                 /\ has_class "cs-timeline__phase-wip-badge" badge = true
                 /\ forall text, in_progress_text lang = Some text ->
                                 textContent badge = text)
         /\ (Portfolio.phase_wip ph <> VBool true ->
               existsb (has_class "cs-timeline__phase-wip-badge") (num :: rest) = false).
Proof.
  split.
  { unfold Portfolio.renderTimeline.
    change (el "div" "cs-timeline" VUndefined) with (Element "div" "cs-timeline" [] []).
    rewrite (append_each_element _ _ _ _ _ _ (renderPhase_element lang)).
    eexists. reflexivity. }
  intros ph raw.
  set (num := set_textContent (Element "p" "cs-timeline__phase-num" [] [])
                (if all_digits raw then "Phase " +:+ raw else raw)).
  assert (Hnum : has_class "cs-timeline__phase-num" num = true) by reflexivity.
  assert (Hbadge : has_class "cs-timeline__phase-wip-badge" num = false) by reflexivity.
  assert (Htext : textContent num = if all_digits raw then "Phase " +:+ raw else raw)
    by apply textContent_set_textContent.
  assert (Hcase : Portfolio.phase_wip ph = VBool true \/ Portfolio.phase_wip ph <> VBool true)
    by (destruct (Portfolio.phase_wip ph) as [| |[|]| | | |]; (by left) || (by right)).
  destruct Hcase as [Hwip|Hwip].
  - eexists num, _. split.
    { unfold Portfolio.renderPhase. rewrite Hwip. dom_norm. reflexivity. }
    split; [exact Hnum|].
    split; [by intros Hd; rewrite Htext, Hd|].
    split; [by intros Hd; rewrite Htext, Hd|].
    split; [|done].
    intros _. eexists _, _. split; [reflexivity|]. split; [reflexivity|].
    intros text. unfold in_progress_text.
    destruct (String.eqb lang "de"); [by intros [= <-]|].
    destruct (String.eqb lang "en"); [by intros [= <-]|done].
  - eexists num, _. split.
    { unfold Portfolio.renderPhase. revert Hwip.
      destruct (Portfolio.phase_wip ph) as [| |[|]| | | |]; intros Hwip;
        try (dom_norm; reflexivity).
      by destruct Hwip. }
    split; [exact Hnum|].
    split; [by intros Hd; rewrite Htext, Hd|].
    split; [by intros Hd; rewrite Htext, Hd|].
    split; [done|].
    intros _. cbn [existsb]. by rewrite Hbadge, !has_class_el.
Qed.

Example renderPhase_numbered :
  childNodes (Portfolio.renderPhase "en"
    {| Portfolio.phase_wip := VBool true;
       Portfolio.phase_phase := VStr "1";
       Portfolio.phase_title := Portfolio.de_en "Analyse" "Analysis";
       Portfolio.phase_description := VUndefined |})
  = [Element "p" "cs-timeline__phase-num" [] [Text "Phase 1"];
     Element "span" "cs-timeline__phase-wip-badge" [] [Markup "In Progress"];
     Element "h3" "cs-timeline__phase-title" [] [Markup "Analysis"];
     Element "p" "cs-timeline__phase-desc" [] []].
Proof. reflexivity. Qed.

Lemma renderTimeline_phases_witness :
  exists num rest,
    childNodes (Portfolio.renderPhase "de"
      {| Portfolio.phase_wip := VBool true;
         Portfolio.phase_phase := Portfolio.de_en "2" "2";
         Portfolio.phase_title := Portfolio.de_en "Konzept" "Concept";
         Portfolio.phase_description := VNull |}) = num :: rest
    /\ textContent num = "Phase 2"
    /\ exists badge rest', rest = badge :: rest' /\ textContent badge = "In Arbeit".
Proof.
  destruct (proj2 (renderTimeline_phases "de"
              {| Portfolio.type := VStr "timeline"; Portfolio.stats := None;
                 Portfolio.content := VUndefined; Portfolio.phases := Some [];
                 Portfolio.methods := None; Portfolio.slots := None;
                 Portfolio.takeaways := None; Portfolio.challenge := VUndefined;
                 Portfolio.approach := VUndefined; Portfolio.outcome := VUndefined |})
              {| Portfolio.phase_wip := VBool true;
                 Portfolio.phase_phase := Portfolio.de_en "2" "2";
                 Portfolio.phase_title := Portfolio.de_en "Konzept" "Concept";
                 Portfolio.phase_description := VNull |})
    as (num & rest & Hch & _ & Hdigits & _ & Hwip & _).
  exists num, rest. split; [exact Hch|]. split; [apply Hdigits; reflexivity|].
  destruct (Hwip eq_refl) as (badge & rest' & Hrest & _ & Htext).
  exists badge, rest'. split; [exact Hrest|]. apply Htext. reflexivity.
Defined.

(** *** Shapes of the rendered blocks *)

Lemma rooted_el tag cls html : rooted tag cls (el tag cls html).
Proof. rewrite el_shape. by eexists _, _. Qed.

Lemma rooted_append_each {A} (f : A -> node) l tag cls attrs ch :
  (forall x, is_fragment (f x) = false) ->
  rooted tag cls (Portfolio.append_each f l (Element tag cls attrs ch)).
Proof. intros Hf. rewrite append_each_element by done. by eexists _, _. Qed.

Lemma rooted_container {A} (f : A -> node) l (label : node) gridcls :
  is_fragment label = false ->
  (forall x, is_fragment (f x) = false) ->
  rooted "div" ""
    (appendChild (el "div" "" VUndefined)
       (appendChild (appendChild (Fragment []) label)
          (Portfolio.append_each f l (el "div" gridcls VUndefined)))).
Proof.
  intros Hl Hf.
  rewrite (el_shape "div" gridcls), append_each_element by done.
  destruct label; try discriminate Hl; by eexists _, _.
Qed.

Lemma set_textContent_not_fragment tag cls html s :
  is_fragment (set_textContent (el tag cls html) s) = false.
Proof. by rewrite el_shape. Qed.

Lemma renderStatBar_rooted lang b : rooted "div" "cs-stat-bar" (Portfolio.renderStatBar lang b).
Proof.
  unfold Portfolio.renderStatBar.
  change (el "div" "cs-stat-bar" VUndefined) with (Element "div" "cs-stat-bar" [] []).
  apply rooted_append_each. intros x. by dom_norm.
Qed.

Lemma renderTimeline_rooted lang b : rooted "div" "" (Portfolio.renderTimeline lang b).
Proof.
  apply rooted_container;
    [apply set_textContent_not_fragment | apply renderPhase_element].
Qed.

Lemma renderMethodGrid_rooted lang b : rooted "div" "" (Portfolio.renderMethodGrid lang b).
Proof.
  apply rooted_container; [apply set_textContent_not_fragment|].
  intros x. destruct (Portfolio.ICONS (Portfolio.method_icon x)); by dom_norm.
Qed.

Lemma renderVisualSlots_rooted lang b : rooted "div" "" (Portfolio.renderVisualSlots lang b).
Proof.
  apply rooted_container; [apply set_textContent_not_fragment|].
  intros x. by dom_norm.
Qed.

Lemma renderKeyTakeaways_rooted lang b : rooted "div" "" (Portfolio.renderKeyTakeaways lang b).
Proof.
  apply rooted_container; [apply set_textContent_not_fragment|].
  intros x. by dom_norm.
Qed.

Lemma renderInsight_rooted lang b : rooted "aside" "cs-insight" (Portfolio.renderInsight lang b).
Proof. unfold Portfolio.renderInsight. dom_norm. by eexists _, _. Qed.

Lemma renderChallengeApproachOutcome_rooted lang b :
  rooted "div" "cs-outcome" (Portfolio.renderChallengeApproachOutcome lang b).
Proof.
  unfold Portfolio.renderChallengeApproachOutcome. cbn [fold_left].
  destruct (truthy (Portfolio.challenge b)), (truthy (Portfolio.approach b)),
    (truthy (Portfolio.outcome b)); dom_norm; by eexists _, _.
Qed.

(** Every block renderer returns one element, and none of them is the
    disclaimer. *)
Lemma renderBlock_root (lang : string) (b : Portfolio.block) (r : node) :
  Portfolio.renderBlock lang b = Some r ->
  is_fragment r = false /\ has_class "cs-disclaimer" r = false.
Proof.
  assert (Hroot : forall tag cls n,
            rooted tag cls n -> existsb (String.eqb "cs-disclaimer") (tokens cls) = false ->
            is_fragment n = false /\ has_class "cs-disclaimer" n = false).
  { intros tag cls n (attrs & ch & ->) Hcls. split; [reflexivity|exact Hcls]. }
  unfold Portfolio.renderBlock.
  destruct (Portfolio.type b) as [| | | |ty| |]; try discriminate.
  repeat (match goal with
          | |- context [String.eqb ty ?k] => destruct (String.eqb ty k)
          end);
    intros [= <-]; eapply Hroot;
    eauto using renderStatBar_rooted, rooted_el, renderTimeline_rooted,
      renderMethodGrid_rooted, renderInsight_rooted,
      renderChallengeApproachOutcome_rooted, renderVisualSlots_rooted,
      renderKeyTakeaways_rooted.
Qed.

Lemma renderBlock_known (lang : string) (b : Portfolio.block) :
  if known_type b then is_Some (Portfolio.renderBlock lang b)
  else Portfolio.renderBlock lang b = None.
Proof.
  unfold known_type, Portfolio.renderBlock.
  destruct (Portfolio.type b) as [| | | |ty| |]; try reflexivity.
  repeat (match goal with
          | |- context [String.eqb ty ?k] =>
              destruct (String.eqb_spec ty k) as [->|?];
              [assert (bool_decide (k ∈ known_types) = true) as ->
                 by (vm_compute; reflexivity);
               by eexists|]
          end).
  rewrite bool_decide_eq_false_2; [reflexivity|].
  unfold known_types. rewrite !elem_of_cons, elem_of_nil. tauto.
Qed.

(** The section loop of [renderDetail]. *)
Lemma section_loop (lang : string) (l : list Portfolio.block) tag cls attrs ch :
  fold_left (fun bodyInner block =>
      match Portfolio.renderBlock lang block with
      | None => bodyInner
      | Some rendered =>
          appendChild bodyInner
            (appendChild (setAttribute (el "div" "case-study__block" VUndefined)
                                       "data-reveal" "") rendered)
      end) l (Element tag cls attrs ch)
  = Element tag cls attrs
      (ch ++ omap (fun b => content_block <$> Portfolio.renderBlock lang b) l).
Proof.
  revert ch. induction l as [|b l IH]; intros ch; cbn.
  - by rewrite app_nil_r.
  - destruct (Portfolio.renderBlock lang b) as [r|] eqn:Hr; cbn.
    + destruct (renderBlock_root _ _ _ Hr) as [Hfrag _].
      rewrite (appendChild_single _ _ _ _ r Hfrag).
      rewrite appendChild_single by reflexivity.
      rewrite IH, <- app_assoc. reflexivity.
    + apply IH.
Qed.

Lemma authored_blocks (lang : string) (l : list Portfolio.block) :
  Forall2 (fun b n => exists r, Portfolio.renderBlock lang b = Some r /\ n = content_block r)
          (List.filter known_type l)
          (omap (fun b => content_block <$> Portfolio.renderBlock lang b) l)
  /\ Forall (fun n => is_disclaimer_block n = false)
            (omap (fun b => content_block <$> Portfolio.renderBlock lang b) l).
Proof.
  induction l as [|b l [IH1 IH2]]; cbn; [by split; constructor|].
  pose proof (renderBlock_known lang b) as Hk.
  destruct (known_type b).
  - destruct Hk as [r Hr]. rewrite Hr. cbn.
    split; constructor; eauto.
    destruct (renderBlock_root _ _ _ Hr) as [_ Hcls].
    unfold is_disclaimer_block. cbn [content_block childNodes existsb].
    by rewrite Hcls, andb_false_r.
  - rewrite Hk. by split.
Qed.

(** What [renderDetail] installs under [#portfolio-detail] when the slug
    resolves and the mount node exists. *)
Lemma renderDetail_installs topbar header footer (lang : string)
    (data : Portfolio.data) (slug_ : value) (d : document)
    (project : Portfolio.project) (container : node) :
  List.find (fun p => Portfolio.strict_eq_str (Portfolio.slug p) slug_)
            (default [] (Portfolio.projects data)) = Some project ->
  getElementById d "portfolio-detail" = Some container ->
  getElementById (Portfolio.renderDetail topbar header footer lang data slug_ d)
                 "portfolio-detail"
  = Some (detail_page (topbar lang) (header lang project) footer container
            (omap (fun b => content_block <$> Portfolio.renderBlock lang b)
                  (default [] (Portfolio.sections project))
             ++ (if truthy (Portfolio.confidential project)
                 then [content_block (Portfolio.renderDisclaimer lang)] else []))).
Proof.
  intros Hfind Hmount. unfold Portfolio.renderDetail. rewrite Hfind, Hmount.
  unfold getElementById. cbn [elements]. rewrite lookup_insert_eq. f_equal.
  unfold detail_page. do 2 f_equal.
  change (el "div" "container" VUndefined) with (Element "div" "container" [] []).
  rewrite section_loop. cbn [app].
  destruct (truthy (Portfolio.confidential project)).
  - assert (Hd : Portfolio.renderDisclaimer lang
                 = Element "aside" "cs-disclaimer" []
                     (childNodes (Portfolio.renderDisclaimer lang))).
    { unfold Portfolio.renderDisclaimer. by dom_norm. }
    rewrite Hd. by dom_norm.
  - rewrite app_nil_r. by dom_norm.
Qed.

(** On an element mount and element chrome the page reads as the tree
    [topbar; main [header; body [container blocks]]; footer]. *)
Lemma detail_page_shape tag cls attrs old (topbar header footer : node)
    (blocks : list node) :
  is_fragment topbar = false -> is_fragment header = false ->
  is_fragment footer = false ->
  detail_page topbar header footer (Element tag cls attrs old) blocks
  = Element tag cls attrs
      [topbar;
       Element "main" "case-study-main" [("id", "main")]
         [header;
          Element "div" "case-study-body" [] [Element "div" "container" [] blocks]];
       footer].
Proof.
  intros Ht Hh Hf. unfold detail_page. cbn.
  by rewrite !appendChild_single.
Qed.

Lemma disclaimer_is_disclaimer_block (lang : string) :
  is_disclaimer_block (content_block (Portfolio.renderDisclaimer lang)) = true.
Proof. unfold Portfolio.renderDisclaimer. by dom_norm. Qed.

Lemma filter_no_disclaimer (l : list node) :
  Forall (fun n => is_disclaimer_block n = false) l ->
  List.filter is_disclaimer_block l = [].
Proof.
  induction 1 as [|n l Hn _ IH]; cbn [List.filter]; [reflexivity|]. by rewrite Hn.
Qed.

(** C5: for a case study that is rendered, [confidential: true] makes
    [renderDetail] put exactly one disclaimer block into the body, after
    all authored blocks, however many there are; with [confidential] false
    or absent the body holds the authored blocks only. *)
Theorem renderDetail_disclaimer topbar header footer (lang : string)
    (data : Portfolio.data) (slug_ : value) (d : document)
    (project : Portfolio.project) (container : node) :
  List.find (fun p => Portfolio.strict_eq_str (Portfolio.slug p) slug_)
            (default [] (Portfolio.projects data)) = Some project ->
  getElementById d "portfolio-detail" = Some container ->
  let authored := omap (fun b => content_block <$> Portfolio.renderBlock lang b)
                       (default [] (Portfolio.sections project)) in
  exists blocks,
    getElementById (Portfolio.renderDetail topbar header footer lang data slug_ d)
                   "portfolio-detail"
    = Some (detail_page (topbar lang) (header lang project) footer container blocks)
    /\ Forall (fun n => is_disclaimer_block n = false) authored
    /\ (Portfolio.confidential project = VBool true ->
          blocks = authored ++ [content_block (Portfolio.renderDisclaimer lang)]
          /\ is_disclaimer_block (content_block (Portfolio.renderDisclaimer lang)) = true
          /\ List.length (List.filter is_disclaimer_block blocks) = 1)
    /\ (Portfolio.confidential project = VBool false
        \/ Portfolio.confidential project = VUndefined ->
          blocks = authored /\ List.filter is_disclaimer_block blocks = []).
Proof.
  intros Hfind Hmount authored.
  destruct (authored_blocks lang (default [] (Portfolio.sections project)))
    as [_ Hauthored].
  eexists. split; [by apply renderDetail_installs|].
  split; [exact Hauthored|]. split.
  - intros ->. cbn [truthy]. split; [reflexivity|].
    split; [apply disclaimer_is_disclaimer_block|].
    rewrite List.filter_app, (filter_no_disclaimer _ Hauthored).
    cbn [List.filter app]. by rewrite disclaimer_is_disclaimer_block.
  - intros [-> | ->]; cbn [truthy]; rewrite app_nil_r;
      (split; [reflexivity|by apply filter_no_disclaimer]).
Qed.

(** C6: a section whose type is not one of the eight known ones renders
    to nothing ([renderBlock] gives [null]); the body of the detail page
    holds, in source order, one block for each section of a known type,
    and nothing for the unknown one. *)
Theorem renderDetail_skips_unknown topbar header footer (lang : string)
    (data : Portfolio.data) (slug_ : value) (d : document)
    (project : Portfolio.project) (container : node)
    (before after : list Portfolio.block) (unknown : Portfolio.block) :
  List.find (fun p => Portfolio.strict_eq_str (Portfolio.slug p) slug_)
            (default [] (Portfolio.projects data)) = Some project ->
  getElementById d "portfolio-detail" = Some container ->
  Portfolio.sections project = Some (before ++ unknown :: after) ->
  known_type unknown = false ->
  Portfolio.renderBlock lang unknown = None
  /\ exists authored,
       getElementById (Portfolio.renderDetail topbar header footer lang data slug_ d)
                      "portfolio-detail"
       = Some (detail_page (topbar lang) (header lang project) footer container
                 (authored
                  ++ (if truthy (Portfolio.confidential project)
                      then [content_block (Portfolio.renderDisclaimer lang)] else [])))
       /\ Forall2 (fun b n => exists r, Portfolio.renderBlock lang b = Some r
                                        /\ n = content_block r)
                  (List.filter known_type (before ++ after)) authored.
Proof.
  intros Hfind Hmount Hsections Hunknown.
  pose proof (renderBlock_known lang unknown) as Hnone. rewrite Hunknown in Hnone.
  split; [exact Hnone|].
  eexists. split; [by apply renderDetail_installs|].
  rewrite Hsections. cbn [default].
  destruct (authored_blocks lang (before ++ unknown :: after)) as [Hall _].
  rewrite List.filter_app in Hall. cbn [List.filter] in Hall.
  rewrite Hunknown in Hall. by rewrite List.filter_app.
Qed.

Lemma renderDetail_disclaimer_witness :
  exists blocks,
    getElementById
      (Portfolio.renderDetail Sample.topbar Sample.header Sample.footer "en"
         {| Portfolio.projects :=
              Some [Sample.case_study (VBool true)
                      [Sample.text_block "Kontext" "Context"; Sample.gallery_block]] |}
         (VStr "evidoxa") Sample.page) "portfolio-detail"
    = Some (detail_page (Sample.topbar "en")
              (Sample.header "en"
                 (Sample.case_study (VBool true)
                    [Sample.text_block "Kontext" "Context"; Sample.gallery_block]))
              Sample.footer Sample.mount blocks)
    /\ List.length (List.filter is_disclaimer_block blocks) = 1.
Proof.
  destruct (renderDetail_disclaimer Sample.topbar Sample.header Sample.footer "en"
              {| Portfolio.projects :=
                   Some [Sample.case_study (VBool true)
                           [Sample.text_block "Kontext" "Context"; Sample.gallery_block]] |}
              (VStr "evidoxa") Sample.page _ Sample.mount eq_refl eq_refl)
    as (blocks & Hpage & _ & Htrue & _).
  exists blocks. split; [exact Hpage|]. apply Htrue. reflexivity.
Defined.

Lemma renderDetail_skips_unknown_witness :
  Portfolio.renderBlock "de" Sample.gallery_block = None
  /\ exists authored,
       getElementById
         (Portfolio.renderDetail Sample.topbar Sample.header Sample.footer "de"
            {| Portfolio.projects :=
                 Some [Sample.case_study VUndefined
                         [Sample.text_block "Kontext" "Context"; Sample.gallery_block;
                          Sample.text_block "Ergebnis" "Outcome"]] |}
            (VStr "evidoxa") Sample.page) "portfolio-detail"
       = Some (detail_page (Sample.topbar "de")
                 (Sample.header "de"
                    (Sample.case_study VUndefined
                       [Sample.text_block "Kontext" "Context"; Sample.gallery_block;
                        Sample.text_block "Ergebnis" "Outcome"]))
                 Sample.footer Sample.mount (authored ++ []))
       /\ List.length authored = 2.
Proof.
  destruct (renderDetail_skips_unknown Sample.topbar Sample.header Sample.footer "de"
              {| Portfolio.projects :=
                   Some [Sample.case_study VUndefined
                           [Sample.text_block "Kontext" "Context"; Sample.gallery_block;
                            Sample.text_block "Ergebnis" "Outcome"]] |}
              (VStr "evidoxa") Sample.page _ Sample.mount
              [Sample.text_block "Kontext" "Context"]
              [Sample.text_block "Ergebnis" "Outcome"]
              Sample.gallery_block eq_refl eq_refl eq_refl eq_refl)
    as (Hnone & authored & Hpage & Hall).
  split; [exact Hnone|]. exists authored. split; [exact Hpage|].
  apply Forall2_length in Hall. symmetry. exact Hall.
Defined.

(** ** The language switch *)

Lemma includes_unsupported (lang_ : value) :
  lang_ <> VStr "de" -> lang_ <> VStr "en" -> includes I18n.SUPPORTED_LANGS lang_ = false.
Proof.
  intros Hde Hen. destruct lang_ as [| | | |s| |]; try reflexivity.
  rewrite includes_supported. apply bool_decide_eq_false.
  intros [-> | ->]%supported_elem_of; congruence.
Qed.

(** C7: with a language code other than [de] and [en], [setLang] (of the
    CV page and of the portfolio pages) returns the page state as it was:
    active language, storage, document language, toggle buttons, rendered
    DOM and the list of dispatched events are all unchanged. *)
Theorem setLang_unsupported_noop (cv_data : Type)
    (renderAll : cv_data -> string -> document -> document)
    (topbar : string -> node) (header : string -> Portfolio.project -> node)
    (footer : node) (renderOverview : string -> Portfolio.data -> document -> document)
    (lang_ : value) (cv : CV.state cv_data) (pf : Portfolio.state) :
  lang_ <> VStr "de" -> lang_ <> VStr "en" ->
  CV.setLang cv_data renderAll lang_ cv = cv
  /\ Portfolio.setLang topbar header footer renderOverview lang_ pf = pf.
Proof.
  intros Hde Hen. unfold CV.setLang, Portfolio.setLang.
  by rewrite (includes_unsupported _ Hde Hen).
Qed.

Lemma setLang_unsupported_noop_witness :
  Portfolio.setLang Sample.topbar Sample.header Sample.footer (fun _ _ d => d) (VStr "fr")
    {| Portfolio.activeLang := "en";
       Portfolio.portfolioData :=
         Some {| Portfolio.projects := Some [Sample.case_study (VBool true) []] |};
       Portfolio.storage := <["cv-lang" := "en"]> ∅;
       Portfolio.doc := Sample.page;
       Portfolio.dispatched := [] |}
  = {| Portfolio.activeLang := "en";
       Portfolio.portfolioData :=
         Some {| Portfolio.projects := Some [Sample.case_study (VBool true) []] |};
       Portfolio.storage := <["cv-lang" := "en"]> ∅;
       Portfolio.doc := Sample.page;
       Portfolio.dispatched := [] |}.
Proof.
  apply (setLang_unsupported_noop unit (fun _ _ d => d) Sample.topbar Sample.header
           Sample.footer (fun _ _ d => d) (VStr "fr")
           {| CV.activeLang := "de"; CV.cvData := None; CV.storage := ∅;
              CV.doc := Sample.page; CV.dispatched := [] |});
    discriminate.
Defined.

(** ** The export server *)

Lemma exportLang_cases (req : Server.request) :
  match I18n.params_get (Server.searchParams req) "lang" with
  | Some code =>
      if bool_decide (code ∈ Server.SUPPORTED_LANGS)
      then Server.exportLang req = code
      else Server.exportLang req = "de"
  | None => Server.exportLang req = "de"
  end.
Proof.
  unfold Server.exportLang.
  destruct (I18n.params_get _ _) as [code|]; [|reflexivity].
  cbn [of_option]. change Server.SUPPORTED_LANGS with I18n.SUPPORTED_LANGS.
  rewrite includes_supported. by case_bool_decide.
Qed.

Lemma exportLang_supported (req : Server.request) : supported (Server.exportLang req).
Proof.
  pose proof (exportLang_cases req) as H.
  destruct (I18n.params_get _ _) as [code|]; [|rewrite H; by left].
  case_bool_decide as Hc; rewrite H; [by apply supported_elem_of|by left].
Qed.

(** C8: the export language is the [lang] query parameter when that is
    [de] or [en], and [de] when it is missing or anything else; a
    successful export answers 200 with the PDF as an attachment named
    [CV_Mathis_Thomsen_<LANG>.pdf], [<LANG>] being the export language in
    upper case ([DE] or [EN]). *)
Theorem handlePdfExport_language_and_filename (puppeteer : string -> Server.capture)
    (req : Server.request) :
  let param := I18n.params_get (Server.searchParams req) "lang" in
  (forall code, param = Some code -> supported code -> Server.exportLang req = code)
  /\ (param = None \/ (exists code, param = Some code /\ ~ supported code) ->
      Server.exportLang req = "de")
  /\ (forall pdfBuffer, puppeteer (Server.exportLang req) = Server.Captured pdfBuffer ->
        Server.status (Server.handlePdfExport puppeteer req) = 200
        /\ Server.body (Server.handlePdfExport puppeteer req) = pdfBuffer
        /\ header "Content-Disposition" (Server.handlePdfExport puppeteer req)
           = Some ("attachment; filename="
                   +:+ quoted (export_filename (toUpperCase (Server.exportLang req)))))
  /\ (Server.exportLang req = "de" /\ toUpperCase (Server.exportLang req) = "DE"
      \/ Server.exportLang req = "en" /\ toUpperCase (Server.exportLang req) = "EN").
Proof.
  intros param. pose proof (exportLang_cases req) as Hcases. fold param in Hcases.
  split; [|split; [|split]].
  - intros code Hparam Hcode. rewrite Hparam in Hcases.
    apply supported_elem_of in Hcode. by rewrite bool_decide_eq_true_2 in Hcases.
  - intros [Hparam | (code & Hparam & Hcode)]; rewrite Hparam in Hcases; [done|].
    rewrite bool_decide_eq_false_2 in Hcases; [done|].
    by rewrite supported_elem_of.
  - intros pdfBuffer Hpdf. unfold Server.handlePdfExport. rewrite Hpdf.
    split; [reflexivity|]. split; [reflexivity|].
    reflexivity.
  - destruct (exportLang_supported req) as [-> | ->]; [left|right]; by split.
Qed.

Lemma handlePdfExport_language_and_filename_witness :
  Server.exportLang {| Server.method := "GET"; Server.url := "/export/cv.pdf?lang=en";
                       Server.searchParams := [("lang", "en")] |} = "en"
  /\ Server.exportLang {| Server.method := "GET"; Server.url := "/export/cv.pdf?lang=xx";
                          Server.searchParams := [("lang", "xx")] |} = "de"
  /\ header "Content-Disposition"
       (Server.handlePdfExport (fun _ => Server.Captured "%PDF-1.7")
          {| Server.method := "GET"; Server.url := "/export/cv.pdf?lang=en";
             Server.searchParams := [("lang", "en")] |})
     = Some ("attachment; filename=" +:+ quoted "CV_Mathis_Thomsen_EN.pdf").
Proof.
  split; [|split].
  - apply (proj1 (handlePdfExport_language_and_filename
                    (fun _ => Server.Captured "%PDF-1.7")
                    {| Server.method := "GET"; Server.url := "/export/cv.pdf?lang=en";
                       Server.searchParams := [("lang", "en")] |}) "en");
      [reflexivity | by right].
  - apply (proj1 (proj2 (handlePdfExport_language_and_filename
                    (fun _ => Server.Captured "%PDF-1.7")
                    {| Server.method := "GET"; Server.url := "/export/cv.pdf?lang=xx";
                       Server.searchParams := [("lang", "xx")] |}))).
    right. exists "xx". split; [reflexivity|]. intros [H | H]; discriminate H.
  - apply (proj1 (proj2 (proj2 (handlePdfExport_language_and_filename
                    (fun _ => Server.Captured "%PDF-1.7")
                    {| Server.method := "GET"; Server.url := "/export/cv.pdf?lang=en";
                       Server.searchParams := [("lang", "en")] |}))) "%PDF-1.7").
    reflexivity.
Defined.

(** The two exports the specification lists. *)
Example export_en_filename :
  exists cd,
    header "Content-Disposition"
      (Server.handlePdfExport (fun _ => Server.Captured "%PDF-1.7")
         {| Server.method := "GET"; Server.url := "/export/cv.pdf?lang=en";
            Server.searchParams := [("lang", "en")] |}) = Some cd
    /\ contains cd "_EN.pdf".
Proof.
  eexists. split; [reflexivity|].
  exists ("attachment; filename=" +:+ String dquote "CV_Mathis_Thomsen"), (String dquote "").
  reflexivity.
Qed.

Example export_unsupported_filename :
  exists cd,
    header "Content-Disposition"
      (Server.handlePdfExport (fun _ => Server.Captured "%PDF-1.7")
         {| Server.method := "GET"; Server.url := "/export/cv.pdf?lang=xx";
            Server.searchParams := [("lang", "xx")] |}) = Some cd
    /\ contains cd "_DE.pdf".
Proof.
  eexists. split; [reflexivity|].
  exists ("attachment; filename=" +:+ String dquote "CV_Mathis_Thomsen"), (String dquote "").
  reflexivity.
Qed.

(** What the guard of [serveStatic] does establish: a file is read only
    under a path that has the text of [ROOT] as a prefix, and a refusal
    reads nothing. *)
Lemma serveStatic_guard (ROOT : string) (readFile : string -> Server.read_result)
    (req : Server.request) :
  Forall (fun path => startsWith path ROOT = true)
         (Server.reads (Server.serveStatic ROOT readFile req))
  /\ (Server.status (Server.reply (Server.serveStatic ROOT readFile req)) = 403 ->
      Server.reads (Server.serveStatic ROOT readFile req) = []).
Proof.
  unfold Server.serveStatic.
  destruct (startsWith _ ROOT) eqn:Hprefix; cbn.
  - split; [by repeat constructor|].
    destruct (readFile _) as [bytes|code]; [discriminate|].
    destruct (String.eqb code "ENOENT"); discriminate.
  - by split.
Qed.

(** C4 fails on the code: the guard compares texts, not directories.
    With the root [/home/mathis/mathisthomsen.de], the request
    [GET /../mathisthomsen.de-private/notes.txt] resolves to a file in a
    neighbouring directory, outside the root; it passes the guard, the
    file is read and sent with status 200. *)
Theorem serveStatic_serves_neighbour_of_root :
  let req := {| Server.method := "GET";
                Server.url := "/../mathisthomsen.de-private/notes.txt";
                Server.searchParams := [] |} in
  Server.path_join Sample.ROOT (Server.url req) = Sample.neighbour
  /\ Server.inside Sample.ROOT Sample.neighbour = false
  /\ Server.route Sample.ROOT Sample.readFile (fun _ => Server.PuppeteerMissing) req
     = {| Server.reads := [Sample.neighbour];
          Server.reply :=
            {| Server.status := 200;
               Server.headers := [("Content-Type", "application/octet-stream")];
               Server.body := "private notes" |} |}.
Proof. cbv zeta. repeat split; vm_compute; reflexivity. Qed.

(** * Further properties of the code *)

(** ** Language resolution across page loads *)

Lemma resolveInitialLang_query (code : string) (w : I18n.browser) :
  supported code ->
  I18n.params_get (I18n.search w) "lang" = Some code ->
  I18n.resolveInitialLang w = code.
Proof.
  intros Hcode%supported_elem_of Hq. unfold I18n.resolveInitialLang. rewrite Hq.
  by rewrite includes_supported, (supported_truthy _ Hcode), bool_decide_eq_true_2.
Qed.

Lemma resolveInitialLang_storage (code : string) (w : I18n.browser) :
  supported code ->
  (forall q, I18n.params_get (I18n.search w) "lang" = Some q -> ~ supported q) ->
  I18n.getItem (I18n.localStorage w) I18n.STORAGE_KEY = Some code ->
  I18n.resolveInitialLang w = code.
Proof.
  intros Hcode%supported_elem_of Hq Hs. unfold I18n.resolveInitialLang. rewrite Hs.
  rewrite (includes_supported code), (supported_truthy _ Hcode), bool_decide_eq_true_2
    by done.
  destruct (I18n.params_get _ _) as [q|]; [|reflexivity].
  rewrite includes_supported, bool_decide_eq_false_2, andb_false_r; [reflexivity|].
  rewrite supported_elem_of. by apply Hq.
Qed.

(** X1: the CV page opened by an export resolves the export language, and
    either of the two mechanisms of the export alone is enough: the storage
    key written before the page loads (with no query), or the query
    parameter (with the storage untouched). *)
Theorem export_page_resolves_export_language (req : Server.request)
    (profile : gmap string string) (nav : option string) :
  I18n.resolveInitialLang (ExportSession.cv_page (Server.exportLang req) profile nav)
  = Server.exportLang req
  /\ I18n.resolveInitialLang
       {| I18n.search := [];
          I18n.localStorage := <["cv-lang" := Server.exportLang req]> profile;
          I18n.navigator_language := nav |}
     = Server.exportLang req
  /\ I18n.resolveInitialLang
       {| I18n.search := [("lang", Server.exportLang req)];
          I18n.localStorage := profile;
          I18n.navigator_language := nav |}
     = Server.exportLang req.
Proof.
  pose proof (exportLang_supported req) as Hs.
  split; [|split].
  - by apply resolveInitialLang_query.
  - apply resolveInitialLang_storage; [done|discriminate|].
    unfold I18n.getItem, I18n.STORAGE_KEY. cbn [I18n.localStorage].
    apply lookup_insert_eq.
  - by apply resolveInitialLang_query.
Qed.

(** X2: a language switch is remembered.  After [setLang] with a
    supported code (on the CV page or on a portfolio page), a later page
    load over the same storage whose query names no supported language
    resolves that code, whatever the browser language is. *)
Theorem setLang_then_reload (cv_data : Type)
    (renderAll : cv_data -> string -> document -> document)
    (topbar : string -> node) (header : string -> Portfolio.project -> node)
    (footer : node) (renderOverview : string -> Portfolio.data -> document -> document)
    (code : string) (cv : CV.state cv_data) (pf : Portfolio.state)
    (query : list (string * string)) (nav : option string) :
  supported code ->
  (forall q, I18n.params_get query "lang" = Some q -> ~ supported q) ->
  I18n.resolveInitialLang
    {| I18n.search := query;
       I18n.localStorage := CV.storage cv_data (CV.setLang cv_data renderAll (VStr code) cv);
       I18n.navigator_language := nav |} = code
  /\ I18n.resolveInitialLang
       {| I18n.search := query;
          I18n.localStorage :=
            Portfolio.storage
              (Portfolio.setLang topbar header footer renderOverview (VStr code) pf);
          I18n.navigator_language := nav |} = code.
Proof.
  intros Hcode Hq.
  assert (Hinc : includes I18n.SUPPORTED_LANGS (VStr code) = true).
  { rewrite includes_supported. by apply bool_decide_eq_true_2, supported_elem_of. }
  split; (apply resolveInitialLang_storage; [done|done|]).
  - unfold CV.setLang. rewrite Hinc. cbn [negb].
    destruct (CV.cvData cv_data cv); cbn; apply lookup_insert_eq.
  - unfold Portfolio.setLang. rewrite Hinc. cbn [negb].
    destruct (Portfolio.portfolioData pf); cbn; apply lookup_insert_eq.
Qed.

Lemma setLang_then_reload_witness :
  I18n.resolveInitialLang
    {| I18n.search := [("utm", "mail"); ("lang", "fr")];
       I18n.localStorage :=
         Portfolio.storage
           (Portfolio.setLang Sample.topbar Sample.header Sample.footer
              (fun _ _ d => d) (VStr "en")
              {| Portfolio.activeLang := "de"; Portfolio.portfolioData := None;
                 Portfolio.storage := <["cv-lang" := "de"]> ∅;
                 Portfolio.doc := Sample.page; Portfolio.dispatched := [] |});
       I18n.navigator_language := Some "de-DE" |} = "en".
Proof.
  apply (setLang_then_reload unit (fun _ _ d => d) Sample.topbar Sample.header
           Sample.footer (fun _ _ d => d) "en"
           {| CV.activeLang := "de"; CV.cvData := None; CV.storage := ∅;
              CV.doc := Sample.page; CV.dispatched := [] |}).
  - by right.
  - intros q [= <-] [H | H]; discriminate H.
Defined.

(** ** Re-rendering a case study *)

(** The whole document [renderDetail] leaves behind when the slug
    resolves and the mount node exists. *)
Lemma renderDetail_result topbar header footer (lang : string)
    (data : Portfolio.data) (slug_ : value) (d : document)
    (project : Portfolio.project) (container : node) :
  List.find (fun p => Portfolio.strict_eq_str (Portfolio.slug p) slug_)
            (default [] (Portfolio.projects data)) = Some project ->
  getElementById d "portfolio-detail" = Some container ->
  Portfolio.renderDetail topbar header footer lang data slug_ d
  = {| title := to_string (I18n.t (Portfolio.project_title project) lang)
                +:+ " — Mathis Thomsen";
       Dom.lang := Dom.lang d;
       elements :=
         <["portfolio-detail" :=
             detail_page (topbar lang) (header lang project) footer container
               (omap (fun b => content_block <$> Portfolio.renderBlock lang b)
                     (default [] (Portfolio.sections project))
                ++ (if truthy (Portfolio.confidential project)
                    then [content_block (Portfolio.renderDisclaimer lang)] else []))]>
         (elements d) |}.
Proof.
  intros Hfind Hmount.
  pose proof (renderDetail_installs topbar header footer lang data slug_ d
                project container Hfind Hmount) as Hpage.
  unfold Portfolio.renderDetail in *. rewrite Hfind, Hmount in *.
  unfold getElementById in Hpage. cbn [elements] in Hpage.
  rewrite lookup_insert_eq in Hpage. apply (inj Some) in Hpage.
  by rewrite Hpage.
Qed.

Lemma renderDetail_unchanged topbar header footer (lang : string)
    (data : Portfolio.data) (slug_ : value) (d : document) :
  List.find (fun p => Portfolio.strict_eq_str (Portfolio.slug p) slug_)
            (default [] (Portfolio.projects data)) = None
  \/ getElementById d "portfolio-detail" = None ->
  Portfolio.renderDetail topbar header footer lang data slug_ d = d.
Proof.
  unfold Portfolio.renderDetail. intros [-> | ->]; [reflexivity|].
  by destruct (List.find _ _).
Qed.

Lemma detail_page_over_detail_page (t1 h1 f1 t2 h2 f2 container : node)
    (blocks1 blocks2 : list node) :
  is_fragment container = false ->
  detail_page t2 h2 f2 (detail_page t1 h1 f1 container blocks1) blocks2
  = detail_page t2 h2 f2 container blocks2.
Proof.
  intros Hc. unfold detail_page.
  by destruct container; try discriminate Hc.
Qed.

(** X3: rendering a case study replaces what an earlier rendering left.
    Rendering under [lang2] a page already rendered under [lang1] gives
    the same document as rendering the original page under [lang2]; in
    particular rendering twice under one language equals rendering once. *)
Theorem renderDetail_rerender topbar header footer (lang1 lang2 : string)
    (data : Portfolio.data) (slug_ : value) (d : document) :
  (forall container, getElementById d "portfolio-detail" = Some container ->
                     is_fragment container = false) ->
  Portfolio.renderDetail topbar header footer lang2 data slug_
    (Portfolio.renderDetail topbar header footer lang1 data slug_ d)
  = Portfolio.renderDetail topbar header footer lang2 data slug_ d.
Proof.
  intros Hmount.
  destruct (List.find (fun p => Portfolio.strict_eq_str (Portfolio.slug p) slug_)
                      (default [] (Portfolio.projects data))) as [project|] eqn:Hfind;
    [|rewrite !renderDetail_unchanged by (left; exact Hfind); reflexivity].
  destruct (getElementById d "portfolio-detail") as [container|] eqn:Hget;
    [|rewrite (renderDetail_unchanged _ _ _ lang1) by (right; exact Hget);
      reflexivity].
  rewrite (renderDetail_result _ _ _ lang1 _ _ d project container Hfind Hget).
  erewrite (renderDetail_result _ _ _ lang2 _ _ _ project); [|exact Hfind|].
  2: { unfold getElementById. cbn [elements]. apply lookup_insert_eq. }
  rewrite (renderDetail_result _ _ _ lang2 _ _ d project container Hfind Hget).
  cbn [Dom.lang elements].
  rewrite insert_insert_eq, detail_page_over_detail_page by by apply Hmount.
  reflexivity.
Qed.

Lemma renderDetail_rerender_witness :
  Portfolio.renderDetail Sample.topbar Sample.header Sample.footer "en"
    {| Portfolio.projects :=
         Some [Sample.case_study (VBool true) [Sample.text_block "Kontext" "Context"]] |}
    (VStr "evidoxa")
    (Portfolio.renderDetail Sample.topbar Sample.header Sample.footer "de"
       {| Portfolio.projects :=
            Some [Sample.case_study (VBool true) [Sample.text_block "Kontext" "Context"]] |}
       (VStr "evidoxa") Sample.page)
  = Portfolio.renderDetail Sample.topbar Sample.header Sample.footer "en"
      {| Portfolio.projects :=
           Some [Sample.case_study (VBool true) [Sample.text_block "Kontext" "Context"]] |}
      (VStr "evidoxa") Sample.page.
Proof.
  apply renderDetail_rerender.
  intros container Hget. vm_compute in Hget. by injection Hget as <-.
Defined.

(** X4: [renderDetail] touches nothing but the page title and the mount
    node: the document language and every other element stay as they
    were, and with an unknown slug or without the mount node the whole
    document is returned unchanged. *)
Theorem renderDetail_frame topbar header footer (lang : string)
    (data : Portfolio.data) (slug_ : value) (d : document) :
  Dom.lang (Portfolio.renderDetail topbar header footer lang data slug_ d) = Dom.lang d
  /\ (forall id, id <> "portfolio-detail" ->
        getElementById (Portfolio.renderDetail topbar header footer lang data slug_ d) id
        = getElementById d id)
  /\ (List.find (fun p => Portfolio.strict_eq_str (Portfolio.slug p) slug_)
                (default [] (Portfolio.projects data)) = None
      \/ getElementById d "portfolio-detail" = None ->
      Portfolio.renderDetail topbar header footer lang data slug_ d = d).
Proof.
  destruct (List.find (fun p => Portfolio.strict_eq_str (Portfolio.slug p) slug_)
                      (default [] (Portfolio.projects data))) as [project|] eqn:Hfind.
  2: { rewrite renderDetail_unchanged by (left; exact Hfind). by repeat split. }
  destruct (getElementById d "portfolio-detail") as [container|] eqn:Hget.
  2: { rewrite renderDetail_unchanged by (right; exact Hget). by repeat split. }
  rewrite (renderDetail_result _ _ _ lang _ _ d project container Hfind Hget).
  split; [reflexivity|]. split.
  - intros id Hid. unfold getElementById. cbn [elements].
    by rewrite lookup_insert_ne.
  - intros [H | H]; discriminate H.
Qed.

Lemma renderDetail_frame_witness :
  getElementById
    (Portfolio.renderDetail Sample.topbar Sample.header Sample.footer "en"
       {| Portfolio.projects := Some [Sample.case_study VUndefined []] |}
       (VStr "evidoxa") Sample.page) "portfolio-overview"
  = getElementById Sample.page "portfolio-overview"
  /\ Portfolio.renderDetail Sample.topbar Sample.header Sample.footer "en"
       {| Portfolio.projects := Some [Sample.case_study VUndefined []] |}
       (VStr "unknown-slug") Sample.page = Sample.page.
Proof.
  pose proof (renderDetail_frame Sample.topbar Sample.header Sample.footer "en"
                {| Portfolio.projects := Some [Sample.case_study VUndefined []] |}
                (VStr "evidoxa") Sample.page) as Hknown.
  pose proof (renderDetail_frame Sample.topbar Sample.header Sample.footer "en"
                {| Portfolio.projects := Some [Sample.case_study VUndefined []] |}
                (VStr "unknown-slug") Sample.page) as Hunknown.
  split.
  - apply (proj1 (proj2 Hknown)). discriminate.
  - apply (proj2 (proj2 Hunknown)). left. reflexivity.
Defined.

(** ** Sets of strings and class lists *)

Lemma existsb_eqb_elem_of (x : string) (l : list string) :
  existsb (String.eqb x) l = bool_decide (x ∈ l).
Proof.
  induction l as [|y l IH]; cbn [existsb].
  - symmetry. apply bool_decide_eq_false_2. apply not_elem_of_nil.
  - rewrite IH. destruct (String.eqb_spec x y) as [->|Hxy]; cbn.
    + symmetry. apply bool_decide_eq_true_2. apply elem_of_cons. by left.
    + apply bool_decide_ext. rewrite elem_of_cons.
      split; [by right|]. by intros [? | ?].
Qed.

Lemma set_add_spec (acc : list string) (x y : string) :
  y ∈ set_add acc x <-> y ∈ acc \/ y = x.
Proof.
  unfold set_add. rewrite existsb_eqb_elem_of. case_bool_decide as Hx.
  - split; [by left|]. intros [H | ->]; done.
  - rewrite elem_of_app, list_elem_of_singleton. reflexivity.
Qed.

Lemma set_add_NoDup (acc : list string) (x : string) :
  NoDup acc -> NoDup (set_add acc x).
Proof.
  intros Hacc. unfold set_add. rewrite existsb_eqb_elem_of. case_bool_decide as Hx; [done|].
  apply NoDup_app. split; [done|]. split; [|apply NoDup_singleton].
  intros y Hy ->%list_elem_of_singleton. done.
Qed.

Lemma fold_set_add_spec (l acc : list string) :
  (NoDup acc -> NoDup (fold_left set_add l acc))
  /\ (forall y, y ∈ fold_left set_add l acc <-> y ∈ acc \/ y ∈ l).
Proof.
  revert acc. induction l as [|x l IH]; intros acc; cbn [fold_left].
  - split; [done|]. intros y. rewrite elem_of_nil. tauto.
  - destruct (IH (set_add acc x)) as [IHn IHm]. split.
    + intros Hacc. by apply IHn, set_add_NoDup.
    + intros y. rewrite IHm, set_add_spec, elem_of_cons. tauto.
Qed.

Lemma unique_spec (l : list string) :
  NoDup (unique l) /\ forall y, y ∈ unique l <-> y ∈ l.
Proof.
  unfold unique. destruct (fold_set_add_spec l []) as [Hn Hm]. split.
  - apply Hn, NoDup_nil_2.
  - intros y. rewrite Hm, elem_of_nil. tauto.
Qed.

(** ** The overview page *)

(** X5: the filter bar has one button for each distinct tag: its
    children are the buttons of a duplicate-free list of tags, a tag is in
    that list exactly when some project carries it, and every button
    starts unpressed. *)
Theorem buildFilterBar_buttons (lang : string) (projects : list Portfolio.project) :
  exists allTags,
    childNodes (PortfolioPage.buildFilterBar lang projects)
    = List.map (fun tag => setAttribute (el "button" "portfolio-filter__btn" (VStr tag))
                                        "aria-pressed" "false") allTags
    /\ NoDup allTags
    /\ (forall tag, tag ∈ allTags <->
          exists p, p ∈ projects /\ tag ∈ default [] (Portfolio.tags p))
    /\ Forall (fun btn => getAttribute btn "aria-pressed" = Some "false")
              (childNodes (PortfolioPage.buildFilterBar lang projects)).
Proof.
  exists (unique (flat_map (fun p => default [] (Portfolio.tags p)) projects)).
  destruct (unique_spec (flat_map (fun p => default [] (Portfolio.tags p)) projects))
    as [Hn Hm].
  assert (Hch : childNodes (PortfolioPage.buildFilterBar lang projects)
    = List.map (fun tag => setAttribute (el "button" "portfolio-filter__btn" (VStr tag))
                                        "aria-pressed" "false")
        (unique (flat_map (fun p => default [] (Portfolio.tags p)) projects))).
  { unfold PortfolioPage.buildFilterBar. cbn [el truthy setAttribute set_assoc].
    cbn. rewrite append_each_element; [reflexivity|].
    intros tag. reflexivity. }
  split; [exact Hch|]. split; [exact Hn|]. split.
  - intros tag. rewrite Hm, list_elem_of_In, in_flat_map.
    by setoid_rewrite <- list_elem_of_In.
  - rewrite Hch. apply Forall_forall. intros btn (tag & -> & _)%list_elem_of_fmap_1.
    by rewrite el_shape.
Qed.

Lemma buildFilterBar_buttons_witness :
  exists allTags,
    childNodes (PortfolioPage.buildFilterBar "en"
                  (default [] (Portfolio.projects SampleSite.portfolio)))
    = List.map (fun tag => setAttribute (el "button" "portfolio-filter__btn" (VStr tag))
                                        "aria-pressed" "false") allTags
    /\ NoDup allTags
    /\ "IA" ∈ allTags.
Proof.
  destruct (buildFilterBar_buttons "en"
              (default [] (Portfolio.projects SampleSite.portfolio)))
    as (allTags & Hch & Hn & Hm & _).
  exists allTags. split; [exact Hch|]. split; [exact Hn|].
  apply Hm. exists (SampleSite.card "atlas" ["IA"; "Design Systems"] VUndefined VUndefined).
  split; [right; left|left].
Defined.

(** Evaluates the closed class strings of a normalised tree. *)
Ltac class_norm :=
  repeat match goal with
         | |- context [join " " ?l] =>
             let c := eval vm_compute in (join " " l) in
             change (join " " l) with c
         end.

Lemma has_class_Element (c tag cls : string) attrs ch :
  has_class c (Element tag cls attrs ch) = existsb (String.eqb c) (tokens cls).
Proof. reflexivity. Qed.

#[local] Arguments has_class : simpl never.

(** Decides class membership for closed class strings. *)
Ltac has_class_norm :=
  rewrite ?has_class_el, ?has_class_Element;
  repeat match goal with
         | |- context [existsb (String.eqb ?c) (tokens ?cls)] =>
             let b := eval vm_compute in (existsb (String.eqb c) (tokens cls)) in
             change (existsb (String.eqb c) (tokens cls)) with b
         end.

(** As [dom_norm], also using what the context knows about fragments. *)
Ltac dom_norm_with :=
  repeat (cbn;
          rewrite ?appendChild_single
            by (first [apply el_not_fragment | reflexivity | assumption])).

(** *** Children by class *)

Lemma children_with_app (c : string) (a b : list node) :
  children_with c (a ++ b) = children_with c a ++ children_with c b.
Proof. apply flat_map_app. Qed.

Lemma children_with_map {A} (c : string) (f g : A -> node) (l : list A) :
  (forall x, children_with c [f x] = [g x]) ->
  children_with c (List.map f l) = List.map g l.
Proof.
  intros Hf. induction l as [|x l IH]; [reflexivity|].
  change (List.map f (x :: l)) with ([f x] ++ List.map f l).
  by rewrite children_with_app, Hf, IH.
Qed.

Lemma filter_map_all {A} (q : node -> bool) (f : A -> node) (l : list A) :
  (forall x, q (f x) = true) -> List.filter q (List.map f l) = List.map f l.
Proof.
  intros Hf. induction l as [|x l IH]; [reflexivity|].
  cbn [List.map List.filter]. by rewrite Hf, IH.
Qed.

Lemma filter_map_none {A} (q : node -> bool) (f : A -> node) (l : list A) :
  (forall x, q (f x) = false) -> List.filter q (List.map f l) = [].
Proof.
  intros Hf. induction l as [|x l IH]; [reflexivity|].
  cbn [List.map List.filter]. by rewrite Hf, IH.
Qed.

Lemma children_with_cons (c : string) (n : node) (l : list node) :
  children_with c (n :: l) = List.filter (has_class c) (childNodes n) ++ children_with c l.
Proof. reflexivity. Qed.

Lemma children_with_nil (c : string) : children_with c [] = [].
Proof. reflexivity. Qed.

#[local] Arguments children_with : simpl never.

(** Decides the class filters of a normalised tree. *)
Ltac children_norm :=
  repeat (rewrite ?children_with_cons, ?children_with_nil;
          cbn [childNodes List.filter app];
          has_class_norm; cbn match).

(** X6: a project card links to [/portfolio/<slug>/] and carries one
    modifier class for each flag that is set.  Its meta line, the child of
    class [portfolio-card__meta], holds at most one status badge among its
    children: the in-progress badge whenever [wip] is set (also when the
    project is confidential), the confidential badge when only
    [confidential] is set, none otherwise. *)
Theorem buildProjectCard_status (lang : string) (p : Portfolio.project) :
  let card := PortfolioPage.buildProjectCard lang p in
  let badges := children_with "portfolio-card__type"
                  (children_with "portfolio-card__meta" [card]) in
  getAttribute card "href" = Some ("/portfolio/" +:+ Portfolio.slug p +:+ "/")
  /\ has_class "portfolio-card--wip" card = truthy (Portfolio.wip p)
  /\ has_class "portfolio-card--confidential" card = truthy (Portfolio.confidential p)
  /\ (truthy (Portfolio.wip p) = true ->
        badges = [el "span" "portfolio-card__type portfolio-card__type--wip"
                     (VStr (if String.eqb lang "de" then "In Arbeit" else "In Progress"))])
  /\ (truthy (Portfolio.wip p) = false -> truthy (Portfolio.confidential p) = true ->
        badges = [el "span" "portfolio-card__type"
                     (VStr (if String.eqb lang "de" then "Vertraulich" else "Confidential"))])
  /\ (truthy (Portfolio.wip p) = false -> truthy (Portfolio.confidential p) = false ->
        badges = []).
Proof.
  intros card badges. subst badges card. unfold PortfolioPage.buildProjectCard.
  change (el "ul" "portfolio-card__tags" VUndefined)
    with (Element "ul" "portfolio-card__tags" [] []).
  assert (Hul : forall tags,
            exists items,
              Portfolio.append_each
                (fun tag => el "li" "portfolio-card__tag" (VStr tag)) tags
                (Element "ul" "portfolio-card__tags" [] [])
              = Element "ul" "portfolio-card__tags" [] items).
  { intros tags. eexists. by rewrite append_each_element by (intros; apply el_not_fragment). }
  generalize (I18n.t (Portfolio.project_title p) lang) as title.
  generalize (I18n.t (Portfolio.teaser p) lang) as teaser.
  intros teaser title.
  destruct (Portfolio.tags p) as [[|tag more]|].
  2: destruct (Hul (tag :: more)) as [items ->].
  all: destruct (truthy (Portfolio.wip p)), (truthy (Portfolio.confidential p));
         destruct (String.eqb lang "de"); dom_norm; class_norm.
  all: split; [reflexivity|].
  all: split; [by has_class_norm|].
  all: split; [by has_class_norm|].
  all: (split; [|split]); intros; try discriminate.
  all: children_norm; reflexivity.
Qed.

Lemma buildProjectCard_status_witness :
  children_with "portfolio-card__type"
    (children_with "portfolio-card__meta"
       [PortfolioPage.buildProjectCard "de"
          (SampleSite.card "evidoxa" ["UX Research"; "IA"] (VBool true) (VBool true))])
  = [el "span" "portfolio-card__type portfolio-card__type--wip" (VStr "In Arbeit")].
Proof.
  pose proof (buildProjectCard_status "de"
                (SampleSite.card "evidoxa" ["UX Research"; "IA"] (VBool true) (VBool true)))
    as Hcard.
  cbv zeta in Hcard. destruct Hcard as (_ & _ & _ & Hwip & _).
  apply Hwip. reflexivity.
Defined.

Lemma is_fragment_appendChild (parent child : node) :
  is_fragment (appendChild parent child) = is_fragment parent.
Proof. by destruct parent. Qed.

Lemma is_fragment_setAttribute (n : node) (k v : string) :
  is_fragment (setAttribute n k v) = is_fragment n.
Proof. by destruct n. Qed.

Lemma is_fragment_classList_add (n : node) (c : string) :
  is_fragment (classList_add n c) = is_fragment n.
Proof. by destruct n. Qed.

Lemma buildProjectCard_not_fragment (lang : string) (p : Portfolio.project) :
  is_fragment (PortfolioPage.buildProjectCard lang p) = false.
Proof.
  unfold PortfolioPage.buildProjectCard.
  rewrite is_fragment_appendChild.
  destruct (Portfolio.tags p) as [[|tag more]|];
    rewrite !is_fragment_appendChild, is_fragment_setAttribute;
    destruct (truthy (Portfolio.wip p)), (truthy (Portfolio.confidential p));
    rewrite ?is_fragment_classList_add, is_fragment_setAttribute;
    apply el_not_fragment.
Qed.

Lemma buildFilterBar_not_fragment (lang : string) (projects : list Portfolio.project) :
  is_fragment (PortfolioPage.buildFilterBar lang projects) = false.
Proof.
  unfold PortfolioPage.buildFilterBar. cbn.
  by rewrite append_each_element by (intros tag; reflexivity).
Qed.

(** The registry [renderOverview] leaves behind. *)
Lemma renderOverview_result (lang : string) (data : Portfolio.data) (d : document)
    tag cls attrs old :
  getElementById d "portfolio-overview" = Some (Element tag cls attrs old) ->
  PortfolioPage.renderOverview lang data d
  = {| title := title d; Dom.lang := Dom.lang d;
       elements :=
         <["portfolio-overview" :=
             Element tag cls attrs
               ((if (4 <? List.length (default [] (Portfolio.projects data)))%nat
                 then [PortfolioPage.buildFilterBar lang
                         (default [] (Portfolio.projects data))]
                 else [])
                ++ [Element "div" "portfolio-grid" []
                      [Element "div" "portfolio-grid__list" []
                         (List.map (PortfolioPage.buildProjectCard lang)
                                   (default [] (Portfolio.projects data)))]])]>
         (match elements d !! "portfolio-header-sub" with
          | Some sub =>
              <["portfolio-header-sub" :=
                  set_textContent sub
                    (if String.eqb lang "de"
                     then "Ausgewählte Projekte aus UX Research, Information Architecture und Interaction Design."
                     else "Selected projects in UX research, information architecture and interaction design.")]>
                (elements d)
          | None => elements d
          end) |}.
Proof.
  intros Hget. unfold PortfolioPage.renderOverview. rewrite Hget.
  f_equal.
  change (el "div" "portfolio-grid__list" VUndefined)
    with (Element "div" "portfolio-grid__list" [] []).
  rewrite append_each_element by apply buildProjectCard_not_fragment.
  rewrite lookup_insert_ne by done.
  set (c0 := set_innerHTML _ _).
  assert (Hfinal : forall e : gmap string node, forall c1,
            <["portfolio-overview" := c1]>
              (match e !! "portfolio-header-sub" with
               | Some sub => <["portfolio-header-sub" := set_textContent sub
                    (if String.eqb lang "de"
                     then "Ausgewählte Projekte aus UX Research, Information Architecture und Interaction Design."
                     else "Selected projects in UX research, information architecture and interaction design.")]>
                               (<["portfolio-overview" := c0]> e)
               | None => <["portfolio-overview" := c0]> e
               end)
            = <["portfolio-overview" := c1]>
                (match e !! "portfolio-header-sub" with
                 | Some sub => <["portfolio-header-sub" := set_textContent sub
                    (if String.eqb lang "de"
                     then "Ausgewählte Projekte aus UX Research, Information Architecture und Interaction Design."
                     else "Selected projects in UX research, information architecture and interaction design.")]> e
                 | None => e
                 end)).
  { intros e c1. destruct (e !! "portfolio-header-sub") as [sub|].
    - rewrite (insert_insert_ne _ "portfolio-header-sub" "portfolio-overview") by done.
      by rewrite insert_insert_eq.
    - by rewrite insert_insert_eq. }
  rewrite Hfinal. f_equal.
  subst c0. pose proof (buildFilterBar_not_fragment lang (default [] (Portfolio.projects data))).
  destruct (4 <? _)%nat; dom_norm_with; reflexivity.
Qed.

(** X7: the overview mount is rebuilt as an optional filter bar followed
    by the grid holding one card per project, in source order; the filter
    bar is there exactly when there are more than four projects. *)
Theorem renderOverview_cards (lang : string) (data : Portfolio.data) (d : document)
    tag cls attrs old :
  getElementById d "portfolio-overview" = Some (Element tag cls attrs old) ->
  exists bar,
    getElementById (PortfolioPage.renderOverview lang data d) "portfolio-overview"
    = Some (Element tag cls attrs
              (bar ++ [Element "div" "portfolio-grid" []
                         [Element "div" "portfolio-grid__list" []
                            (List.map (PortfolioPage.buildProjectCard lang)
                                      (default [] (Portfolio.projects data)))]]))
    /\ (List.length (default [] (Portfolio.projects data)) <= 4 -> bar = [])
    /\ (4 < List.length (default [] (Portfolio.projects data)) ->
        bar = [PortfolioPage.buildFilterBar lang (default [] (Portfolio.projects data))]).
Proof.
  intros Hget. eexists. split.
  - rewrite (renderOverview_result _ _ _ _ _ _ _ Hget).
    unfold getElementById. cbn [elements]. apply lookup_insert_eq.
  - split; intros Hlen.
    + by rewrite (proj2 (Nat.ltb_ge _ _)).
    + by rewrite (proj2 (Nat.ltb_lt _ _)).
Qed.

Lemma renderOverview_cards_witness :
  exists bar,
    getElementById (PortfolioPage.renderOverview "en" SampleSite.portfolio SampleSite.overview)
      "portfolio-overview"
    = Some (Element "main" "portfolio-main" [("id", "portfolio-overview")]
              (bar ++ [Element "div" "portfolio-grid" []
                         [Element "div" "portfolio-grid__list" []
                            (List.map (PortfolioPage.buildProjectCard "en")
                                      (default [] (Portfolio.projects SampleSite.portfolio)))]]))
    /\ bar = [].
Proof.
  destruct (renderOverview_cards "en" SampleSite.portfolio SampleSite.overview
              "main" "portfolio-main" [("id", "portfolio-overview")] [] eq_refl)
    as (bar & Hmount & Hfew & _).
  exists bar. split; [exact Hmount|]. apply Hfew. cbn. lia.
Defined.

Lemma set_textContent_twice (n : node) (s1 s2 : string) :
  set_textContent (set_textContent n s1) s2 = set_textContent n s2.
Proof. by destruct n. Qed.

(** X8: rendering the overview replaces what an earlier rendering left,
    whatever language and data that one used: the result is the document
    a single rendering gives. *)
Theorem renderOverview_rerender (lang1 lang2 : string) (data1 data2 : Portfolio.data)
    (d : document) :
  (forall mount, getElementById d "portfolio-overview" = Some mount ->
                 exists tag cls attrs ch, mount = Element tag cls attrs ch) ->
  PortfolioPage.renderOverview lang2 data2 (PortfolioPage.renderOverview lang1 data1 d)
  = PortfolioPage.renderOverview lang2 data2 d.
Proof.
  intros Hmount.
  destruct (getElementById d "portfolio-overview") as [mount|] eqn:Hget.
  2: { unfold PortfolioPage.renderOverview. by rewrite !Hget. }
  destruct (Hmount mount eq_refl) as (tag & cls & attrs & ch & ->).
  rewrite (renderOverview_result lang1 data1 d _ _ _ _ Hget).
  erewrite (renderOverview_result lang2 data2 _ tag cls attrs).
  2: { unfold getElementById. cbn [elements]. apply lookup_insert_eq. }
  rewrite (renderOverview_result lang2 data2 d _ _ _ _ Hget).
  cbn [title Dom.lang elements]. f_equal.
  rewrite lookup_insert_ne by done.
  destruct (elements d !! "portfolio-header-sub") as [sub|] eqn:Hsub.
  - rewrite lookup_insert_eq, set_textContent_twice.
    apply map_eq. intros id.
    destruct (decide ("portfolio-overview" = id)) as [<-|Hpo];
      [by rewrite !lookup_insert_eq|].
    rewrite !(lookup_insert_ne _ "portfolio-overview" id) by exact Hpo.
    destruct (decide ("portfolio-header-sub" = id)) as [<-|Hsb];
      [by rewrite !lookup_insert_eq|].
    repeat first [rewrite (lookup_insert_ne _ "portfolio-overview" id) by exact Hpo
                 |rewrite (lookup_insert_ne _ "portfolio-header-sub" id) by exact Hsb].
    reflexivity.
  - rewrite Hsub. by rewrite insert_insert_eq.
Qed.

Lemma renderOverview_rerender_witness :
  PortfolioPage.renderOverview "en" SampleSite.portfolio
    (PortfolioPage.renderOverview "de" SampleSite.portfolio SampleSite.overview)
  = PortfolioPage.renderOverview "en" SampleSite.portfolio SampleSite.overview.
Proof.
  apply renderOverview_rerender.
  intros mount Hget. vm_compute in Hget. injection Hget as <-. by eexists _, _, _, _.
Defined.

(** ** The language toggle of the portfolio pages *)

Lemma renderOverview_other (lang : string) (data : Portfolio.data) (d : document)
    (id : string) :
  id <> "portfolio-overview" -> id <> "portfolio-header-sub" ->
  getElementById (PortfolioPage.renderOverview lang data d) id = getElementById d id.
Proof.
  intros Hpo Hsub. unfold PortfolioPage.renderOverview, getElementById.
  destruct (elements d !! "portfolio-overview") as [mount|]; [|reflexivity].
  cbn [elements]. rewrite lookup_insert_ne by done.
  rewrite (lookup_insert_ne _ "portfolio-overview" "portfolio-header-sub") by done.
  destruct (elements d !! "portfolio-header-sub") as [sub|];
    by rewrite ?lookup_insert_ne by done.
Qed.

(** X9: the toggle shows the two languages in the order DE, EN, and
    exactly the button of the active language is pressed (none when the
    active language is neither). *)
Theorem buildLangToggle_pressed (activeLang : string) :
  let buttons := select (has_class "portfolio-topbar__lang-btn")
                        (PortfolioPage.buildLangToggle activeLang) in
  List.map textContent buttons = ["DE"; "EN"]
  /\ List.map (fun b => getAttribute b "data-lang") buttons = [Some "de"; Some "en"]
  /\ forall b code, b ∈ buttons -> getAttribute b "data-lang" = Some code ->
       (getAttribute b "aria-pressed" = Some "true" <-> code = activeLang).
Proof.
  cbv zeta. unfold PortfolioPage.buildLangToggle. cbn [fold_left I18n.SUPPORTED_LANGS fst].
  destruct (String.eqb_spec "de" activeLang) as [<-|Hde];
    [|destruct (String.eqb_spec "en" activeLang) as [<-|Hen]];
    dom_norm; (split; [reflexivity|]); (split; [reflexivity|]);
    intros b code Hb; cbn [select flat_map app] in Hb; has_class_norm;
    repeat rewrite has_class_Element in Hb; cbn in Hb;
    apply elem_of_cons in Hb as [-> | Hb];
    try (apply list_elem_of_singleton in Hb as ->);
    cbn; intros [= <-]; split; congruence.
Qed.

Lemma buildLangToggle_pressed_witness :
  getAttribute
    (Element "button" "portfolio-topbar__lang-btn"
       [("data-lang", "en"); ("aria-pressed", "true"); ("aria-label", "Switch to English")]
       [Text "EN"]) "aria-pressed" = Some "true"
  <-> "en" = "en".
Proof.
  pose proof (buildLangToggle_pressed "en") as Htoggle. cbv zeta in Htoggle.
  destruct Htoggle as (_ & _ & Hpressed).
  apply Hpressed; [|reflexivity].
  vm_compute. right. left.
Defined.

Lemma renderDetail_other topbar header footer (lang : string)
    (data : Portfolio.data) (slug_ : value) (d : document) (id : string) :
  id <> "portfolio-detail" ->
  getElementById (Portfolio.renderDetail topbar header footer lang data slug_ d) id
  = getElementById d id.
Proof.
  intros Hid. unfold Portfolio.renderDetail, getElementById.
  destruct (List.find _ _) as [project|]; [|reflexivity].
  destruct (elements d !! "portfolio-detail") as [container|]; [|reflexivity].
  cbn [elements]. by rewrite lookup_insert_ne.
Qed.

(** X10: a language switch on a portfolio page updates a topbar that
    stays in the document in place.  Afterwards its language buttons are
    exactly those of a topbar built afresh in the new language, while the
    [aria-label] of the navigation keeps the language the topbar was
    built in. *)
Theorem setLang_static_topbar topbar header footer (code built : string)
    (st : Portfolio.state) (key : string) :
  supported code ->
  key <> "portfolio-overview" -> key <> "portfolio-detail" ->
  key <> "portfolio-header-sub" ->
  getElementById (Portfolio.doc st) key = Some (PortfolioPage.buildOverviewTopbar built) ->
  exists nav,
    getElementById
      (Portfolio.doc (Portfolio.setLang topbar header footer PortfolioPage.renderOverview
                        (VStr code) st)) key = Some nav
    /\ select (has_class "portfolio-topbar__lang-btn") nav
       = select (has_class "portfolio-topbar__lang-btn")
                (PortfolioPage.buildOverviewTopbar code)
    /\ getAttribute nav "aria-label"
       = getAttribute (PortfolioPage.buildOverviewTopbar built) "aria-label".
Proof.
  intros Hcode Hpo Hpd Hsub Hkey.
  assert (Hinc : includes I18n.SUPPORTED_LANGS (VStr code) = true).
  { rewrite includes_supported. by apply bool_decide_eq_true_2, supported_elem_of. }
  unfold Portfolio.setLang. rewrite Hinc. cbn [negb to_string].
  set (press := update_where _ _).
  assert (Hupd : forall d', getElementById d' key
                   = press <$> getElementById (Portfolio.doc st) key ->
          exists nav, getElementById d' key = Some nav
            /\ select (has_class "portfolio-topbar__lang-btn") nav
               = select (has_class "portfolio-topbar__lang-btn")
                        (PortfolioPage.buildOverviewTopbar code)
            /\ getAttribute nav "aria-label"
               = getAttribute (PortfolioPage.buildOverviewTopbar built) "aria-label").
  { intros d' ->. rewrite Hkey. eexists. split; [reflexivity|].
    subst press. clear -Hcode. destruct Hcode as [-> | ->]; split; vm_compute; reflexivity. }
  assert (Hd1 : forall d1,
            d1 = {| title := title (Portfolio.doc st); Dom.lang := code;
                    elements := press <$> elements (Portfolio.doc st) |} ->
            getElementById d1 key = press <$> getElementById (Portfolio.doc st) key).
  { intros d1 ->. unfold getElementById. cbn [elements]. apply lookup_fmap. }
  destruct (Portfolio.portfolioData st) as [pdata|]; cbn [Portfolio.doc];
    apply Hupd; [|by apply Hd1].
  rewrite <- (Hd1 _ eq_refl).
  set (d1 := {| title := _; Dom.lang := _; elements := _ |}).
  destruct (getElementById d1 "portfolio-detail") as [detail|];
    rewrite ?renderDetail_other by done;
    destruct (getElementById d1 "portfolio-overview");
    by rewrite ?renderOverview_other by done.
Qed.

Lemma setLang_static_topbar_witness :
  exists nav,
    getElementById
      (Portfolio.doc (Portfolio.setLang Sample.topbar Sample.header Sample.footer
                        PortfolioPage.renderOverview (VStr "en") SampleSite.overview_state))
      "portfolio-topbar" = Some nav
    /\ select (has_class "portfolio-topbar__lang-btn") nav
       = select (has_class "portfolio-topbar__lang-btn")
                (PortfolioPage.buildOverviewTopbar "en")
    /\ getAttribute nav "aria-label"
       = getAttribute (PortfolioPage.buildOverviewTopbar "de") "aria-label".
Proof.
  apply (setLang_static_topbar Sample.topbar Sample.header Sample.footer "en" "de"
           SampleSite.overview_state "portfolio-topbar").
  - by right.
  - discriminate.
  - discriminate.
  - discriminate.
  - reflexivity.
Defined.

(** ** Splitting and joining *)

Lemma split_app_sep (sep : ascii) (a rest : string) :
  free_of sep a -> split sep (a +:+ String sep rest) = a :: split sep rest.
Proof.
  unfold free_of. induction a as [|c a IH]; intros Ha.
  - change ("" +:+ String sep rest) with (String sep rest). cbn [split].
    by rewrite Ascii.eqb_refl.
  - cbn in Ha. apply andb_prop in Ha as [Hc Ha]. apply negb_true_iff in Hc.
    change (String c a +:+ String sep rest) with (String c (a +:+ String sep rest)).
    cbn [split]. by rewrite Hc, (IH Ha).
Qed.

Lemma split_join (sep : ascii) (l : list string) :
  l <> [] -> Forall (free_of sep) l -> split sep (join (String sep "") l) = l.
Proof.
  intros Hne Hl. induction Hl as [|x l Hx Hl IH]; [done|].
  destruct l as [|y l].
  - cbn. by apply split_without_separator.
  - change (join (String sep "") (x :: y :: l))
      with (x +:+ String sep "" +:+ join (String sep "") (y :: l)).
    change (String sep "" +:+ join (String sep "") (y :: l))
      with (String sep (join (String sep "") (y :: l))).
    rewrite split_app_sep by done. by rewrite IH.
Qed.

(** *** Tokens *)

Lemma split_by_free (p : ascii -> bool) (s : string) :
  forallb (fun a => negb (p a)) (list_ascii_of_string s) = true ->
  split_by p s = [s].
Proof.
  induction s as [|c r IH]; cbn; [reflexivity|].
  intros [Hc Hr]%andb_prop. apply negb_true_iff in Hc. by rewrite Hc, (IH Hr).
Qed.

Lemma split_by_app_sep (p : ascii -> bool) (sep : ascii) (a rest : string) :
  forallb (fun c => negb (p c)) (list_ascii_of_string a) = true -> p sep = true ->
  split_by p (a +:+ String sep rest) = a :: split_by p rest.
Proof.
  intros Ha Hsep. induction a as [|c a IH].
  - change ("" +:+ String sep rest) with (String sep rest). cbn [split_by].
    by rewrite Hsep.
  - cbn in Ha. apply andb_prop in Ha as [Hc Ha]. apply negb_true_iff in Hc.
    change (String c a +:+ String sep rest) with (String c (a +:+ String sep rest)).
    cbn [split_by]. by rewrite Hc, (IH Ha).
Qed.

Lemma split_by_parts (p : ascii -> bool) (s : string) :
  Forall (fun t => forallb (fun c => negb (p c)) (list_ascii_of_string t) = true)
         (split_by p s).
Proof.
  induction s as [|c s IH]; cbn [split_by].
  - by repeat constructor.
  - destruct (p c) eqn:Hc.
    + constructor; [reflexivity|exact IH].
    + destruct (split_by p s) as [|h tl];
        [constructor; [cbn; by rewrite Hc|constructor]|].
      inversion IH as [|? ? Hh Htl]; subst. constructor; [|exact Htl].
      cbn. by rewrite Hc, Hh.
Qed.

Lemma tokens_are_tokens (s : string) : Forall is_token (tokens s).
Proof.
  apply Forall_forall. intros tok Htok. unfold tokens in Htok.
  apply list_elem_of_In, filter_In in Htok as [Htok Hne]. split.
  - by apply negb_true_iff, String.eqb_neq in Hne.
  - apply list_elem_of_In in Htok.
    by apply (proj1 (Forall_forall _ _) (split_by_parts is_ascii_whitespace s)).
Qed.

Lemma tokens_join (l : list string) : Forall is_token l -> tokens (join " " l) = l.
Proof.
  unfold tokens. induction 1 as [|x l [Hx Hfree] Hl IH]; [reflexivity|].
  destruct l as [|y l].
  - cbn [join]. rewrite split_by_free by exact Hfree. cbn.
    apply String.eqb_neq in Hx. by rewrite Hx.
  - change (join " " (x :: y :: l)) with (x +:+ " " +:+ join " " (y :: l)).
    change (" " +:+ join " " (y :: l)) with (String " " (join " " (y :: l))).
    rewrite split_by_app_sep by done. cbn [List.filter].
    apply String.eqb_neq in Hx. rewrite Hx. cbn [negb]. by rewrite IH.
Qed.

Lemma class_tokens_are_tokens (cls : string) : Forall is_token (class_tokens cls).
Proof.
  apply Forall_forall. intros tok Htok. unfold class_tokens in Htok.
  apply (proj1 (proj2 (unique_spec _) tok)) in Htok.
  by apply (proj1 (Forall_forall _ _) (tokens_are_tokens cls)).
Qed.

Lemma has_class_classList_add (c : string) (n : node) :
  is_token c -> is_fragment n = false ->
  (exists tag cls attrs ch, n = Element tag cls attrs ch) ->
  has_class c (classList_add n c) = true.
Proof.
  intros Hc _ (tag & cls & attrs & ch & ->). unfold classList_add.
  rewrite has_class_Element, tokens_join.
  - rewrite existsb_eqb_elem_of. apply bool_decide_eq_true_2, set_add_spec. by right.
  - apply Forall_forall. intros tok [Htok | ->]%set_add_spec; [|done].
    by apply (proj1 (Forall_forall _ _) (class_tokens_are_tokens cls)).
Qed.

(** ** Induction over a tree *)

Lemma node_tree_ind (P : node -> Prop)
    (HE : forall tag cls attrs ch, Forall P ch -> P (Element tag cls attrs ch))
    (HT : forall s, P (Text s)) (HM : forall s, P (Markup s)) (HS : forall s, P (Svg s))
    (HF : forall ch, Forall P ch -> P (Fragment ch)) :
  forall n, P n.
Proof.
  fix IH 1. intros [tag cls attrs ch|s|s|s|ch].
  - apply HE. revert ch. fix IHl 1. intros [|c ch]; constructor; [apply IH|apply IHl].
  - apply HT.
  - apply HM.
  - apply HS.
  - apply HF. revert ch. fix IHl 1. intros [|c ch]; constructor; [apply IH|apply IHl].
Qed.

Lemma Forall_flat_map_each {A B} (Q : B -> Prop) (f : A -> list B) (l : list A) :
  Forall (fun x => Forall Q (f x)) l -> Forall Q (flat_map f l).
Proof.
  induction 1 as [|x l Hx _ IH]; cbn; [constructor|]. by apply Forall_app.
Qed.

(** Every element tagged [data-reveal] is visible after the reveal pass. *)
Lemma reveal_pass (root : node) :
  Forall (fun n => has_class "is-visible" n = true)
         (select (has_attribute "data-reveal")
                 (update_where (has_attribute "data-reveal") Animations.reveal root)).
Proof.
  induction root as [tag cls attrs ch IH|s|s|s|ch IH] using node_tree_ind;
    try (cbn; by repeat constructor).
  - cbn [update_where].
    assert (Hkids : Forall (fun n => has_class "is-visible" n = true)
              (flat_map (select (has_attribute "data-reveal"))
                 (List.map (update_where (has_attribute "data-reveal") Animations.reveal) ch))).
    { apply Forall_flat_map_each, Forall_forall. intros n (c & -> & Hc)%list_elem_of_fmap_1.
      by apply (proj1 (Forall_forall _ _) IH). }
    destruct (has_attribute "data-reveal" (Element tag cls attrs ch)) eqn:Hp.
    + unfold Animations.reveal, classList_add. cbn [select].
      apply Forall_app. split; [|exact Hkids].
      destruct (has_attribute _ _); repeat constructor.
      apply (has_class_classList_add "is-visible" (Element tag cls attrs _));
        [by split|reflexivity|by eexists _, _, _, _].
    + cbn [select]. change (has_attribute "data-reveal" (Element tag cls attrs _))
        with (has_attribute "data-reveal" (Element tag cls attrs ch)).
      rewrite Hp. exact Hkids.
  - cbn [update_where select]. cbn. apply Forall_flat_map_each, Forall_forall.
    intros n (c & -> & Hc)%list_elem_of_fmap_1.
    by apply (proj1 (Forall_forall _ _) IH).
Qed.

(** ** Revealing *)

(** X11: without motion [initScrollReveal] leaves no element tagged
    [data-reveal] hidden, and neither does the script the export evaluates
    before the capture; with motion [initScrollReveal] changes nothing at
    the time of the call. *)
Theorem reveal_leaves_nothing_hidden (d : document) (id : string) (root : node) :
  (getElementById (Animations.initScrollReveal false d) id = Some root ->
   Forall (fun n => has_class "is-visible" n = true)
          (select (has_attribute "data-reveal") root))
  /\ (getElementById (Animations.force_final_state d) id = Some root ->
      Forall (fun n => has_class "is-visible" n = true)
             (select (has_attribute "data-reveal") root))
  /\ Animations.initScrollReveal true d = d.
Proof.
  unfold getElementById, Animations.initScrollReveal, Animations.force_final_state.
  cbn [elements]. rewrite !lookup_fmap.
  split; [|split; [|reflexivity]];
    destruct (elements d !! id) as [old|]; cbn; intros [= <-]; apply reveal_pass.
Qed.

Lemma reveal_leaves_nothing_hidden_witness :
  Forall (fun n => has_class "is-visible" n = true)
         (select (has_attribute "data-reveal")
            (update_where (has_attribute "data-reveal") Animations.reveal
               SampleSite.hidden_section)).
Proof.
  apply (proj1 (reveal_leaves_nothing_hidden SampleSite.cv_page "cv-profile" _)).
  reflexivity.
Defined.

(** ** Bars *)

Lemma pretty_N_go_length (x : N) (s : string) :
  String.length s <= String.length (pretty_N_go x s).
Proof.
  revert s. induction (N.lt_wf_0 x) as [x _ IH]; intros s.
  assert (x = 0 \/ 0 < x)%N as [->|Hx] by lia.
  - by rewrite pretty_N_go_0.
  - rewrite pretty_N_go_step by done.
    etrans; [|apply IH; by apply N.div_lt]. cbn. lia.
Qed.

Lemma pretty_Z_nonempty (z : Z) : String.eqb (pretty z) "" = false.
Proof.
  apply String.eqb_neq. destruct z as [|p|p]; [done| |done].
  unfold pretty, pretty_Z, pretty, pretty_positive, pretty, pretty_N.
  rewrite decide_False by done. rewrite pretty_N_go_step by done.
  intros Hnil. pose proof (pretty_N_go_length (N.pos p `div` 10)
                 (String (pretty_N_char (N.pos p `mod` 10)) "")) as Hlen.
  rewrite Hnil in Hlen. cbn in Hlen. lia.
Qed.

Lemma BAR_Element (tag cls : string) attrs ch :
  Animations.BAR_SELECTOR (Element tag cls attrs ch)
  = existsb (String.eqb "cv-skill__bar-fill") (tokens cls)
    || existsb (String.eqb "cv-lang__bar-fill") (tokens cls).
Proof. reflexivity. Qed.

Lemma update_where_Element (p : node -> bool) (f : node -> node) tag cls attrs ch :
  update_where p f (Element tag cls attrs ch)
  = if p (Element tag cls attrs ch)
    then f (Element tag cls attrs (List.map (update_where p f) ch))
    else Element tag cls attrs (List.map (update_where p f) ch).
Proof. reflexivity. Qed.

Lemma update_where_Fragment (p : node -> bool) (f : node -> node) ch :
  update_where p f (Fragment ch) = Fragment (List.map (update_where p f) ch).
Proof. reflexivity. Qed.

#[local] Arguments select : simpl never.
#[local] Arguments update_where : simpl never.
#[local] Arguments Portfolio.append_each : simpl never.

Lemma on_mount_lookup (id : string) (d : document) (build : node -> node)
    tag cls attrs old :
  getElementById d id = Some (Element tag cls attrs old) ->
  getElementById (CVRender.on_mount id d build) id
  = Some (build (Element tag cls attrs [])).
Proof.
  intros Hget. unfold CVRender.on_mount. rewrite Hget.
  unfold getElementById. cbn [elements]. by rewrite lookup_insert_eq.
Qed.

Lemma on_mount_other (id id' : string) (d : document) (build : node -> node) :
  id' <> id ->
  getElementById (CVRender.on_mount id d build) id' = getElementById d id'.
Proof.
  intros Hne. unfold CVRender.on_mount, getElementById.
  destruct (elements d !! id) as [c|]; [|reflexivity].
  cbn [elements]. by rewrite lookup_insert_ne.
Qed.

(** *** The rendered sections *)

Lemma el_empty (tag cls : string) : el tag cls VUndefined = Element tag cls [] [].
Proof. unfold el. cbn. by destruct (String.eqb_spec cls "") as [->|Hc]. Qed.

Lemma buildBar_shape (activeLang : string) (level max : Z) (label : value)
    (trackClass fillClass : string) :
  exists attrs,
    CVRender.buildBar activeLang level max label trackClass fillClass
    = Element "div" trackClass attrs [bar_fill fillClass level "0"]
    /\ forall ch, has_attribute "data-reveal" (Element "div" trackClass attrs ch) = false.
Proof.
  unfold CVRender.buildBar, setProperty, bar_fill. rewrite !el_empty.
  change ("style:" +:+ "--bar-fill") with "style:--bar-fill".
  generalize (pretty level) (pretty max) (to_string label). intros lv mx lab.
  eexists. split; [reflexivity|]. reflexivity.
Qed.

Lemma children_with_map2 {A} (c1 c2 : string) (f g : A -> node) (l : list A) :
  (forall x, children_with c2 (children_with c1 [f x]) = [g x]) ->
  children_with c2 (children_with c1 (List.map f l)) = List.map g l.
Proof.
  intros Hf. induction l as [|x l IH]; [reflexivity|].
  change (List.map f (x :: l)) with ([f x] ++ List.map f l).
  by rewrite !children_with_app, Hf, IH.
Qed.

Section RenderedBars.
(** A pass over the document, see [Animations.bar_pass]. *)
Variable P : node -> node.
Variable shown : Z -> string.
Hypothesis P_el : forall tag cls html c,
  Animations.BAR_SELECTOR (Element tag cls [] []) = false ->
  has_class c (P (el tag cls html)) = has_class c (Element tag cls [] []).
Hypothesis P_Element : forall tag cls attrs ch,
  Animations.BAR_SELECTOR (Element tag cls attrs []) = false ->
  has_attribute "data-reveal" (Element tag cls attrs []) = false ->
  P (Element tag cls attrs ch) = Element tag cls attrs (List.map P ch).
Hypothesis P_fill : forall cls level,
  cls = "cv-skill__bar-fill" \/ cls = "cv-lang__bar-fill" ->
  P (bar_fill cls level "0") = bar_fill cls level (shown level).

Variable activeLang : string.

(** Decides the class filters below the pass. *)
Ltac pass_norm :=
  repeat (rewrite ?children_with_cons, ?children_with_nil;
          cbn [childNodes List.filter app];
          rewrite ?P_el by reflexivity;
          has_class_norm; cbn match).

Lemma renderSkill_pass (name label : value) (skill : CVRender.skill) :
  is_fragment (CVRender.renderSkill activeLang name label skill) = false
  /\ has_class "cv-skill" (P (CVRender.renderSkill activeLang name label skill)) = true
  /\ children_with "cv-skill__bar-fill"
       (children_with "cv-skill__bar-track"
          [P (CVRender.renderSkill activeLang name label skill)])
     = [bar_fill "cv-skill__bar-fill" (CVRender.skill_level skill)
          (shown (CVRender.skill_level skill))].
Proof.
  unfold CVRender.renderSkill.
  destruct (buildBar_shape activeLang (CVRender.skill_level skill)
              (CVRender.skill_max skill) label "cv-skill__bar-track" "cv-skill__bar-fill")
    as (attrs & -> & Hreveal).
  rewrite el_empty, !appendChild_single by first [apply el_not_fragment | reflexivity].
  split; [reflexivity|].
  rewrite P_Element by reflexivity. cbn [List.map app].
  rewrite P_Element by first [reflexivity | apply Hreveal]. cbn [List.map].
  rewrite P_fill by (by left).
  split; [by has_class_norm|]. unfold bar_fill. by pass_norm.
Qed.

Lemma renderLanguage_pass (lang : string) (language : CVRender.language) :
  is_fragment (CVRender.renderLanguage activeLang lang language) = false
  /\ has_class "cv-language" (P (CVRender.renderLanguage activeLang lang language)) = true
  /\ children_with "cv-lang__bar-fill"
       (children_with "cv-lang__bar-track"
          [P (CVRender.renderLanguage activeLang lang language)])
     = [bar_fill "cv-lang__bar-fill" (CVRender.language_level language)
          (shown (CVRender.language_level language))].
Proof.
  unfold CVRender.renderLanguage.
  generalize (I18n.t (CVRender.language_name language) lang). intros name.
  generalize (I18n.t (CVRender.language_label language) lang). intros label.
  destruct (buildBar_shape activeLang (CVRender.language_level language)
              (CVRender.language_max language) name "cv-lang__bar-track" "cv-lang__bar-fill")
    as (attrs & -> & Hreveal).
  rewrite !el_empty, !appendChild_single by first [apply el_not_fragment | reflexivity].
  split; [reflexivity|].
  rewrite P_Element by reflexivity. cbn [List.map app].
  rewrite (P_Element "div" "cv-language__header") by reflexivity.
  rewrite P_Element by first [reflexivity | apply Hreveal]. cbn [List.map].
  rewrite P_fill by (by right).
  split; [by has_class_norm|]. unfold bar_fill. by pass_norm.
Qed.

(** One group of the skills section after the pass. *)
Lemma skills_group_pass (title : value) (f : CVRender.skill -> node)
    (l : list CVRender.skill) :
  (forall s, exists name label, f s = CVRender.renderSkill activeLang name label s) ->
  has_class "cv-skills__group"
    (P (Element "div" "cv-skills__group" []
          (el "p" "cv-skills__group-title" title :: List.map f l))) = true
  /\ children_with "cv-skill__bar-fill"
       (children_with "cv-skill__bar-track"
          (children_with "cv-skill"
             [P (Element "div" "cv-skills__group" []
                   (el "p" "cv-skills__group-title" title :: List.map f l))]))
     = List.map (fun s => bar_fill "cv-skill__bar-fill" (CVRender.skill_level s)
                            (shown (CVRender.skill_level s))) l.
Proof.
  intros Hf. rewrite P_Element by reflexivity. cbn [List.map].
  rewrite List.map_map.
  split; [by has_class_norm|].
  assert (Hskills : children_with "cv-skill"
            [Element "div" "cv-skills__group" []
               (P (el "p" "cv-skills__group-title" title)
                :: List.map (fun x => P (f x)) l)]
          = List.map (fun x => P (f x)) l).
  { rewrite children_with_cons, children_with_nil, app_nil_r.
    cbn [childNodes List.filter]. rewrite P_el by reflexivity.
    has_class_norm. cbn match. apply filter_map_all.
    intros s. destruct (Hf s) as (name & label & ->). apply renderSkill_pass. }
  rewrite Hskills. apply children_with_map2.
  intros s. destruct (Hf s) as (name & label & ->). apply renderSkill_pass.
Qed.

(** The skills section after the pass: the three groups as [renderSkills]
    builds them. *)
Lemma skill_groups_pass (t1 t2 t3 : value) (items : list value)
    (f1 f2 : CVRender.skill -> node) (specialized tools : list CVRender.skill)
    tag cls attrs :
  (forall s, exists name label, f1 s = CVRender.renderSkill activeLang name label s) ->
  (forall s, exists name label, f2 s = CVRender.renderSkill activeLang name label s) ->
  skill_bars
    (Element tag cls attrs
       (List.map P
          [Element "div" "cv-skills__group" []
             (el "p" "cv-skills__group-title" t1 :: List.map f1 specialized);
           Element "div" "cv-skills__group" []
             (el "p" "cv-skills__group-title" t2 :: List.map f2 tools);
           Element "div" "cv-skills__group" []
             [el "p" "cv-skills__group-title" t3;
              Element "div" "cv-skills__misc" []
                (List.map (fun item => el "span" "cv-skills__misc-tag" item) items)]]))
  = List.map (fun s => bar_fill "cv-skill__bar-fill" (CVRender.skill_level s)
                         (shown (CVRender.skill_level s)))
      (specialized ++ tools).
Proof.
  intros Hf1 Hf2. unfold skill_bars. cbn [List.map].
  destruct (skills_group_pass t1 f1 specialized Hf1) as [Hc1 Hb1].
  destruct (skills_group_pass t2 f2 tools Hf2) as [Hc2 Hb2].
  set (g1 := P (Element "div" "cv-skills__group" [] (_ :: List.map f1 specialized))) in *.
  set (g2 := P (Element "div" "cv-skills__group" [] (_ :: List.map f2 tools))) in *.
  rewrite (P_Element "div" "cv-skills__group" [] [_; _]) by reflexivity.
  cbn [List.map].
  rewrite (P_Element "div" "cv-skills__misc") by reflexivity.
  set (misc := List.map P _).
  rewrite (children_with_cons "cv-skills__group"), children_with_nil.
  cbn [childNodes List.filter]. rewrite Hc1, Hc2.
  has_class_norm. cbn match. rewrite app_nil_r.
  set (g3 := Element "div" "cv-skills__group" [] _).
  change [g1; g2; g3] with ([g1] ++ [g2] ++ [g3]).
  rewrite !children_with_app, Hb1, Hb2. subst g3. pass_norm.
  by rewrite app_nil_r, List.map_app.
Qed.

Lemma languages_pass (lang : string) (languages : list CVRender.language) tag cls attrs :
  language_bars
    (Element tag cls attrs
       (List.map P (List.map (CVRender.renderLanguage activeLang lang) languages)))
  = List.map (fun l => bar_fill "cv-lang__bar-fill" (CVRender.language_level l)
                         (shown (CVRender.language_level l)))
      languages.
Proof.
  unfold language_bars. rewrite List.map_map.
  assert (Hrows : children_with "cv-language"
            [Element tag cls attrs
               (List.map (fun x => P (CVRender.renderLanguage activeLang lang x)) languages)]
          = List.map (fun x => P (CVRender.renderLanguage activeLang lang x)) languages).
  { rewrite children_with_cons, children_with_nil, app_nil_r.
    cbn [childNodes]. apply filter_map_all.
    intros l. apply renderLanguage_pass. }
  rewrite Hrows. apply children_with_map2. intros l. apply renderLanguage_pass.
Qed.

End RenderedBars.

(** *** The passes *)

Lemma fill_pass_el tag cls html :
  Animations.BAR_SELECTOR (Element tag cls [] []) = false ->
  exists kids,
    update_where Animations.BAR_SELECTOR Animations.fill_bar (el tag cls html)
    = Element tag cls [] kids.
Proof.
  intros Hcls. rewrite (el_shape tag cls html). rewrite update_where_Element.
  rewrite BAR_Element in *. rewrite Hcls. by eexists.
Qed.

Lemma fill_pass_Element tag cls attrs ch :
  Animations.BAR_SELECTOR (Element tag cls attrs []) = false ->
  update_where Animations.BAR_SELECTOR Animations.fill_bar (Element tag cls attrs ch)
  = Element tag cls attrs
      (List.map (update_where Animations.BAR_SELECTOR Animations.fill_bar) ch).
Proof.
  intros Hcls. rewrite update_where_Element. rewrite BAR_Element in *. by rewrite Hcls.
Qed.

Lemma fill_pass_fill (cls : string) (level : Z) :
  cls = "cv-skill__bar-fill" \/ cls = "cv-lang__bar-fill" ->
  update_where Animations.BAR_SELECTOR Animations.fill_bar (bar_fill cls level "0")
  = bar_fill cls level (pretty level).
Proof.
  pose proof (pretty_Z_nonempty level) as Hlv.
  unfold bar_fill. rewrite update_where_Element.
  unfold Animations.fill_bar, Portfolio.dataset, setProperty.
  change ("style:" +:+ "--bar-fill") with "style:--bar-fill".
  change ("data-" +:+ "level") with "data-level".
  generalize dependent (pretty level). intros lv Hlv.
  destruct lv as [|c lv]; [discriminate Hlv|].
  intros [-> | ->]; reflexivity.
Qed.

Lemma reveal_pass_Element tag cls attrs ch :
  has_attribute "data-reveal" (Element tag cls attrs []) = false ->
  update_where (has_attribute "data-reveal") Animations.reveal (Element tag cls attrs ch)
  = Element tag cls attrs
      (List.map (update_where (has_attribute "data-reveal") Animations.reveal) ch).
Proof.
  intros Hattrs. rewrite update_where_Element.
  change (has_attribute "data-reveal" (Element tag cls attrs ch))
    with (has_attribute "data-reveal" (Element tag cls attrs [])).
  by rewrite Hattrs.
Qed.

(** *** The mounts *)

Lemma bar_pass_none : Animations.bar_pass (fun n => n) (fun _ => "0").
Proof.
  split; [|split; [|done]].
  - intros tag cls html c _. by rewrite (el_shape tag cls html).
  - intros tag cls attrs ch _ _. by rewrite List.map_id.
Qed.

Lemma bar_pass_fill :
  Animations.bar_pass (update_where Animations.BAR_SELECTOR Animations.fill_bar) pretty.
Proof.
  split; [|split; [|apply fill_pass_fill]].
  - intros tag cls html c Hcls. by destruct (fill_pass_el tag cls html Hcls) as [kids ->].
  - intros tag cls attrs ch Hcls _. by apply fill_pass_Element.
Qed.

Lemma bar_pass_capture :
  Animations.bar_pass (fun n => update_where (has_attribute "data-reveal") Animations.reveal
                       (update_where Animations.BAR_SELECTOR Animations.fill_bar n))
           pretty.
Proof.
  split; [|split].
  - intros tag cls html c Hcls. destruct (fill_pass_el tag cls html Hcls) as [kids ->].
    by rewrite reveal_pass_Element.
  - intros tag cls attrs ch Hcls Hattrs.
    rewrite fill_pass_Element by done.
    rewrite reveal_pass_Element by done. by rewrite List.map_map.
  - intros cls level Hcls. rewrite fill_pass_fill by done.
    unfold bar_fill. by rewrite reveal_pass_Element.
Qed.

Lemma skill_bars_children (a b : node) :
  childNodes a = childNodes b -> skill_bars a = skill_bars b.
Proof.
  intros Hch. unfold skill_bars.
  by rewrite !(children_with_cons "cv-skills__group"), Hch.
Qed.

Lemma renderSkills_mount (activeLang : string) (data : CVRender.cv) (lang : string)
    (d : document) tag cls attrs old :
  getElementById d "cv-skills" = Some (Element tag cls attrs old) ->
  exists groups,
    getElementById (CVRender.renderSkills activeLang data lang d) "cv-skills"
    = Some (Element tag cls attrs groups)
    /\ forall P shown tag' cls' attrs',
         Animations.bar_pass P shown ->
         skill_bars (Element tag' cls' attrs' (List.map P groups))
         = List.map (fun s => bar_fill "cv-skill__bar-fill" (CVRender.skill_level s)
                                (shown (CVRender.skill_level s)))
             (CVRender.specialized (CVRender.cv_skills data)
              ++ CVRender.tools (CVRender.cv_skills data)).
Proof.
  intros Hget. unfold CVRender.renderSkills.
  rewrite (on_mount_lookup _ _ _ _ _ _ _ Hget).
  generalize (I18n.t (Portfolio.de_en "Spezialisierung" "Specialization") lang) as t1.
  generalize (I18n.t (Portfolio.de_en "Tools & Technologie" "Tools & Technology") lang) as t2.
  generalize (I18n.t (Portfolio.de_en "Weitere Kenntnisse" "Miscellaneous") lang) as t3.
  intros t3 t2 t1.
  rewrite !el_empty.
  rewrite !(appendChild_single _ _ _ _ (el "p" _ _)) by apply el_not_fragment.
  assert (Hskill : forall name label s,
            is_fragment (CVRender.renderSkill activeLang name label s) = false).
  { intros name label s.
    apply (renderSkill_pass (fun n => n) (fun _ => "0")); apply bar_pass_none. }
  rewrite !append_each_element by (intros; apply Hskill).
  set (miscTags := match I18n.t _ lang with VArr _ => _ | _ => _ end).
  assert (Hmisc : exists items, miscTags = Element "div" "cv-skills__misc" []
                    (List.map (fun item => el "span" "cv-skills__misc-tag" item) items)).
  { subst miscTags. destruct (I18n.t _ lang) as [| | | | |items|];
      try (by exists []).
    exists items. by rewrite append_each_element by (intros; apply el_not_fragment). }
  destruct Hmisc as [items Hmisc]. clearbody miscTags. subst miscTags.
  rewrite !appendChild_single by reflexivity.
  eexists. split; [reflexivity|].
  intros P shown tag' cls' attrs' (P_el & P_Element & P_fill). cbn [app].
  apply (skill_groups_pass P shown P_el P_Element P_fill activeLang);
    intros s; by eexists _, _.
Qed.

Lemma language_bars_children (a b : node) :
  childNodes a = childNodes b -> language_bars a = language_bars b.
Proof.
  intros Hch. unfold language_bars.
  by rewrite !(children_with_cons "cv-language"), Hch.
Qed.

Lemma renderLanguages_mount (activeLang : string) (data : CVRender.cv) (lang : string)
    (d : document) tag cls attrs old :
  getElementById d "cv-languages" = Some (Element tag cls attrs old) ->
  exists rows,
    getElementById (CVRender.renderLanguages activeLang data lang d) "cv-languages"
    = Some (Element tag cls attrs rows)
    /\ forall P shown tag' cls' attrs',
         Animations.bar_pass P shown ->
         language_bars (Element tag' cls' attrs' (List.map P rows))
         = List.map (fun l => bar_fill "cv-lang__bar-fill" (CVRender.language_level l)
                                (shown (CVRender.language_level l)))
             (CVRender.languages data).
Proof.
  intros Hget. unfold CVRender.renderLanguages.
  rewrite (on_mount_lookup _ _ _ _ _ _ _ Hget).
  rewrite append_each_element
    by (intros; apply (renderLanguage_pass (fun n => n) (fun _ => "0")); apply bar_pass_none).
  eexists. split; [reflexivity|].
  intros P shown tag' cls' attrs' (P_el & P_Element & P_fill). cbn [app].
  by apply languages_pass.
Qed.

(** *** Filling *)

(** The immediate branch of [initSkillBars] on one of its two targets. *)
Lemma initSkillBars_immediate (prefersMotion : bool) (st : Animations.state) (d : document)
    (id : string) (target : node) :
  prefersMotion = false \/ Animations.barsAnimated st = true ->
  id = "cv-skills" \/ id = "cv-languages" ->
  getElementById d id = Some target ->
  fst (Animations.initSkillBars prefersMotion st d) = st
  /\ getElementById (snd (Animations.initSkillBars prefersMotion st d)) id
     = Some (Animations.update_below Animations.BAR_SELECTOR Animations.fill_bar target).
Proof.
  intros Hnow Hid Hget. unfold Animations.initSkillBars.
  assert (Hbranch : negb prefersMotion || Animations.barsAnimated st = true).
  { destruct Hnow as [-> | ->]; [reflexivity|by destruct prefersMotion]. }
  unfold getElementById in *. cbn [List.filter].
  destruct Hid as [-> | ->].
  - rewrite Hget. rewrite (bool_decide_eq_true_2 _ (mk_is_Some _ _ eq_refl)).
    destruct (elements d !! "cv-languages") as [other|] eqn:Hother.
    + rewrite (bool_decide_eq_true_2 _ (mk_is_Some _ _ eq_refl)).
      rewrite Hbranch. cbn [fst snd fold_left elements]. rewrite Hget.
      rewrite lookup_insert_ne by done. rewrite Hother.
      split; [reflexivity|]. rewrite lookup_insert_ne by done. by rewrite lookup_insert_eq.
    + rewrite (bool_decide_eq_false_2 (is_Some None)) by (by intros [? ?]).
      rewrite Hbranch. cbn [fst snd fold_left elements]. rewrite Hget.
      split; [reflexivity|]. by rewrite lookup_insert_eq.
  - rewrite Hget. rewrite (bool_decide_eq_true_2 _ (mk_is_Some _ _ eq_refl)).
    destruct (elements d !! "cv-skills") as [other|] eqn:Hother.
    + rewrite (bool_decide_eq_true_2 _ (mk_is_Some _ _ eq_refl)).
      rewrite Hbranch. cbn [fst snd fold_left elements]. rewrite Hother.
      rewrite lookup_insert_ne by done. rewrite Hget.
      split; [reflexivity|]. by rewrite lookup_insert_eq.
    + rewrite (bool_decide_eq_false_2 (is_Some None)) by (by intros [? ?]).
      rewrite Hbranch. cbn [fst snd fold_left elements]. rewrite Hget.
      split; [reflexivity|]. by rewrite lookup_insert_eq.
Qed.

(** The first call of [initSkillBars] with motion. *)
Lemma initSkillBars_arms (st : Animations.state) (d : document) (id : string) (target : node) :
  id = "cv-skills" \/ id = "cv-languages" ->
  getElementById d id = Some target ->
  Animations.barsAnimated st = false ->
  Animations.barsAnimated (fst (Animations.initSkillBars true st d)) = true
  /\ snd (Animations.initSkillBars true st d) = d.
Proof.
  intros Hid Hget Hfirst. unfold Animations.initSkillBars.
  unfold getElementById in *. cbn [List.filter]. rewrite Hfirst.
  destruct Hid as [-> | ->]; rewrite Hget;
    rewrite (bool_decide_eq_true_2 _ (mk_is_Some _ _ eq_refl)).
  - by destruct (bool_decide (is_Some (elements d !! "cv-languages"))).
  - by destruct (bool_decide (is_Some (elements d !! "cv-skills"))).
Qed.

(** X12: [renderSkills] and [renderLanguages] leave every bar empty.  On
    the path on which the renderer puts them (mount, group, skill, track,
    fill; for languages mount, language, track, fill) there is one fill
    element per skill (specialised skills first, then tools) or per
    language, in the order of the data, with the level in [data-level] and
    [--bar-fill] at 0.  Levels are integers that a JavaScript number holds
    exactly. *)
Theorem render_bars_start_empty (activeLang : string) (data : CVRender.cv) (lang : string)
    (d : document) (id : string) tag cls attrs old :
  getElementById d id = Some (Element tag cls attrs old) ->
  (id = "cv-skills" ->
   Forall (fun s => safe_integer (CVRender.skill_level s) = true)
          (CVRender.specialized (CVRender.cv_skills data)
           ++ CVRender.tools (CVRender.cv_skills data)) ->
   exists root,
     getElementById (CVRender.renderSkills activeLang data lang d) id = Some root
     /\ skill_bars root
        = List.map (fun s => bar_fill "cv-skill__bar-fill" (CVRender.skill_level s) "0")
            (CVRender.specialized (CVRender.cv_skills data)
             ++ CVRender.tools (CVRender.cv_skills data)))
  /\ (id = "cv-languages" ->
      Forall (fun l => safe_integer (CVRender.language_level l) = true)
             (CVRender.languages data) ->
      exists root,
        getElementById (CVRender.renderLanguages activeLang data lang d) id = Some root
        /\ language_bars root
           = List.map (fun l => bar_fill "cv-lang__bar-fill"
                                  (CVRender.language_level l) "0")
               (CVRender.languages data)).
Proof.
  intros Hget. split; intros -> _.
  - destruct (renderSkills_mount activeLang data lang d _ _ _ _ Hget)
      as (groups & Hroot & Hbars).
    eexists. split; [exact Hroot|].
    rewrite <- (Hbars (fun n => n) (fun _ => "0") tag cls attrs bar_pass_none).
    by rewrite List.map_id.
  - destruct (renderLanguages_mount activeLang data lang d _ _ _ _ Hget)
      as (rows & Hroot & Hbars).
    eexists. split; [exact Hroot|].
    rewrite <- (Hbars (fun n => n) (fun _ => "0") tag cls attrs bar_pass_none).
    by rewrite List.map_id.
Qed.


Lemma render_bars_start_empty_witness :
  exists root,
    getElementById (CVRender.renderSkills "de" SampleSite.cv_data "de" SampleSite.cv_page)
      "cv-skills" = Some root
    /\ skill_bars root
       = [bar_fill "cv-skill__bar-fill" 5 "0"; bar_fill "cv-skill__bar-fill" 4 "0"].
Proof.
  apply (proj1 (render_bars_start_empty "de" SampleSite.cv_data "de" SampleSite.cv_page
                  "cv-skills" "div" "cv-skills" [("id", "cv-skills")] [] eq_refl)).
  - reflexivity.
  - by repeat constructor.
Defined.

(** X13: without motion, or once the scroll animation has been armed,
    [initSkillBars] fills the bars of a freshly rendered skills section at
    once: every bar on the path mount, group, skill, track, fill has
    [--bar-fill] at its level, and the controller state is as before. *)
Theorem initSkillBars_fills_at_once (activeLang : string) (data : CVRender.cv)
    (lang : string) (prefersMotion : bool) (st : Animations.state) (d : document)
    tag cls attrs old :
  getElementById d "cv-skills" = Some (Element tag cls attrs old) ->
  Forall (fun s => safe_integer (CVRender.skill_level s) = true)
         (CVRender.specialized (CVRender.cv_skills data)
          ++ CVRender.tools (CVRender.cv_skills data)) ->
  prefersMotion = false \/ Animations.barsAnimated st = true ->
  let rendered := CVRender.renderSkills activeLang data lang d in
  fst (Animations.initSkillBars prefersMotion st rendered) = st
  /\ exists root,
       getElementById (snd (Animations.initSkillBars prefersMotion st rendered)) "cv-skills"
       = Some root
       /\ skill_bars root
          = List.map (fun s => bar_fill "cv-skill__bar-fill" (CVRender.skill_level s)
                                 (pretty (CVRender.skill_level s)))
              (CVRender.specialized (CVRender.cv_skills data)
               ++ CVRender.tools (CVRender.cv_skills data)).
Proof.
  intros Hget _ Hnow rendered.
  destruct (renderSkills_mount activeLang data lang d _ _ _ _ Hget)
    as (groups & Hroot & Hbars).
  destruct (initSkillBars_immediate prefersMotion st rendered "cv-skills" _ Hnow
              (or_introl eq_refl) Hroot) as [Hst Hfilled].
  split; [exact Hst|]. eexists. split; [exact Hfilled|].
  exact (Hbars _ _ tag cls attrs bar_pass_fill).
Qed.


Lemma initSkillBars_fills_at_once_witness :
  exists root,
    getElementById
      (snd (Animations.initSkillBars false
              {| Animations.barsAnimated := false; Animations.observed := [] |}
              (CVRender.renderSkills "de" SampleSite.cv_data "en" SampleSite.cv_page)))
      "cv-skills" = Some root
    /\ skill_bars root
       = [bar_fill "cv-skill__bar-fill" 5 "5"; bar_fill "cv-skill__bar-fill" 4 "4"].
Proof.
  apply (initSkillBars_fills_at_once "de" SampleSite.cv_data "en" false
           {| Animations.barsAnimated := false; Animations.observed := [] |}
           SampleSite.cv_page "div" "cv-skills" [("id", "cv-skills")] []).
  - reflexivity.
  - by repeat constructor.
  - by left.
Defined.

(** X14: the languages section after a change of language.  Each call of
    [initSkillBars] reads the motion preference of that moment.  After a
    first call and a new rendering of the section, the second call fills
    every bar to its level when the first call ran with motion (it armed
    the observer), when the observer had been armed before, or when the
    second call runs without motion.  In the one remaining case, no
    motion at the first call and motion at the second with nothing armed
    before, the second call arms the observer and leaves the bars empty. *)
Theorem initSkillBars_second_call (activeLang : string) (data : CVRender.cv)
    (lang : string) (motion1 motion2 : bool) (st : Animations.state) (d : document)
    tag cls attrs old :
  getElementById d "cv-languages" = Some (Element tag cls attrs old) ->
  Forall (fun l => safe_integer (CVRender.language_level l) = true)
         (CVRender.languages data) ->
  let first := Animations.initSkillBars motion1 st d in
  let rendered := CVRender.renderLanguages activeLang data lang (snd first) in
  let second := Animations.initSkillBars motion2 (fst first) rendered in
  exists root,
    getElementById (snd second) "cv-languages" = Some root
    /\ (motion1 = true \/ Animations.barsAnimated st = true \/ motion2 = false ->
        language_bars root
        = List.map (fun l => bar_fill "cv-lang__bar-fill" (CVRender.language_level l)
                               (pretty (CVRender.language_level l)))
            (CVRender.languages data))
    /\ (motion1 = false -> Animations.barsAnimated st = false -> motion2 = true ->
        Animations.barsAnimated (fst second) = true
        /\ language_bars root
           = List.map (fun l => bar_fill "cv-lang__bar-fill"
                                  (CVRender.language_level l) "0")
               (CVRender.languages data)).
Proof.
  intros Hget _ first rendered second.
  assert (Hfirst : exists old',
            getElementById (snd first) "cv-languages" = Some (Element tag cls attrs old')
            /\ Animations.barsAnimated (fst first)
               = motion1 || Animations.barsAnimated st).
  { subst first. destruct motion1.
    - destruct (Animations.barsAnimated st) eqn:Hdone.
      + destruct (initSkillBars_immediate true st d "cv-languages" _
                    (or_intror Hdone) (or_intror eq_refl) Hget) as [Hst Hdoc].
        eexists. split; [exact Hdoc|]. by rewrite Hst.
      + destruct (initSkillBars_arms st d "cv-languages" _ (or_intror eq_refl) Hget Hdone)
          as [Hst Hdoc].
        rewrite Hdoc. by eexists.
    - destruct (initSkillBars_immediate false st d "cv-languages" _
                  (or_introl eq_refl) (or_intror eq_refl) Hget) as [Hst Hdoc].
      eexists. split; [exact Hdoc|]. by rewrite Hst. }
  destruct Hfirst as (old' & Hmount & Harmed).
  destruct (renderLanguages_mount activeLang data lang (snd first) _ _ _ _ Hmount)
    as (rows & Hroot & Hbars).
  fold rendered in Hroot.
  destruct (bool_decide (motion2 = false \/ Animations.barsAnimated (fst first) = true))
    eqn:Hnow.
  - apply bool_decide_eq_true_1 in Hnow.
    destruct (initSkillBars_immediate motion2 (fst first) rendered "cv-languages" _ Hnow
                (or_intror eq_refl) Hroot) as [_ Hfilled].
    eexists. split; [exact Hfilled|]. split.
    + intros _. exact (Hbars _ _ tag cls attrs bar_pass_fill).
    + intros -> Hst ->. rewrite Harmed, Hst in Hnow. by destruct Hnow.
  - apply bool_decide_eq_false_1 in Hnow.
    assert (Hm2 : motion2 = true) by (destruct motion2; [done|by destruct Hnow; left]).
    assert (Hst1 : Animations.barsAnimated (fst first) = false)
      by (destruct (Animations.barsAnimated (fst first)); [by destruct Hnow; right|done]).
    subst motion2.
    destruct (initSkillBars_arms (fst first) rendered "cv-languages" _
                (or_intror eq_refl) Hroot Hst1) as [Hst2 Hdoc2].
    subst second. rewrite Hdoc2.
    eexists. split; [exact Hroot|]. split.
    + rewrite Harmed in Hst1. apply orb_false_elim in Hst1 as [-> Hst].
      intros [? | [? | ?]]; congruence.
    + intros _ _ _. split; [exact Hst2|].
      rewrite <- (Hbars (fun n => n) (fun _ => "0") tag cls attrs bar_pass_none).
      by rewrite List.map_id.
Qed.


Lemma initSkillBars_second_call_witness :
  exists root,
    getElementById
      (snd (Animations.initSkillBars false
              (fst (Animations.initSkillBars true
                      {| Animations.barsAnimated := false; Animations.observed := [] |}
                      SampleSite.cv_page))
              (CVRender.renderLanguages "en" SampleSite.cv_data "en"
                 (snd (Animations.initSkillBars true
                         {| Animations.barsAnimated := false; Animations.observed := [] |}
                         SampleSite.cv_page)))))
      "cv-languages" = Some root
    /\ language_bars root = [bar_fill "cv-lang__bar-fill" 4 "4"].
Proof.
  destruct (initSkillBars_second_call "en" SampleSite.cv_data "en" true false
              {| Animations.barsAnimated := false; Animations.observed := [] |}
              SampleSite.cv_page "div" "cv-languages" [("id", "cv-languages")] []
              eq_refl ltac:(by repeat constructor))
    as (root & Hroot & Hfilled & _).
  exists root. split; [exact Hroot|]. apply Hfilled. by left.
Defined.

(** ** The capture step of the export *)

Lemma force_final_state_children tag cls attrs ch :
  childNodes (update_where (has_attribute "data-reveal") Animations.reveal
                (update_where Animations.BAR_SELECTOR Animations.fill_bar
                   (Element tag cls attrs ch)))
  = List.map (fun c => update_where (has_attribute "data-reveal") Animations.reveal
                         (update_where Animations.BAR_SELECTOR Animations.fill_bar c)) ch.
Proof.
  rewrite (update_where_Element Animations.BAR_SELECTOR).
  assert (Hfill : exists attrs',
    (if Animations.BAR_SELECTOR (Element tag cls attrs ch)
     then Animations.fill_bar
            (Element tag cls attrs
               (List.map (update_where Animations.BAR_SELECTOR Animations.fill_bar) ch))
     else Element tag cls attrs
            (List.map (update_where Animations.BAR_SELECTOR Animations.fill_bar) ch))
    = Element tag cls attrs'
        (List.map (update_where Animations.BAR_SELECTOR Animations.fill_bar) ch)).
  { destruct (Animations.BAR_SELECTOR _); eexists; reflexivity. }
  destruct Hfill as [attrs' ->]. rewrite update_where_Element.
  destruct (has_attribute _ _); cbn [Animations.reveal classList_add childNodes];
    by rewrite List.map_map.
Qed.

(** X15: what the capture of the export sees.  After the script that
    [handlePdfExport] evaluates in the page, the bars of a rendered skills
    section, on the path mount, group, skill, track, fill, are one per
    skill (specialised skills first, then tools), each with [--bar-fill]
    at the level its [data-level] holds. *)
Theorem export_capture_sees_filled_bars (activeLang : string) (data : CVRender.cv)
    (lang : string) (d : document) tag cls attrs old :
  getElementById d "cv-skills" = Some (Element tag cls attrs old) ->
  Forall (fun s => safe_integer (CVRender.skill_level s) = true)
         (CVRender.specialized (CVRender.cv_skills data)
          ++ CVRender.tools (CVRender.cv_skills data)) ->
  exists root,
    getElementById
      (Animations.force_final_state (CVRender.renderSkills activeLang data lang d))
      "cv-skills" = Some root
    /\ skill_bars root
       = List.map (fun s => bar_fill "cv-skill__bar-fill" (CVRender.skill_level s)
                              (pretty (CVRender.skill_level s)))
           (CVRender.specialized (CVRender.cv_skills data)
            ++ CVRender.tools (CVRender.cv_skills data)).
Proof.
  intros Hget _.
  destruct (renderSkills_mount activeLang data lang d _ _ _ _ Hget)
    as (groups & Hroot & Hbars).
  unfold getElementById, Animations.force_final_state in *. cbn [elements].
  rewrite lookup_fmap, Hroot. cbn [fmap option_fmap option_map].
  eexists. split; [reflexivity|].
  rewrite <- (Hbars _ _ tag cls attrs bar_pass_capture).
  apply skill_bars_children. cbn [childNodes]. apply force_final_state_children.
Qed.

Lemma export_capture_sees_filled_bars_witness :
  exists root,
    getElementById
      (Animations.force_final_state
         (CVRender.renderSkills "en" SampleSite.cv_data "en" SampleSite.cv_page))
      "cv-skills" = Some root
    /\ skill_bars root
       = [bar_fill "cv-skill__bar-fill" 5 "5"; bar_fill "cv-skill__bar-fill" 4 "4"].
Proof.
  apply (export_capture_sees_filled_bars "en" SampleSite.cv_data "en" SampleSite.cv_page
           "div" "cv-skills" [("id", "cv-skills")] []).
  - reflexivity.
  - by repeat constructor.
Defined.

(** ** The static file server on plain paths *)

Lemma plain_spec (seg : string) :
  Paths.plain seg = true ->
  seg <> "" /\ seg <> "." /\ seg <> ".." /\ free_of "/" seg /\ free_of "?" seg.
Proof.
  unfold Paths.plain, free_of.
  intros [[[H1 H2]%andb_prop H3]%andb_prop H4]%andb_prop.
  apply negb_true_iff, String.eqb_neq in H1, H2, H3.
  repeat split; try done.
  - induction seg as [|c seg IH] in H4 |- *; [reflexivity|].
    cbn in *. apply andb_prop in H4 as [[Hc _]%andb_prop H4].
    rewrite Hc. cbn.
    clear -H4. induction seg as [|c seg IH]; [reflexivity|].
    cbn in *. apply andb_prop in H4 as [[Hc _]%andb_prop H4]. by rewrite Hc, IH.
  - clear -H4. induction seg as [|c seg IH]; [reflexivity|].
    cbn in *. apply andb_prop in H4 as [[_ Hc]%andb_prop H4]. by rewrite Hc, IH.
Qed.

Lemma free_of_app (sep : ascii) (a b : string) :
  free_of sep a -> free_of sep b -> free_of sep (a +:+ b).
Proof.
  unfold free_of. induction a as [|c a IH]; intros Ha Hb; [exact Hb|].
  change (String c a +:+ b) with (String c (a +:+ b)).
  cbn in *. apply andb_prop in Ha as [Hc Ha]. by rewrite Hc, IH.
Qed.

Lemma join_cons2 (sep x y : string) (l : list string) :
  join sep (x :: y :: l) = x +:+ sep +:+ join sep (y :: l).
Proof. reflexivity. Qed.

Lemma join_app (sep : string) (l1 l2 : list string) :
  l1 <> [] -> l2 <> [] ->
  join sep (l1 ++ l2) = join sep l1 +:+ sep +:+ join sep l2.
Proof.
  intros H1 H2. induction l1 as [|x l1 IH]; [done|].
  destruct l1 as [|y l1].
  - destruct l2 as [|z l2]; [done|]. reflexivity.
  - change ((x :: y :: l1) ++ l2) with (x :: y :: (l1 ++ l2)).
    rewrite !join_cons2.
    change (y :: l1 ++ l2) with ((y :: l1) ++ l2). rewrite IH by done.
    by rewrite !append_assoc.
Qed.

Lemma join_free (sep : ascii) (l : list string) :
  free_of sep "/" -> Forall (free_of sep) l -> free_of sep (join "/" l).
Proof.
  intros Hsep. induction 1 as [|x l Hx Hl IH]; [reflexivity|].
  destruct l as [|y l]; [exact Hx|].
  rewrite join_cons2. by repeat apply free_of_app.
Qed.

Lemma endsWith_char_app (a b : string) (c : ascii) :
  b <> "" -> endsWith_char (a +:+ b) c = endsWith_char b c.
Proof.
  intros Hb. induction a as [|x a IH]; [reflexivity|].
  change (String x a +:+ b) with (String x (a +:+ b)).
  cbn [endsWith_char]. destruct (a +:+ b) as [|y r] eqn:Hab; [|exact IH].
  destruct a; [by cbn in Hab|discriminate Hab].
Qed.

Lemma free_endsWith (s : string) (c : ascii) :
  free_of c s -> endsWith_char s c = false.
Proof.
  unfold free_of. induction s as [|a r IH]; [reflexivity|].
  cbn. intros [Ha Hr]%andb_prop. apply negb_true_iff in Ha.
  destruct r; [exact Ha|by apply IH].
Qed.

Lemma join_nonempty (sep x : string) (l : list string) :
  x <> "" -> join sep (x :: l) <> "".
Proof.
  intros Hx. destruct l as [|y l]; [exact Hx|].
  rewrite join_cons2. destruct x; [done|discriminate].
Qed.

Lemma endsWith_join (l : list string) :
  l <> [] -> Forall (fun s => Paths.plain s = true) l ->
  endsWith_char (join "/" l) "/" = false.
Proof.
  intros Hne Hl. induction Hl as [|x l Hx Hl IH]; [done|].
  destruct l as [|y l].
  - apply free_endsWith. by apply plain_spec in Hx as (_ & _ & _ & Hx & _).
  - rewrite join_cons2.
    inversion Hl as [|? ? Hy _]; subst.
    assert (Hrest : join "/" (y :: l) <> "").
    { apply join_nonempty. by apply plain_spec in Hy as [Hy _]. }
    rewrite endsWith_char_app
      by (change ("/" +:+ join "/" (y :: l)) with (String "/" (join "/" (y :: l))); done).
    rewrite (endsWith_char_app "/") by exact Hrest.
    by apply IH.
Qed.

Lemma normalize_segments_plain (above : bool) (l : list string) :
  Forall (fun s => s = "" \/ Paths.plain s = true) l ->
  Server.normalize_segments above l = List.filter (fun s => negb (String.eqb s "")) l.
Proof.
  unfold Server.normalize_segments.
  set (step := fun (res : list string) (seg : string) => _).
  enough (Hacc : forall acc,
            Forall (fun s => s = "" \/ Paths.plain s = true) l ->
            fold_left step l acc = acc ++ List.filter (fun s => negb (String.eqb s "")) l)
    by (intros Hl; exact (Hacc [] Hl)).
  induction l as [|x l IH]; intros acc Hl; [by rewrite app_nil_r|].
  inversion Hl as [|? ? Hx Hl']; subst. cbn [fold_left List.filter].
  destruct Hx as [-> | Hx].
  - rewrite <- IH by done. reflexivity.
  - apply plain_spec in Hx as (H1 & H2 & H3 & _).
    apply String.eqb_neq in H1, H2, H3. rewrite H1. cbn [negb].
    rewrite IH by done. subst step. cbn beta. rewrite H1, H2, H3. cbn [orb].
    by rewrite <- app_assoc.
Qed.

Lemma prefix_app (a b : string) : String.prefix a (a +:+ b) = true.
Proof.
  induction a as [|c a IH]; [by destruct b|].
  change (String c a +:+ b) with (String c (a +:+ b)). cbn.
  by destruct (ascii_dec c c).
Qed.

Lemma startsWith_slash (s : string) : startsWith (String "/" s) "/" = true.
Proof. unfold startsWith. cbn. by destruct s. Qed.

Lemma filter_plain (l : list string) :
  Forall (fun s => Paths.plain s = true) l ->
  List.filter (fun s => negb (String.eqb s "")) l = l.
Proof.
  induction 1 as [|x l Hx Hl IH]; [reflexivity|].
  cbn. apply plain_spec in Hx as [Hx _]. apply String.eqb_neq in Hx.
  by rewrite Hx, IH.
Qed.

Lemma path_join_plain (rs ps : list string) :
  rs <> [] -> ps <> [] ->
  Forall (fun s => Paths.plain s = true) rs ->
  Forall (fun s => Paths.plain s = true) ps ->
  Server.path_join (Paths.absolute rs) (Paths.absolute ps) = Paths.absolute (rs ++ ps).
Proof.
  intros Hrs Hps Frs Fps. unfold Server.path_join, Paths.absolute.
  change ("/" +:+ join "/" rs) with (String "/" (join "/" rs)).
  change ("/" +:+ join "/" ps) with (String "/" (join "/" ps)).
  cbn [List.filter String.eqb negb].
  assert (Hpath : join "/" [String "/" (join "/" rs); String "/" (join "/" ps)]
                  = join "/" ("" :: rs ++ "" :: ps)).
  { destruct rs as [|r rs]; [done|]. destruct ps as [|p ps]; [done|].
    change ("" :: (r :: rs) ++ "" :: p :: ps) with ("" :: r :: (rs ++ "" :: p :: ps)).
    rewrite !join_cons2.
    change (r :: rs ++ "" :: p :: ps) with ((r :: rs) ++ "" :: p :: ps).
    rewrite join_app by done. rewrite join_cons2.
    change ("" +:+ ?x) with x.
    change (String "/" ?x) with ("/" +:+ x).
    by rewrite !append_assoc. }
  rewrite Hpath. clear Hpath.
  assert (Hfree : Forall (free_of "/") ("" :: rs ++ "" :: ps)).
  { constructor; [reflexivity|]. apply Forall_app. split.
    - eapply Forall_impl; [exact Frs|]. intros s Hs. by apply plain_spec in Hs as (_&_&_&Hs&_).
    - constructor; [reflexivity|].
      eapply Forall_impl; [exact Fps|]. intros s Hs. by apply plain_spec in Hs as (_&_&_&Hs&_). }
  assert (Hclean : Forall (fun s => s = "" \/ Paths.plain s = true) ("" :: rs ++ "" :: ps)).
  { constructor; [by left|]. apply Forall_app. split.
    - eapply Forall_impl; [exact Frs|]. by right.
    - constructor; [by left|]. eapply Forall_impl; [exact Fps|]. by right. }
  unfold Server.normalize.
  assert (Hshape : join "/" ("" :: rs ++ "" :: ps)
                   = String "/" (join "/" (rs ++ "" :: ps))).
  { destruct rs as [|r rs]; [done|]. reflexivity. }
  assert (Hend : endsWith_char (join "/" ("" :: rs ++ "" :: ps)) "/" = false).
  { rewrite Hshape. rewrite join_app by done.
    destruct ps as [|p ps]; [done|]. rewrite join_cons2.
    change ("" +:+ ?x) with x.
    change (String "/" ?x) with ("/" +:+ x).
    rewrite <- !append_assoc.
    rewrite endsWith_char_app.
    - by apply endsWith_join.
    - apply join_nonempty. inversion Fps; subst. by eapply plain_spec. }
  assert (Hsegs : List.filter (fun s => negb (String.eqb s "")) ("" :: rs ++ "" :: ps)
                  = rs ++ ps).
  { change ("" :: rs ++ "" :: ps) with ([""] ++ rs ++ [""] ++ ps).
    rewrite !List.filter_app.
    rewrite (filter_plain rs) by exact Frs. rewrite (filter_plain ps) by exact Fps.
    reflexivity. }
  rewrite Hend.
  rewrite (split_join "/" ("" :: rs ++ "" :: ps)) by (discriminate || exact Hfree).
  rewrite normalize_segments_plain by exact Hclean.
  rewrite Hsegs, Hshape. cbn [String.eqb].
  rewrite startsWith_slash.
  destruct (String.eqb (join "/" (rs ++ ps)) "") eqn:Hempty; [|reflexivity].
  apply String.eqb_eq in Hempty. destruct rs as [|r rs]; [done|].
  inversion Frs; subst. exfalso. eapply (join_nonempty "/" r (rs ++ ps)); [by eapply plain_spec|].
  exact Hempty.
Qed.

(** X16: a request for a plain path is served from below the root.  With
    the root directory given by its segments and a URL made of plain
    segments (names without [/] and [?], other than [.] and [..]),
    [serveStatic] passes the guard, reads exactly the file of that path
    below the root, and never answers 403. *)
Theorem serveStatic_plain_path (readFile : string -> Server.read_result)
    (req : Server.request) (rs ps : list string) :
  rs <> [] -> ps <> [] ->
  Forall (fun s => Paths.plain s = true) rs ->
  Forall (fun s => Paths.plain s = true) ps ->
  Server.url req = Paths.absolute ps ->
  Server.reads (Server.serveStatic (Paths.absolute rs) readFile req)
  = [Paths.absolute (rs ++ ps)]
  /\ Server.status (Server.reply (Server.serveStatic (Paths.absolute rs) readFile req))
     <> 403.
Proof.
  intros Hrs Hps Frs Fps Hurl. unfold Server.serveStatic. rewrite Hurl.
  assert (Hq : split "?" (Paths.absolute ps) = [Paths.absolute ps]).
  { apply (split_without_separator "?"). apply free_of_app; [reflexivity|].
    apply join_free; [reflexivity|].
    eapply Forall_impl; [exact Fps|]. intros s Hs. by apply plain_spec in Hs as (_&_&_&_&Hs). }
  rewrite Hq. cbn [hd].
  assert (Hend : endsWith_char (Paths.absolute ps) "/" = false).
  { unfold Paths.absolute. rewrite endsWith_char_app; [by apply endsWith_join|].
    destruct ps as [|p ps]; [done|]. apply join_nonempty.
    inversion Fps; subst. by eapply plain_spec. }
  rewrite Hend, path_join_plain by done.
  assert (Hguard : startsWith (Paths.absolute (rs ++ ps)) (Paths.absolute rs) = true).
  { unfold Paths.absolute, startsWith. rewrite join_app by done.
    rewrite <- append_assoc. apply prefix_app. }
  rewrite Hguard. cbn [negb Server.reads Server.reply]. split; [reflexivity|].
  destruct (readFile _) as [bytes|code]; [discriminate|].
  destruct (String.eqb code "ENOENT"); discriminate.
Qed.

Lemma serveStatic_plain_path_witness :
  Server.reads
    (Server.serveStatic "/home/mathis/mathisthomsen.de" Sample.readFile
       {| Server.method := "GET"; Server.url := "/cv/index.html";
          Server.searchParams := [] |})
  = ["/home/mathis/mathisthomsen.de/cv/index.html"]
  /\ Server.status
       (Server.reply
          (Server.serveStatic "/home/mathis/mathisthomsen.de" Sample.readFile
             {| Server.method := "GET"; Server.url := "/cv/index.html";
                Server.searchParams := [] |})) <> 403.
Proof.
  apply (serveStatic_plain_path Sample.readFile
           {| Server.method := "GET"; Server.url := "/cv/index.html";
              Server.searchParams := [] |}
           ["home"; "mathis"; "mathisthomsen.de"] ["cv"; "index.html"]).
  - discriminate.
  - discriminate.
  - repeat constructor.
  - repeat constructor.
  - reflexivity.
Defined.

Lemma endsWith_char_last (a : string) (c : ascii) :
  endsWith_char (a +:+ String c "") c = true.
Proof.
  rewrite endsWith_char_app by done. cbn. apply Ascii.eqb_refl.
Qed.

(** X17: [serveStatic] looks at the path part of the URL only, and serves
    a directory URL as the [index.html] below it: a query part changes
    neither the files read nor the reply, and a URL that ends in a slash is
    handled as the same URL followed by [index.html]. *)
Theorem serveStatic_query_and_index (ROOT : string) (readFile : string -> Server.read_result)
    (m1 m2 : string) (sp1 sp2 : list (string * string)) (path query : string) :
  free_of "?" path ->
  Server.serveStatic ROOT readFile
    {| Server.method := m1; Server.url := path +:+ "?" +:+ query;
       Server.searchParams := sp1 |}
  = Server.serveStatic ROOT readFile
      {| Server.method := m2; Server.url := path; Server.searchParams := sp2 |}
  /\ Server.serveStatic ROOT readFile
       {| Server.method := m1; Server.url := path +:+ "/"; Server.searchParams := sp1 |}
     = Server.serveStatic ROOT readFile
         {| Server.method := m2; Server.url := path +:+ "/index.html";
            Server.searchParams := sp2 |}.
Proof.
  intros Hpath. unfold Server.serveStatic. cbn [Server.url]. split.
  - change ("?" +:+ query) with (String "?" query).
    rewrite split_app_sep by exact Hpath.
    by rewrite (split_without_separator "?" path Hpath).
  - assert (Hdir : free_of "?" (path +:+ "/")) by (by apply free_of_app).
    assert (Hidx : free_of "?" (path +:+ "/index.html")) by (by apply free_of_app).
    rewrite (split_without_separator "?" _ Hdir), (split_without_separator "?" _ Hidx).
    cbn [hd]. rewrite endsWith_char_last.
    rewrite (endsWith_char_app path "/index.html") by done.
    change (endsWith_char "/index.html" "/") with false.
    by rewrite append_assoc.
Qed.

Lemma serveStatic_query_and_index_witness :
  Server.serveStatic Sample.ROOT Sample.readFile
    {| Server.method := "GET"; Server.url := "/cv/?lang=en";
       Server.searchParams := [("lang", "en")] |}
  = Server.serveStatic Sample.ROOT Sample.readFile
      {| Server.method := "GET"; Server.url := "/cv/index.html";
         Server.searchParams := [] |}.
Proof.
  etransitivity.
  - apply (proj1 (serveStatic_query_and_index Sample.ROOT Sample.readFile "GET" "GET"
                    [("lang", "en")] [] "/cv/" "lang=en" eq_refl)).
  - apply (proj2 (serveStatic_query_and_index Sample.ROOT Sample.readFile "GET" "GET"
                    [] [] "/cv" "" eq_refl)).
Defined.

(** ** The section renderers of the CV *)

Lemma is_fragment_append_optional (parent : node) (child : option node) :
  is_fragment (CVRender.append_optional parent child) = is_fragment parent.
Proof. destruct child; [apply is_fragment_appendChild|reflexivity]. Qed.

Lemma renderJob_not_fragment fmt (lang : string) (job : CVRender.job) :
  is_fragment (CVRender.renderJob fmt lang job) = false.
Proof.
  unfold CVRender.renderJob.
  destruct (CVRender.job_tags job) as [[|tag more]|];
    by rewrite ?is_fragment_appendChild, ?is_fragment_append_optional,
               ?is_fragment_appendChild.
Qed.

Lemma renderProject_not_fragment (lang : string) (project : CVRender.side_project) :
  is_fragment (CVRender.renderProject lang project) = false.
Proof.
  unfold CVRender.renderProject.
  destruct (CVRender.links project) as [[|l more]|];
    rewrite ?is_fragment_appendChild;
    destruct (truthy (CVRender.sp_start project));
    by rewrite ?is_fragment_appendChild, ?el_not_fragment.
Qed.

(** Rendering a section again starts from the emptied mount. *)
Lemma on_mount_twice (id : string) (d : document) (build1 build2 : node -> node)
    tag cls attrs old ch :
  getElementById d id = Some (Element tag cls attrs old) ->
  getElementById (CVRender.on_mount id d build1) id = Some (Element tag cls attrs ch) ->
  CVRender.on_mount id (CVRender.on_mount id d build1) build2
  = CVRender.on_mount id d build2.
Proof.
  intros Hget Hfirst. unfold CVRender.on_mount at 1. rewrite Hfirst.
  unfold CVRender.on_mount in *. rewrite Hget in *.
  cbn [title Dom.lang elements set_innerHTML]. by rewrite insert_insert_eq.
Qed.

Lemma on_mount_missing (id : string) (d : document) (build : node -> node) :
  getElementById d id = None -> CVRender.on_mount id d build = d.
Proof. intros Hget. unfold CVRender.on_mount. by rewrite Hget. Qed.

Lemma on_mount_append_each {A} (id : string) (d : document) (f : A -> node) (l : list A)
    tag cls attrs old :
  (forall x, is_fragment (f x) = false) ->
  getElementById d id = Some (Element tag cls attrs old) ->
  getElementById (CVRender.on_mount id d (Portfolio.append_each f l)) id
  = Some (Element tag cls attrs (List.map f l)).
Proof.
  intros Hf Hget. rewrite (on_mount_lookup _ _ _ _ _ _ _ Hget).
  by rewrite append_each_element.
Qed.

Lemma on_mount_append_each_twice {A B} (id : string) (d : document)
    (f : A -> node) (l : list A) (g : B -> node) (k : list B) :
  (forall n, getElementById d id = Some n ->
             exists tag cls attrs ch, n = Element tag cls attrs ch) ->
  (forall x, is_fragment (f x) = false) ->
  CVRender.on_mount id (CVRender.on_mount id d (Portfolio.append_each f l))
    (Portfolio.append_each g k)
  = CVRender.on_mount id d (Portfolio.append_each g k).
Proof.
  intros Hel Hf. destruct (getElementById d id) as [n|] eqn:Hget.
  - destruct (Hel n eq_refl) as (tag & cls & attrs & ch & ->).
    eapply on_mount_twice; [exact Hget|].
    exact (on_mount_append_each id d f l _ _ _ _ Hf Hget).
  - by rewrite !on_mount_missing by (by rewrite ?on_mount_missing).
Qed.

(** X18: a section of the CV rendered again shows the last rendering
    only.  For every section renderer, rendering with one data set and
    language and then with another gives the document that the second
    rendering alone gives: nothing of the first remains. *)
Theorem cv_sections_rerender (activeLang1 activeLang2 : string)
    fmt1 fmt2 (data1 data2 : CVRender.cv) (lang1 lang2 : string) (d : document) :
  (forall id n, getElementById d id = Some n ->
                exists tag cls attrs ch, n = Element tag cls attrs ch) ->
  CVRender.renderSummary data2 lang2 (CVRender.renderSummary data1 lang1 d)
  = CVRender.renderSummary data2 lang2 d
  /\ CVRender.renderExperience fmt2 data2 lang2 (CVRender.renderExperience fmt1 data1 lang1 d)
     = CVRender.renderExperience fmt2 data2 lang2 d
  /\ CVRender.renderEducation fmt2 data2 lang2 (CVRender.renderEducation fmt1 data1 lang1 d)
     = CVRender.renderEducation fmt2 data2 lang2 d
  /\ CVRender.renderSkills activeLang2 data2 lang2
       (CVRender.renderSkills activeLang1 data1 lang1 d)
     = CVRender.renderSkills activeLang2 data2 lang2 d
  /\ CVRender.renderLanguages activeLang2 data2 lang2
       (CVRender.renderLanguages activeLang1 data1 lang1 d)
     = CVRender.renderLanguages activeLang2 data2 lang2 d
  /\ CVRender.renderCertifications data2 lang2 (CVRender.renderCertifications data1 lang1 d)
     = CVRender.renderCertifications data2 lang2 d
  /\ CVRender.renderProjects data2 lang2 (CVRender.renderProjects data1 lang1 d)
     = CVRender.renderProjects data2 lang2 d.
Proof.
  intros Hel. repeat split.
  - unfold CVRender.renderSummary.
    destruct (getElementById d "cv-summary") as [n|] eqn:Hget; [|by rewrite Hget].
    unfold getElementById at 1. cbn [elements]. rewrite lookup_insert_eq.
    cbn [title Dom.lang elements]. by rewrite insert_insert_eq, set_textContent_twice.
  - apply on_mount_append_each_twice; [apply Hel|apply renderJob_not_fragment].
  - apply on_mount_append_each_twice; [apply Hel|].
    intros edu. by rewrite !is_fragment_appendChild.
  - unfold CVRender.renderSkills at 1 3.
    destruct (getElementById d "cv-skills") as [n|] eqn:Hget.
    + destruct (Hel _ n Hget) as (tag & cls & attrs & ch & ->).
      destruct (renderSkills_mount activeLang1 data1 lang1 d _ _ _ _ Hget)
        as (groups & Hroot & _).
      eapply on_mount_twice; [exact Hget|exact Hroot].
    + unfold CVRender.renderSkills. by rewrite !on_mount_missing by (by rewrite ?on_mount_missing).
  - apply on_mount_append_each_twice; [apply Hel|].
    intros l. apply (renderLanguage_pass (fun n => n) (fun _ => "0")); apply bar_pass_none.
  - apply on_mount_append_each_twice; [apply Hel|].
    intros cert. by rewrite !is_fragment_appendChild, ?el_not_fragment.
  - apply on_mount_append_each_twice; [apply Hel|apply renderProject_not_fragment].
Qed.

Lemma cv_sections_rerender_witness :
  CVRender.renderSkills "en" SampleSite.cv_data "en"
    (CVRender.renderSkills "de" SampleSite.cv_data "de" SampleSite.cv_page)
  = CVRender.renderSkills "en" SampleSite.cv_data "en" SampleSite.cv_page.
Proof.
  apply (cv_sections_rerender "de" "en" (fun y m _ => m +:+ "/" +:+ y)
           (fun y m _ => m +:+ "/" +:+ y) SampleSite.cv_data SampleSite.cv_data
           "de" "en" SampleSite.cv_page).
  intros id n. unfold getElementById, SampleSite.cv_page, SampleSite.hidden_section.
  cbn [elements].
  intros [[_ <-] | [_ [[_ <-] | [_ [[_ <-] | [_ Hnone]]%lookup_insert_Some]]%lookup_insert_Some]]%lookup_insert_Some;
    [by eexists _, _, _, _ ..|].
  exfalso. by rewrite lookup_empty in Hnone.
Defined.

(** X19: a section renderer works on its own mount only.  Whatever the
    data, the title and the language of the document and every element
    registered under another id are as before, and without the mount the
    document is returned as it is.  The renderers are listed with their
    mounts. *)
Theorem cv_sections_frame (activeLang : string) fmt (data : CVRender.cv) (lang : string)
    (d : document) :
  Forall (fun '(render, mount) =>
            (getElementById d mount = None -> render d = d)
            /\ title (render d) = title d
            /\ Dom.lang (render d) = Dom.lang d
            /\ forall id, id <> mount ->
                 getElementById (render d) id = getElementById d id)
    [ (CVRender.renderSummary data lang, "cv-summary");
      (CVRender.renderExperience fmt data lang, "cv-experience");
      (CVRender.renderEducation fmt data lang, "cv-education");
      (CVRender.renderSkills activeLang data lang, "cv-skills");
      (CVRender.renderLanguages activeLang data lang, "cv-languages");
      (CVRender.renderCertifications data lang, "cv-certs");
      (CVRender.renderProjects data lang, "cv-projects") ].
Proof.
  assert (Hmount : forall id build,
            (getElementById d id = None -> CVRender.on_mount id d build = d)
            /\ title (CVRender.on_mount id d build) = title d
            /\ Dom.lang (CVRender.on_mount id d build) = Dom.lang d
            /\ forall id', id' <> id ->
                 getElementById (CVRender.on_mount id d build) id' = getElementById d id').
  { intros id build. split; [apply on_mount_missing|].
    split; [|split; [|intros id' Hne; by apply on_mount_other]];
      unfold CVRender.on_mount; by destruct (getElementById d id). }
  repeat constructor; try apply Hmount.
  all: unfold CVRender.renderSummary, getElementById;
       destruct (elements d !! "cv-summary") eqn:Hget; try done.
  intros id Hne. cbn [elements]. by rewrite lookup_insert_ne.
Qed.

Lemma cv_sections_frame_witness :
  getElementById (CVRender.renderSkills "de" SampleSite.cv_data "de" SampleSite.cv_page)
    "cv-languages"
  = getElementById SampleSite.cv_page "cv-languages"
  /\ CVRender.renderSummary SampleSite.cv_data "de" SampleSite.cv_page = SampleSite.cv_page.
Proof.
  pose proof (cv_sections_frame "de" (fun y m _ => m +:+ "/" +:+ y) SampleSite.cv_data "de"
                SampleSite.cv_page) as Hframe.
  split.
  - do 3 apply Forall_inv_tail in Hframe. apply Forall_inv in Hframe.
    cbn beta iota in Hframe. destruct Hframe as (_ & _ & _ & Hother).
    apply Hother. discriminate.
  - apply Forall_inv in Hframe. cbn beta iota in Hframe.
    destruct Hframe as (Hmissing & _). apply Hmissing. reflexivity.
Defined.

(** ** The filter buttons *)

Lemma buildFilterBar_children (lang : string) (projects : list Portfolio.project) :
  childNodes (PortfolioPage.buildFilterBar lang projects)
  = List.map (fun tag => setAttribute (el "button" "portfolio-filter__btn" (VStr tag))
                                      "aria-pressed" "false")
      (unique (flat_map (fun p => default [] (Portfolio.tags p)) projects)).
Proof.
  unfold PortfolioPage.buildFilterBar. cbn [el truthy setAttribute set_assoc].
  cbn. rewrite append_each_element; [reflexivity|].
  intros tag. reflexivity.
Qed.

(** X20: the click listener of a filter button is a toggle.  On every
    button of the filter bar the first click sets [aria-pressed] to
    [true], and the second click gives back the button as it was built;
    nothing else on the button changes. *)
Theorem filterButton_click_toggles (lang : string) (projects : list Portfolio.project) :
  Forall (fun btn =>
            getAttribute (PortfolioPage.filterButton_click btn) "aria-pressed" = Some "true"
            /\ PortfolioPage.filterButton_click btn
               = setAttribute btn "aria-pressed" "true"
            /\ PortfolioPage.filterButton_click (PortfolioPage.filterButton_click btn) = btn)
         (childNodes (PortfolioPage.buildFilterBar lang projects)).
Proof.
  rewrite buildFilterBar_children. apply Forall_forall.
  intros btn (tag & -> & _)%list_elem_of_fmap_1.
  rewrite el_shape. generalize (childNodes (el "button" "portfolio-filter__btn" (VStr tag))).
  intros kids. repeat split.
Qed.

(** ** Side projects *)

Lemma project_link_not_fragment (link : CVRender.link) :
  is_fragment (setAttribute (setAttribute (setAttribute
     (el "a" "cv-project__link" (CVRender.link_label link))
     "href" (to_string (CVRender.link_url link))) "target" "_blank")
     "rel" "noopener noreferrer") = false.
Proof. by rewrite el_shape. Qed.

(** X21: the period line of a side project.  Among the children of the
    project's element, a project without a start has no period line.  With
    a start there is exactly one, and it reads [start – end] when an end
    is given, and [seit start] for [de], [since start] for any other
    language, when it is not. *)
Theorem renderProject_period (lang : string) (project : CVRender.side_project) :
  let lines := children_with "cv-project__period" [CVRender.renderProject lang project] in
  (truthy (CVRender.sp_start project) = false -> lines = [])
  /\ (truthy (CVRender.sp_start project) = true ->
      exists line,
        lines = [line]
        /\ (truthy (CVRender.sp_end project) = true ->
            textContent line
            = to_string (CVRender.sp_start project) +:+ " – "
              +:+ to_string (CVRender.sp_end project))
        /\ (truthy (CVRender.sp_end project) = false ->
            (lang = "de" ->
             textContent line = "seit " +:+ to_string (CVRender.sp_start project))
            /\ (lang <> "de" ->
                textContent line = "since " +:+ to_string (CVRender.sp_start project)))).
Proof.
  cbv zeta. unfold CVRender.renderProject.
  generalize (I18n.t (CVRender.sp_title project) lang) as title.
  generalize (I18n.t (CVRender.sp_description project) lang) as desc.
  intros desc title. rewrite !el_empty.
  set (text := if truthy (CVRender.sp_end project) then _ else _).
  set (line := set_textContent (Element "p" "cv-project__period" [] []) text).
  assert (Hline : is_fragment line = false /\ has_class "cv-project__period" line = true)
    by (by split).
  assert (Htexts :
    (truthy (CVRender.sp_end project) = true ->
     textContent line
     = to_string (CVRender.sp_start project) +:+ " – "
       +:+ to_string (CVRender.sp_end project))
    /\ (truthy (CVRender.sp_end project) = false ->
        (lang = "de" ->
         textContent line = "seit " +:+ to_string (CVRender.sp_start project))
        /\ (lang <> "de" ->
            textContent line = "since " +:+ to_string (CVRender.sp_start project)))).
  { subst line. rewrite textContent_set_textContent. subst text.
    split; [by intros ->|]. intros ->.
    split; [by intros ->|]. intros Hne%String.eqb_neq. by rewrite Hne. }
  destruct Hline as [Hfrag Hclass]. clearbody line. clear text.
  assert (Hlinks : forall more,
    exists items,
      Portfolio.append_each
        (fun link =>
           setAttribute (setAttribute (setAttribute
             (el "a" "cv-project__link" (CVRender.link_label link))
             "href" (to_string (CVRender.link_url link))) "target" "_blank")
             "rel" "noopener noreferrer")
        more (Element "div" "cv-project__links" [] [])
      = Element "div" "cv-project__links" [] items).
  { intros more. eexists.
    by rewrite append_each_element by (intros; apply project_link_not_fragment). }
  destruct (CVRender.links project) as [[|l more]|];
    try destruct (Hlinks (l :: more)) as [items ->];
    (split; intros Hstart; rewrite Hstart;
     [|exists line; split; [|exact Htexts]]);
    rewrite !appendChild_single
      by first [apply el_not_fragment | exact Hfrag | reflexivity];
    rewrite children_with_cons, children_with_nil;
    cbn [childNodes List.filter app]; rewrite ?Hclass; has_class_norm; reflexivity.
Qed.

Lemma renderProject_period_witness :
  exists line,
    children_with "cv-project__period"
      [CVRender.renderProject "en"
         {| CVRender.sp_title := VStr "Evidoxa"; CVRender.sp_start := VStr "2021";
            CVRender.sp_end := VUndefined;
            CVRender.sp_description := Portfolio.de_en "Werkzeug" "Tool";
            CVRender.links := None |}] = [line]
    /\ textContent line = "since 2021".
Proof.
  pose proof (renderProject_period "en"
                {| CVRender.sp_title := VStr "Evidoxa"; CVRender.sp_start := VStr "2021";
                   CVRender.sp_end := VUndefined;
                   CVRender.sp_description := Portfolio.de_en "Werkzeug" "Tool";
                   CVRender.links := None |}) as Hperiod.
  cbv zeta in Hperiod.
  destruct (proj2 Hperiod eq_refl) as (line & Hsel & _ & Hopen).
  exists line. split; [exact Hsel|].
  apply (proj2 (Hopen eq_refl)). discriminate.
Defined.

(** ** The language toggle of the CV *)

Lemma select_children (p : node -> bool) (n : node) :
  select p n = (if p n then [n] else []) ++ flat_map (select p) (childNodes n).
Proof. by destruct n. Qed.

Lemma find_set_assoc_eq (k v : string) (attrs : list (string * string)) :
  List.find (fun kv => String.eqb (fst kv) k) (set_assoc k v attrs) = Some (k, v).
Proof.
  induction attrs as [|[k' v'] attrs IH]; cbn.
  - by rewrite String.eqb_refl.
  - destruct (String.eqb k' k) eqn:Hk; cbn; [by rewrite String.eqb_refl|by rewrite Hk].
Qed.

Lemma find_set_assoc_ne (k k' v : string) (attrs : list (string * string)) :
  k <> k' ->
  List.find (fun kv => String.eqb (fst kv) k') (set_assoc k v attrs)
  = List.find (fun kv => String.eqb (fst kv) k') attrs.
Proof.
  intros Hne. apply String.eqb_neq in Hne.
  induction attrs as [|[k0 v0] attrs IH]; cbn.
  - by rewrite Hne.
  - destruct (String.eqb k0 k) eqn:Hk; cbn.
    + apply String.eqb_eq in Hk as ->. by rewrite Hne.
    + by rewrite IH.
Qed.

Lemma getAttribute_setAttribute_eq tag cls attrs ch (k v : string) :
  getAttribute (setAttribute (Element tag cls attrs ch) k v) k = Some v.
Proof. cbn [setAttribute getAttribute]. by rewrite find_set_assoc_eq. Qed.

Lemma getAttribute_setAttribute_ne (n : node) (k k' v : string) :
  k <> k' -> getAttribute (setAttribute n k v) k' = getAttribute n k'.
Proof.
  intros Hne. destruct n; try reflexivity.
  cbn [setAttribute getAttribute]. by rewrite find_set_assoc_ne.
Qed.

(** A pass that changes attributes only: what it establishes on the
    elements it selects, and what it keeps. *)
Lemma update_where_establishes (p : node -> bool) (f : node -> node) (Q : node -> Prop) :
  (forall tag cls attrs ch ch',
      p (Element tag cls attrs ch) = p (Element tag cls attrs ch')) ->
  (forall n, p n = true -> exists tag cls attrs ch, n = Element tag cls attrs ch) ->
  (forall tag cls attrs ch,
      p (Element tag cls attrs ch) = true ->
      childNodes (f (Element tag cls attrs ch)) = ch
      /\ (p (f (Element tag cls attrs ch)) = true -> Q (f (Element tag cls attrs ch)))) ->
  forall root, Forall Q (select p (update_where p f root)).
Proof.
  intros Hp Hel Hf.
  induction root as [tag cls attrs ch IH|s|s|s|ch IH] using node_tree_ind.
  - rewrite update_where_Element.
    set (kids := List.map (update_where p f) ch).
    assert (Hkids : Forall Q (flat_map (select p) kids)).
    { apply Forall_flat_map_each, Forall_forall. intros n (c & -> & Hc)%list_elem_of_fmap_1.
      by apply (proj1 (Forall_forall _ _) IH). }
    destruct (p (Element tag cls attrs ch)) eqn:Hsel.
    + rewrite (Hp _ _ _ _ kids) in Hsel. destruct (Hf _ _ _ _ Hsel) as [Hch HQ].
      rewrite select_children, Hch. apply Forall_app. split; [|exact Hkids].
      destruct (p (f _)) eqn:Hpf; repeat constructor. by apply HQ.
    + rewrite (Hp _ _ _ _ kids) in Hsel.
      rewrite select_children, Hsel. exact Hkids.
  - change (update_where p f (Text s)) with (Text s). rewrite select_children.
    destruct (p (Text s)) eqn:Hsel; [|constructor].
    by destruct (Hel _ Hsel) as (? & ? & ? & ? & ?).
  - change (update_where p f (Markup s)) with (Markup s). rewrite select_children.
    destruct (p (Markup s)) eqn:Hsel; [|constructor].
    by destruct (Hel _ Hsel) as (? & ? & ? & ? & ?).
  - change (update_where p f (Svg s)) with (Svg s). rewrite select_children.
    destruct (p (Svg s)) eqn:Hsel; [|constructor].
    by destruct (Hel _ Hsel) as (? & ? & ? & ? & ?).
  - rewrite update_where_Fragment, select_children.
    destruct (p (Fragment _)) eqn:Hsel;
      [by destruct (Hel _ Hsel) as (? & ? & ? & ? & ?)|].
    apply Forall_flat_map_each, Forall_forall. intros n (c & -> & Hc)%list_elem_of_fmap_1.
    by apply (proj1 (Forall_forall _ _) IH).
Qed.

Lemma update_where_keeps {B} (p : node -> bool) (f : node -> node) (g : node -> B) :
  (forall tag cls attrs ch ch',
      p (Element tag cls attrs ch) = p (Element tag cls attrs ch')
      /\ g (Element tag cls attrs ch) = g (Element tag cls attrs ch')) ->
  (forall n, p n = true -> exists tag cls attrs ch, n = Element tag cls attrs ch) ->
  (forall tag cls attrs ch,
      childNodes (f (Element tag cls attrs ch)) = ch
      /\ p (f (Element tag cls attrs ch)) = p (Element tag cls attrs ch)
      /\ g (f (Element tag cls attrs ch)) = g (Element tag cls attrs ch)) ->
  forall root, List.map g (select p (update_where p f root)) = List.map g (select p root).
Proof.
  intros Hp Hel Hf.
  assert (Hlist : forall ch,
            Forall (fun n => List.map g (select p (update_where p f n))
                             = List.map g (select p n)) ch ->
            List.map g (flat_map (select p) (List.map (update_where p f) ch))
            = List.map g (flat_map (select p) ch)).
  { induction 1 as [|c ch Hc _ IHch]; [reflexivity|].
    cbn [List.map flat_map]. by rewrite !List.map_app, Hc, IHch. }
  induction root as [tag cls attrs ch IH|s|s|s|ch IH] using node_tree_ind;
    try reflexivity.
  - rewrite update_where_Element.
    set (kids := List.map (update_where p f) ch).
    destruct (Hp tag cls attrs ch kids) as [Hpk Hgk].
    destruct (Hf tag cls attrs kids) as (Hch & Hpf & Hgf).
    rewrite (select_children p (Element tag cls attrs ch)). cbn [childNodes].
    destruct (p (Element tag cls attrs ch)) eqn:Hsel.
    + rewrite select_children, Hch, Hpf, <- Hpk. rewrite !List.map_app.
      cbn [List.map]. rewrite Hgf, <- Hgk. f_equal. by apply Hlist.
    + rewrite select_children, <- Hpk. cbn [childNodes app]. by apply Hlist.
  - assert (Hfrag : forall l, p (Fragment l) = false).
    { intros l. destruct (p (Fragment l)) eqn:Hsel; [|reflexivity].
      by destruct (Hel _ Hsel) as (? & ? & ? & ? & ?). }
    rewrite update_where_Fragment, !select_children, !Hfrag. cbn [childNodes app].
    by apply Hlist.
Qed.

Lemma update_toggle_button_spec (l : string) tag cls attrs ch :
  exists attrs',
    CV.update_toggle_button l (Element tag cls attrs ch) = Element tag cls attrs' ch
    /\ getAttribute (Element tag cls attrs' ch) "data-lang"
       = getAttribute (Element tag cls attrs ch) "data-lang"
    /\ getAttribute (Element tag cls attrs' ch) "aria-pressed"
       = Some (if bool_decide (getAttribute (Element tag cls attrs ch) "data-lang" = Some l)
               then "true" else "false").
Proof.
  unfold CV.update_toggle_button, Portfolio.dataset.
  change ("data-" +:+ "lang") with "data-lang".
  set (n := Element tag cls attrs ch).
  assert (Hpressed :
    (if Portfolio.strict_eq_str l
          match getAttribute n "data-lang" with Some s => VStr s | None => VUndefined end
     then "true" else "false")
    = (if bool_decide (getAttribute n "data-lang" = Some l) then "true" else "false")).
  { destruct (getAttribute n "data-lang") as [s|]; cbn [Portfolio.strict_eq_str].
    - destruct (String.eqb_spec l s) as [->|Hne].
      + by rewrite bool_decide_eq_true_2.
      + rewrite bool_decide_eq_false_2; [reflexivity|]. intros [= ->]. by apply Hne.
    - by rewrite bool_decide_eq_false_2. }
  rewrite Hpressed. clear Hpressed.
  set (v := if bool_decide _ then "true" else "false").
  assert (Hshape : forall w,
    exists attrs',
      setAttribute (setAttribute n "aria-pressed" v) "aria-label" w
      = Element tag cls attrs' ch
      /\ getAttribute (Element tag cls attrs' ch) "data-lang" = getAttribute n "data-lang"
      /\ getAttribute (Element tag cls attrs' ch) "aria-pressed" = Some v).
  { intros w. eexists. split; [reflexivity|].
    change (Element tag cls (set_assoc "aria-label" w (set_assoc "aria-pressed" v attrs)) ch)
      with (setAttribute (setAttribute n "aria-pressed" v) "aria-label" w).
    rewrite !getAttribute_setAttribute_ne by done.
    split; [reflexivity|]. apply getAttribute_setAttribute_eq. }
  destruct (Portfolio.strict_eq_str "de" _); apply Hshape.
Qed.

(** X22: the toggle buttons after a language switch on the CV.  When
    [renderAll] leaves the element that holds the toggle alone, [setLang]
    with a supported code keeps its buttons as they are, in order, and
    sets [aria-pressed] on each of them: [true] on the buttons whose
    [data-lang] is the new language, [false] on every other one. *)
Theorem cv_setLang_toggle_buttons (cv_data : Type)
    (renderAll : cv_data -> string -> document -> document)
    (code : string) (st : CV.state cv_data) (key : string) (toggle : node) :
  supported code ->
  (forall cv l d, getElementById (renderAll cv l d) key = getElementById d key) ->
  getElementById (CV.doc cv_data st) key = Some toggle ->
  exists toggle',
    getElementById (CV.doc cv_data (CV.setLang cv_data renderAll (VStr code) st)) key
    = Some toggle'
    /\ List.map (fun btn => getAttribute btn "data-lang")
         (select (has_class "cv-lang-toggle__btn") toggle')
       = List.map (fun btn => getAttribute btn "data-lang")
           (select (has_class "cv-lang-toggle__btn") toggle)
    /\ Forall (fun btn =>
                 (getAttribute btn "data-lang" = Some code ->
                  getAttribute btn "aria-pressed" = Some "true")
                 /\ (getAttribute btn "data-lang" <> Some code ->
                     getAttribute btn "aria-pressed" = Some "false"))
              (select (has_class "cv-lang-toggle__btn") toggle').
Proof.
  intros Hcode Hframe Hget.
  assert (Hinc : includes I18n.SUPPORTED_LANGS (VStr code) = true).
  { rewrite includes_supported. by apply bool_decide_eq_true_2, supported_elem_of. }
  exists (update_where (has_class "cv-lang-toggle__btn") (CV.update_toggle_button code) toggle).
  split; [|split].
  - unfold CV.setLang. rewrite Hinc. cbn [negb to_string].
    destruct (CV.cvData cv_data st) as [cv|]; cbn [CV.doc]; rewrite ?Hframe;
      unfold getElementById in *; cbn [elements]; by rewrite lookup_fmap, Hget.
  - apply update_where_keeps.
    + by split.
    + intros [tag cls attrs ch| | | |] Hn; try discriminate Hn. by eexists _, _, _, _.
    + intros tag cls attrs ch.
      destruct (update_toggle_button_spec code tag cls attrs ch) as (attrs' & -> & Hl & _).
      by repeat split.
  - apply update_where_establishes.
    + reflexivity.
    + intros [tag cls attrs ch| | | |] Hn; try discriminate Hn. by eexists _, _, _, _.
    + intros tag cls attrs ch _.
      destruct (update_toggle_button_spec code tag cls attrs ch) as (attrs' & -> & Hl & Hp).
      split; [reflexivity|]. intros _. rewrite Hl, Hp. split.
      * intros Hlang. by rewrite bool_decide_eq_true_2.
      * intros Hlang. by rewrite bool_decide_eq_false_2.
Qed.

Lemma cv_setLang_toggle_buttons_witness :
  exists toggle',
    getElementById
      (CV.doc unit
         (CV.setLang unit (fun _ _ d => d) (VStr "en")
            {| CV.activeLang := "de"; CV.cvData := Some tt; CV.storage := ∅;
               CV.doc := SampleSite.cv_toggle_page; CV.dispatched := [] |}))
      "cv-toggle" = Some toggle'
    /\ List.map (fun btn => getAttribute btn "data-lang")
         (select (has_class "cv-lang-toggle__btn") toggle')
       = [Some "de"; Some "en"]
    /\ Forall (fun btn =>
                 (getAttribute btn "data-lang" = Some "en" ->
                  getAttribute btn "aria-pressed" = Some "true")
                 /\ (getAttribute btn "data-lang" <> Some "en" ->
                     getAttribute btn "aria-pressed" = Some "false"))
              (select (has_class "cv-lang-toggle__btn") toggle').
Proof.
  apply (cv_setLang_toggle_buttons unit (fun _ _ d => d) "en"
           {| CV.activeLang := "de"; CV.cvData := Some tt; CV.storage := ∅;
              CV.doc := SampleSite.cv_toggle_page; CV.dispatched := [] |}
           "cv-toggle" SampleSite.cv_toggle).
  - by right.
  - reflexivity.
  - reflexivity.
Defined.
